(** * Year binning of date-ranged records (src/utils.py)

    A shallow embedding of the pandas code of [utils.py]: the derived
    column [dens_per_year] and the three yearly aggregators
    [year_freq_series], [year_site_count_series] and
    [year_type_count_series], together with the labelled-series
    constructor [create_series].

    Modelling decisions.
    - A float64 cell is a [num]: not-a-number (pandas' null), a signed
      infinity, or a finite rational.  Comparison, minimum, maximum and
      the conversion to an integer are exact on floats, so they are
      computed on the rational.  Addition, subtraction and division
      round: the rounding of an exact finite result is the parameter
      [rnd], about which nothing is assumed.  Negative zero is not
      distinguished from zero.
    - Python's [int] is unbounded; [Series.astype(int)] casts to a
      64-bit integer, and a date that does not fit becomes the least
      64-bit integer, as the conversion does on x86-64.
    - A data frame is a row count and an association list of named
      columns, in column order.  A column is numeric or holds lists of
      strings (the site lists).
    - Data frames are mutable objects: they live in a store and are
      passed by reference.  [dropna] allocates a new frame; the item
      assignment of [dens_per_year] updates the frame it is given.
    - Python exceptions are the [Raise] outcomes of a state and error
      monad over the store.
    - A [dict] is an association list in insertion order. *)

From Stdlib Require Import ZArith QArith Qround List String Lia Bool.
From stdpp Require Import base list strings gmap.

Local Open Scope Z_scope.
Local Open Scope list_scope.

(** ** Numbers *)

Inductive num : Type :=
| NaN
| Inf (negative : bool)
| Fin (q : Q).

Definition isna (x : num) : bool :=
  match x with NaN => true | _ => false end.

Definition is_fin (x : num) : bool :=
  match x with Fin _ => true | _ => false end.

(** Python's [int(x)] on a finite float: truncation toward zero, without
    bound. *)
Definition Qtrunc (q : Q) : Z := Z.quot (Qnum q) (Zpos (Qden q)).

(** [int] of a cell known to be finite, as in the bin range. *)
Definition num_trunc (x : num) : Z :=
  match x with Fin q => Qtrunc q | _ => 0 end.

(** The bounds of a 64-bit integer. *)
Definition int64_min : Z := - 2 ^ 63.
Definition int64_max : Z := 2 ^ 63 - 1.

(** The cast of a finite float to a 64-bit integer, as [astype(int)]
    does it: truncation toward zero when the result fits, and
    [int64_min] when it does not. *)
Definition cast_int64 (q : Q) : Z :=
  let t := Qtrunc q in
  if (int64_min <=? t) && (t <=? int64_max) then t else int64_min.

Definition num_int64 (x : num) : Z :=
  match x with Fin q => cast_int64 q | _ => 0 end.

(** [<=] on floats; false as soon as an operand is not-a-number. *)
Definition num_leb (a b : num) : bool :=
  match a, b with
  | NaN, _ | _, NaN => false
  | Inf true, _ => true
  | _, Inf false => true
  | Inf false, _ => false
  | _, Inf true => false
  | Fin x, Fin y => Qle_bool x y
  end.

(** [==] on floats. *)
Definition num_eqb (a b : num) : bool :=
  match a, b with
  | Inf s, Inf t => Bool.eqb s t
  | Fin x, Fin y => Qeq_bool x y
  | _, _ => false
  end.

Section Arith.
(** Rounding of an exact finite result to a float; it may overflow to
    an infinity. *)
Variable rnd : Q -> num.

Definition fadd (a b : num) : num :=
  match a, b with
  | NaN, _ | _, NaN => NaN
  | Inf s, Inf t => if Bool.eqb s t then Inf s else NaN
  | Inf s, Fin _ => Inf s
  | Fin _, Inf t => Inf t
  | Fin x, Fin y => rnd (x + y)%Q
  end.

(** The difference of two equal finite floats is exactly zero. *)
Definition fsub (a b : num) : num :=
  match a, b with
  | NaN, _ | _, NaN => NaN
  | Inf s, Inf t => if Bool.eqb s t then NaN else Inf s
  | Inf s, Fin _ => Inf s
  | Fin _, Inf t => Inf (negb t)
  | Fin x, Fin y => if Qeq_bool x y then Fin 0%Q else rnd (x - y)%Q
  end.

Definition Qneg (q : Q) : bool := (Qnum q <? 0)%Z.

(** Float division: a zero divisor gives an infinity, or not-a-number
    for a zero dividend; nothing is raised. *)
Definition fdiv (a b : num) : num :=
  match a, b with
  | NaN, _ | _, NaN => NaN
  | Inf _, Inf _ => NaN
  | Inf s, Fin y => Inf (xorb s (Qneg y))
  | Fin _, Inf _ => Fin 0%Q
  | Fin x, Fin y =>
      if Qeq_bool y 0%Q
      then (if Qeq_bool x 0%Q then NaN else Inf (Qneg x))
      else rnd (x / y)%Q
  end.
End Arith.

(** ** Exceptions *)

Inductive key : Type :=
| KStr (s : string)
| KInt (z : Z).

Inductive exn : Type :=
| KeyError (k : key)
| ValueError
| TypeError
| OverflowError
| IndexError
| NameError.

Inductive result (A : Type) : Type :=
| Ok (a : A)
| Raise (e : exn).
Arguments Ok {A} a.
Arguments Raise {A} e.

Definition rbind {A B} (r : result A) (k : A -> result B) : result B :=
  match r with
  | Ok a => k a
  | Raise e => Raise e
  end.

(** ** Columns and data frames *)

Inductive column : Type :=
| NumCol (xs : list num)
| ObjCol (xs : list (list string)).

(** A value read out of a column. *)
Inductive scalar : Type :=
| SNum (x : num)
| SObj (l : list string).

Record DataFrame : Type := mkDataFrame {
  df_len : nat;
  df_cols : list (string * column)
}.

Definition col_len (c : column) : nat :=
  match c with
  | NumCol xs => length xs
  | ObjCol xs => length xs
  end.

Fixpoint assoc_get {V} (l : list (string * V)) (c : string) : option V :=
  match l with
  | [] => None
  | (c', v) :: l' => if String.eqb c' c then Some v else assoc_get l' c
  end.

(** Item assignment on the columns: an existing column is replaced where
    it stands, a new one is appended. *)
Fixpoint assoc_set {V} (l : list (string * V)) (c : string) (v : V)
  : list (string * V) :=
  match l with
  | [] => [(c, v)]
  | (c', v') :: l' =>
      if String.eqb c' c then (c', v) :: l' else (c', v') :: assoc_set l' c v
  end.

Definition df_get (df : DataFrame) (c : string) : option column :=
  assoc_get (df_cols df) c.

Definition df_set (df : DataFrame) (c : string) (v : column) : DataFrame :=
  {| df_len := df_len df; df_cols := assoc_set (df_cols df) c v |}.

(** Every column has one cell per row. *)
Definition df_wf (df : DataFrame) : bool :=
  forallb (fun cv => Nat.eqb (col_len (snd cv)) (df_len df)) (df_cols df).

(** Rows kept by [dropna(subset=[c])]: those whose cell in [c] is not
    null.  A list of strings is never null. *)
Definition notna_mask (c : column) : list bool :=
  match c with
  | NumCol xs => map (fun x => negb (isna x)) xs
  | ObjCol xs => map (fun _ => true) xs
  end.

Fixpoint keep {A} (mask : list bool) (l : list A) : list A :=
  match mask, l with
  | b :: mask', x :: l' => if b then x :: keep mask' l' else keep mask' l'
  | _, _ => []
  end.

Definition col_keep (mask : list bool) (c : column) : column :=
  match c with
  | NumCol xs => NumCol (keep mask xs)
  | ObjCol xs => ObjCol (keep mask xs)
  end.

(** The row index [0 .. df_len - 1] is filtered like every column. *)
Definition df_keep (mask : list bool) (df : DataFrame) : DataFrame :=
  {| df_len := length (keep mask (seq 0 (df_len df)));
     df_cols := map (fun cv => (fst cv, col_keep mask (snd cv))) (df_cols df) |}.

(** ** Reductions and conversions on columns *)

(** Minimum and maximum that skip nulls, as [Series.min] and
    [Series.max] do; the result is null when nothing is left. *)
Definition num_min (a b : num) : num :=
  match a, b with
  | NaN, _ => b
  | _, NaN => a
  | _, _ => if num_leb a b then a else b
  end.

Definition num_max (a b : num) : num :=
  match a, b with
  | NaN, _ => b
  | _, NaN => a
  | _, _ => if num_leb a b then b else a
  end.

(** Reductions over a column of lists are outside the numeric domain of
    the code; they are collapsed to a type error. *)
Definition col_min (c : column) : result num :=
  match c with
  | NumCol xs => Ok (fold_left num_min xs NaN)
  | ObjCol [] => Ok NaN
  | ObjCol (_ :: _) => Raise TypeError
  end.

Definition col_max (c : column) : result num :=
  match c with
  | NumCol xs => Ok (fold_left num_max xs NaN)
  | ObjCol [] => Ok NaN
  | ObjCol (_ :: _) => Raise TypeError
  end.

(** [int(x)] on a float. *)
Definition py_int (x : num) : result Z :=
  match x with
  | NaN => Raise ValueError
  | Inf _ => Raise OverflowError
  | Fin q => Ok (Qtrunc q)
  end.

(** [Series.astype(int)]: refused as soon as a cell is null or infinite,
    and otherwise the 64-bit cast of every cell. *)
Definition astype_int (c : column) : result (list Z) :=
  match c with
  | NumCol xs =>
      if forallb is_fin xs
      then Ok (map num_int64 xs)
      else Raise ValueError
  | ObjCol [] => Ok []
  | ObjCol (_ :: _) => Raise TypeError
  end.

(** [.iloc[i]] *)
Definition iloc {A} (l : list A) (i : nat) : result A :=
  match l !! i with
  | Some a => Ok a
  | None => Raise IndexError
  end.

Definition col_iloc (c : column) (i : nat) : result scalar :=
  match c with
  | NumCol xs => rbind (iloc xs i) (fun x => Ok (SNum x))
  | ObjCol xs => rbind (iloc xs i) (fun l => Ok (SObj l))
  end.

(** ** Dictionaries and series *)

Definition dict (V : Type) : Type := list (Z * V).

(** [range(a, b)] *)
Definition range (a b : Z) : list Z :=
  map (fun i => a + Z.of_nat i) (seq 0 (Z.to_nat (b - a))).

Definition fromkeys {V} (ks : list Z) (v : V) : dict V :=
  map (fun k => (k, v)) ks.

Fixpoint dict_lookup {V} (d : dict V) (k : Z) : option V :=
  match d with
  | [] => None
  | (k', v) :: d' => if Z.eqb k' k then Some v else dict_lookup d' k
  end.

(** [d[k]] *)
Definition dict_get {V} (d : dict V) (k : Z) : result V :=
  match dict_lookup d k with
  | Some v => Ok v
  | None => Raise (KeyError (KInt k))
  end.

(** [d[k] = v] *)
Fixpoint dict_set {V} (d : dict V) (k : Z) (v : V) : dict V :=
  match d with
  | [] => [(k, v)]
  | (k', v') :: d' =>
      if Z.eqb k' k then (k', v) :: d' else (k', v') :: dict_set d' k v
  end.

Definition keys {V} (d : dict V) : list Z := map fst d.

Record Series (V : Type) : Type := mkSeries {
  s_name : string;
  s_index_name : string;
  s_items : list (Z * V)
}.
Arguments mkSeries {V}.
Arguments s_name {V}.
Arguments s_index_name {V}.
Arguments s_items {V}.

(** The index of a series, in order. *)
Definition s_index {V} (s : Series V) : list Z := map fst (s_items s).

(** The value of a series at a label. *)
Definition s_at {V} (s : Series V) (y : Z) : option V :=
  dict_lookup (s_items s) y.

(** [pd.Series(data, name=name)] with the index named; the frame built
    by [reset_index()] is discarded. *)
Definition create_series {V} (data : dict V) (name index_name : string)
  : Series V :=
  mkSeries name index_name data.

(** ** The store and its monad *)

Definition ref : Type := nat.
Definition store : Type := list DataFrame.

Definition M (A : Type) : Type := store -> store * result A.

Definition ret {A} (a : A) : M A := fun st => (st, Ok a).

Definition raise {A} (e : exn) : M A := fun st => (st, Raise e).

Definition bind {A B} (m : M A) (k : A -> M B) : M B :=
  fun st =>
    match m st with
    | (st', Ok a) => k a st'
    | (st', Raise e) => (st', Raise e)
    end.

Definition lift {A} (r : result A) : M A := fun st => (st, r).

Notation "'let*' x ':=' m 'in' k" := (bind m (fun x => k))
  (at level 10, x name, m at level 100, k at level 200).

(** [for x in l: s = body(s, x)] *)
Fixpoint for_each {A S} (l : list A) (body : S -> A -> M S) (s : S) : M S :=
  match l with
  | [] => ret s
  | x :: l' => let* s' := body s x in for_each l' body s'
  end.

Definition deref (d : ref) : M DataFrame :=
  fun st =>
    match st !! d with
    | Some df => (st, Ok df)
    | None => (st, Raise NameError)
    end.

(** [data[c]] *)
Definition getitem (d : ref) (c : string) : M column :=
  let* df := deref d in
  match df_get df c with
  | Some col => ret col
  | None => raise (KeyError (KStr c))
  end.

(** [data[c] = col]: the frame is updated where it is. *)
Definition setitem (d : ref) (c : string) (col : column) : M unit :=
  let* df := deref d in
  fun st => (<[d := df_set df c col]> st, Ok tt).

(** [data.dropna(subset=[c])]: a new frame; [data] is left as it is. *)
Definition dropna (d : ref) (c : string) : M ref :=
  let* df := deref d in
  let* col := getitem d c in
  fun st => (st ++ [df_keep (notna_mask col) df], Ok (length st)).

(** [len(data)] *)
Definition len (d : ref) : M nat :=
  let* df := deref d in ret (df_len df).

(** ** Element-wise arithmetic on columns *)

Definition col_binop (op : num -> num -> num) (a b : column) : result column :=
  match a, b with
  | NumCol xs, NumCol ys => Ok (NumCol (zip_with op xs ys))
  | _, _ =>
      if Nat.eqb (col_len a) 0 && Nat.eqb (col_len b) 0
      then Ok (ObjCol [])
      else Raise TypeError
  end.

(** [acc + v] for a float accumulator. *)
Definition py_add (rnd : Q -> num) (acc : num) (v : scalar) : result num :=
  match v with
  | SNum x => Ok (fadd rnd acc x)
  | SObj _ => Raise TypeError
  end.

(** [[item for sublist in result_list for item in sublist]] *)
Fixpoint flatten (l : list scalar) : result (list string) :=
  match l with
  | [] => Ok []
  | SObj sub :: l' => rbind (flatten l') (fun rest => Ok (sub ++ rest))
  | SNum _ :: _ => Raise TypeError
  end.

(** [len(set(l))] *)
Definition distinct (l : list string) : Z :=
  Z.of_nat (size (list_to_set l : gset string)).

(** ** The program *)

Definition dens_per_year (rnd : Q -> num) (data : ref)
    (type_dens lower_date upper_date output_column : string) : M ref :=
  let* q := getitem data type_dens in
  let* u := getitem data upper_date in
  let* l := getitem data lower_date in
  let* d := lift (col_binop (fsub rnd) u l) in
  let* r := lift (col_binop (fdiv rnd) q d) in
  let* _ := setitem data output_column r in
  ret data.

(** [df[c].astype(int).iloc[row]] *)
Definition int_at (df : ref) (c : string) (row : nat) : M Z :=
  let* col := getitem df c in
  let* ints := lift (astype_int col) in
  lift (iloc ints row).

Definition year_freq_series (rnd : Q -> num) (data : ref)
    (lower_date upper_date dens_per_year name index_name : string)
  : M (Series num) :=
  let* lo := getitem data lower_date in
  let* minimum := lift (col_min lo) in
  let* hi := getitem data upper_date in
  let* maximum := lift (col_max hi) in
  let* a := lift (py_int minimum) in
  let* b := lift (py_int maximum) in
  let date_dict := fromkeys (range a b) (Fin 0%Q) in
  let* df := dropna data lower_date in
  let* df := dropna df upper_date in
  let* n := len df in
  let* date_dict :=
    for_each (seq 0 n) (fun date_dict row =>
      let* start := int_at df lower_date row in
      let* stop := int_at df upper_date row in
      for_each (range start stop) (fun date_dict year =>
        let* old := lift (dict_get date_dict year) in
        let* col := getitem df dens_per_year in
        let* v := lift (col_iloc col row) in
        let* new := lift (py_add rnd old v) in
        ret (dict_set date_dict year new)) date_dict) date_dict in
  ret (create_series date_dict name index_name).

(** The chained comparison [lower <= year <= upper] on row [row]; the
    upper date is only read when the first comparison holds. *)
Definition covers (df : ref) (lower_date upper_date : string)
    (row : nat) (year : Z) : M bool :=
  let* lo := int_at df lower_date row in
  if lo <=? year
  then let* hi := int_at df upper_date row in ret (year <=? hi)
  else ret false.

Definition year_site_count_series (data : ref)
    (lower_date upper_date site_list name index_name : string)
  : M (Series Z) :=
  let* lo := getitem data lower_date in
  let* minimum := lift (col_min lo) in
  let* hi := getitem data upper_date in
  let* maximum := lift (col_max hi) in
  let* a := lift (py_int minimum) in
  let* b := lift (py_int maximum) in
  let date_dict := fromkeys (range a b) 0 in
  let* df := dropna data lower_date in
  let* df := dropna df upper_date in
  let* date_dict :=
    for_each (keys date_dict) (fun date_dict year =>
      let* n := len df in
      let* result_list :=
        for_each (seq 0 n) (fun result_list row =>
          let* c := covers df lower_date upper_date row year in
          if c
          then
            let* col := getitem df site_list in
            let* v := lift (col_iloc col row) in
            ret (result_list ++ [v])
          else ret result_list) [] in
      let length := length result_list in
      if Nat.eqb length 0
      then ret date_dict
      else
        let* flat_list := lift (flatten result_list) in
        ret (dict_set date_dict year (distinct flat_list))) date_dict in
  ret (create_series date_dict name index_name).

Definition year_type_count_series (data : ref)
    (lower_date upper_date name index_name : string)
  : M (Series Z) :=
  let* lo := getitem data lower_date in
  let* minimum := lift (col_min lo) in
  let* hi := getitem data upper_date in
  let* maximum := lift (col_max hi) in
  let* a := lift (py_int minimum) in
  let* b := lift (py_int maximum) in
  let date_dict := fromkeys (range a b) 0 in
  let* df := dropna data lower_date in
  let* df := dropna df upper_date in
  let* date_dict :=
    for_each (keys date_dict) (fun date_dict year =>
      let* n := len df in
      let* counter :=
        for_each (seq 0 n) (fun counter row =>
          let* c := covers df lower_date upper_date row year in
          if c then ret (counter + 1) else ret counter) 0 in
      ret (dict_set date_dict year counter)) date_dict in
  ret (create_series date_dict name index_name).

(** ** Plotting *)

(** One call of [sns.lineplot], with its arguments. *)
Record lineplot (V : Type) : Type := mkLineplot {
  lp_data : option (Series V);
  lp_label : string;
  lp_color : string;
  lp_linewidth : Z;
  lp_linestyle : string
}.
Arguments mkLineplot {V}.
Arguments lp_data {V}.
Arguments lp_label {V}.
Arguments lp_color {V}.
Arguments lp_linewidth {V}.
Arguments lp_linestyle {V}.

(** The drawing is seaborn's; the axes are the list of the calls made on
    them, in order.  A Python [dict] of series is an association list in
    insertion order, and [dict.get] is [assoc_get]. *)
Definition plot_graph {V} (dict_w_series : list (string * Series V))
    (ax : list (lineplot V)) (palette : list string)
    (linewidth : Z) (linestyle : string) : list (lineplot V) :=
  fold_left
    (fun ax kc =>
       let key := fst kc in
       let colour := snd kc in
       let data := assoc_get dict_w_series key in
       ax ++ [mkLineplot data key colour linewidth linestyle])
    (zip (map fst dict_w_series) palette) ax.

(** * Specification vocabulary

    The definitions the statements below are written in: the table read
    as a list of rows, the interval tests, the values of the three
    series in the words of the specification, and the example tables. *)

(** A year bound is a finite number or null. *)
Definition year_bound (x : num) : bool :=
  match x with Inf _ => false | _ => true end.

(** The cells of a numeric column, and of a column of lists. *)
Definition num_col (df : DataFrame) (c : string) : list num :=
  match df_get df c with Some (NumCol xs) => xs | _ => [] end.

Definition obj_col (df : DataFrame) (c : string) : list (list string) :=
  match df_get df c with Some (ObjCol xs) => xs | _ => [] end.

Definition is_num_col (df : DataFrame) (c : string) : bool :=
  match df_get df c with Some (NumCol _) => true | _ => false end.

Definition is_obj_col (df : DataFrame) (c : string) : bool :=
  match df_get df c with Some (ObjCol _) => true | _ => false end.

(** The tables the aggregators are meant for: the two date columns are
    numeric, every date is a year bound (finite or null), and each date
    column has at least one date. *)
Definition dated_table (df : DataFrame) (lower_date upper_date : string) : bool :=
  df_wf df
  && is_num_col df lower_date && is_num_col df upper_date
  && forallb year_bound (num_col df lower_date)
  && forallb year_bound (num_col df upper_date)
  && existsb is_fin (num_col df lower_date)
  && existsb is_fin (num_col df upper_date).

(** [m] is the least of the non-null cells of [xs]. *)
Definition least (m : Q) (xs : list num) : Prop :=
  In (Fin m) xs /\ forall x, In x xs -> isna x = false -> num_leb (Fin m) x = true.

(** [m] is the greatest of the non-null cells of [xs]. *)
Definition greatest (m : Q) (xs : list num) : Prop :=
  In (Fin m) xs /\ forall x, In x xs -> isna x = false -> num_leb x (Fin m) = true.

(** The resolved span of years [(min_year, max_year)] of a table. *)
Definition year_range (df : DataFrame) (lower_date upper_date : string) : Z * Z :=
  (num_trunc (fold_left num_min (num_col df lower_date) NaN),
   num_trunc (fold_left num_max (num_col df upper_date) NaN)).

(** A row: its two dates and the cell of a third column. *)
Definition rows {X} (los his : list num) (xs : list X) : list (num * num * X) :=
  zip (zip los his) xs.

Definition notna_lo {X} (r : num * num * X) : bool := negb (isna (fst (fst r))).
Definition notna_hi {X} (r : num * num * X) : bool := negb (isna (snd (fst r))).

(** The rows left after the two [dropna]. *)
Definition dated {X} (T : list (num * num * X)) : list (num * num * X) :=
  List.filter notna_hi (List.filter notna_lo T).

(** The interval test of a year against a pair of dates that are both
    present: [ip lower <= Y < ip upper], or [ip lower <= Y <= ip upper]
    when [closed]; [ip] takes the integer part of a date. *)
Definition in_span (ip : Q -> Z) (closed : bool) (Y : Z) (d : num * num) : bool :=
  match d with
  | (Fin l, Fin h) => (ip l <=? Y) && (if closed then Y <=? ip h else Y <? ip h)
  | _ => false
  end.

(** Value of the summed-rate series at [Y], in the words of the
    specification: the sum of the rates of the rows that pass the
    half-open test, taken in table order from 0. *)
Definition rate_sum (rnd : Q -> num) (ip : Q -> Z) (Y : Z)
    (los his rates : list num) : num :=
  fold_left (fadd rnd)
    (map snd (List.filter (fun r => in_span ip false Y (fst r)) (rows los his rates)))
    (Fin 0%Q).

(** The site lists of the rows that pass the inclusive test at [Y]. *)
Definition sites_at (ip : Q -> Z) (Y : Z) (los his : list num)
    (sites : list (list string)) : list (list string) :=
  map snd (List.filter (fun r => in_span ip true Y (fst r)) (rows los his sites)).

(** Number of rows that pass the inclusive test at [Y]. *)
Definition type_count (ip : Q -> Z) (Y : Z) (los his : list num) : Z :=
  Z.of_nat (length (List.filter (in_span ip true Y) (zip los his))).

(** The cells of the derived column: quantity / (upper - lower), row by row. *)
Definition density (rnd : Q -> num) (qs his los : list num) : list num :=
  zip_with (fdiv rnd) qs (zip_with (fsub rnd) his los).

(** The dictionary with keys [ks], in that order, and value [f k] at [k]. *)
Definition tabulate {V} (f : Z -> V) (ks : list Z) : dict V :=
  map (fun k => (k, f k)) ks.

(** Membership in a list of years, as a boolean. *)
Definition inb (y : Z) (l : list Z) : bool := existsb (Z.eqb y) l.

(** The masks of the two [dropna] and the frames they allocate. *)
Definition mask_lo (los : list num) : list bool := notna_mask (NumCol los).

Definition mask_hi (los his : list num) : list bool :=
  notna_mask (NumCol (keep (mask_lo los) his)).

Definition frame1 (df : DataFrame) (los : list num) : DataFrame :=
  df_keep (mask_lo los) df.

Definition frame2 (df : DataFrame) (los his : list num) : DataFrame :=
  df_keep (mask_hi los his) (frame1 df los).

(** A computation that leaves every object of the store as it is and at
    most allocates new ones, whatever its outcome. *)
Definition extends {A} (m : M A) : Prop :=
  forall st, exists tmp, fst (m st) = st ++ tmp.

(** The error of a dictionary read at a key that is not there. *)
Definition key_miss (e : exn) : bool :=
  match e with KeyError (KInt _) => true | _ => false end.

(** A date that [astype(int)] converts without overflow: null, or
    finite with its integer part in the 64-bit range. *)
Definition int64_bound (x : num) : bool :=
  match x with
  | Fin q => (int64_min <=? Qtrunc q) && (Qtrunc q <=? int64_max)
  | _ => true
  end.

(** Every date of the table converts without overflow. *)
Definition int64_dates (df : DataFrame) (lower_date upper_date : string) : bool :=
  forallb int64_bound (num_col df lower_date)
  && forallb int64_bound (num_col df upper_date).

(** A fold that stops at the first exception. *)
Fixpoint rfold {A S} (f : S -> A -> result S) (l : list A) (s : S) : result S :=
  match l with
  | [] => Ok s
  | x :: l' => rbind (f s x) (rfold f l')
  end.

(** The outcome of the accumulation of [year_freq_series], exceptions
    included, as a function of the span and of the rows:
    [add_at] is one [date_dict[year] += v], [add_row] the years of one
    row, [freq_outcome] the rows that have both dates, in order. *)
Definition add_at (rnd : Q -> num) (v : num) (d : dict num) (year : Z)
  : result (dict num) :=
  rbind (dict_get d year) (fun old => Ok (dict_set d year (fadd rnd old v))).

Definition add_row (rnd : Q -> num) (d : dict num) (r : num * num * num)
  : result (dict num) :=
  rfold (add_at rnd (snd r))
    (range (num_int64 (fst (fst r))) (num_int64 (snd (fst r)))) d.

Definition freq_outcome (rnd : Q -> num) (a b : Z) (T : list (num * num * num))
  : result (dict num) :=
  rfold (add_row rnd) (dated T) (fromkeys (range a b) (Fin 0%Q)).

(** ** Example tables *)

(** Exact arithmetic, in lowest terms. *)
Definition exact_rnd (q : Q) : num := Fin (Qred q).

(** Two records dated before year 0, the second with a fractional
    lower date. *)
Definition bc_table : DataFrame :=
  mkDataFrame 2
    [("lower"%string, NumCol [Fin (-60 # 1); Fin (-101 # 2)]);
     ("upper"%string, NumCol [Fin (-40 # 1); Fin (-45 # 1)]);
     ("rate"%string, NumCol [Fin (1 # 1); Fin (2 # 1)]);
     ("sites"%string, ObjCol [["A"%string]; ["B"%string]])].

(** One record with fractional dates before year 0. *)
Definition frac_table : DataFrame :=
  mkDataFrame 1
    [("lower"%string, NumCol [Fin (-101 # 2)]);
     ("upper"%string, NumCol [Fin (-81 # 2)]);
     ("rate"%string, NumCol [Fin (1 # 1)]);
     ("sites"%string, ObjCol [["A"%string]])].

(** The two records of the distinct-site scenario. *)
Definition site_table : DataFrame :=
  mkDataFrame 2
    [("lower"%string, NumCol [Fin (1990 # 1); Fin (1993 # 1)]);
     ("upper"%string, NumCol [Fin (1995 # 1); Fin (1998 # 1)]);
     ("sites"%string, ObjCol [["A"%string; "B"%string]; ["B"%string; "C"%string]])].

(** A record dated 2000 to 2005 beside one that spans 1995 to 2010. *)
Definition boundary_table : DataFrame :=
  mkDataFrame 2
    [("lower"%string, NumCol [Fin (1995 # 1); Fin (2000 # 1)]);
     ("upper"%string, NumCol [Fin (2010 # 1); Fin (2005 # 1)]);
     ("rate"%string, NumCol [Fin (10 # 1); Fin (1 # 1)]);
     ("sites"%string, ObjCol [["A"%string]; ["B"%string]])].

(** A table with a null lower date in its second row and a null upper
    date in its third, and the table of its first row alone. *)
Definition null_table : DataFrame :=
  mkDataFrame 3
    [("lower"%string, NumCol [Fin (1990 # 1); NaN; Fin (1992 # 1)]);
     ("upper"%string, NumCol [Fin (1995 # 1); Fin (1993 # 1); NaN]);
     ("rate"%string, NumCol [Fin (2 # 1); Fin (7 # 1); Fin (5 # 1)]);
     ("sites"%string, ObjCol [["A"%string]; ["Z"%string]; ["W"%string]])].

Definition full_table : DataFrame :=
  mkDataFrame 1
    [("lower"%string, NumCol [Fin (1990 # 1)]);
     ("upper"%string, NumCol [Fin (1995 # 1)]);
     ("rate"%string, NumCol [Fin (2 # 1)]);
     ("sites"%string, ObjCol [["A"%string]])].

(** Two records, the second with equal lower and upper dates. *)
Definition degenerate_table : DataFrame :=
  mkDataFrame 2
    [("lower"%string, NumCol [Fin (100 # 1); Fin (150 # 1)]);
     ("upper"%string, NumCol [Fin (110 # 1); Fin (150 # 1)]);
     ("density"%string, NumCol [Fin (5 # 1); Fin (3 # 1)])].

(** A table whose lower dates are all null. *)
Definition undated_table : DataFrame :=
  mkDataFrame 2
    [("lower"%string, NumCol [NaN; NaN]);
     ("upper"%string, NumCol [Fin (1995 # 1); Fin (1998 # 1)]);
     ("rate"%string, NumCol [Fin (1 # 1); Fin (2 # 1)]);
     ("sites"%string, ObjCol [["A"%string]; ["B"%string]])].

(** Two records that begin and end within the year 2000. *)
Definition one_year_table : DataFrame :=
  mkDataFrame 2
    [("lower"%string, NumCol [Fin (20001 # 10); Fin (20003 # 10)]);
     ("upper"%string, NumCol [Fin (20005 # 10); Fin (20009 # 10)]);
     ("rate"%string, NumCol [Fin (1 # 1); Fin (2 # 1)]);
     ("sites"%string, ObjCol [["A"%string]; ["B"%string]])].

(** Three series to plot, and two colours. *)
Definition three_series : list (string * Series Z) :=
  [("sites"%string, mkSeries "Site count" "Year" [(1990, 2); (1991, 3)]);
   ("types"%string, mkSeries "Type count" "Year" [(1990, 1); (1991, 1)]);
   ("finds"%string, mkSeries "Find count" "Year" [(1990, 7); (1991, 9)])].

(** Two records that each begin and end within one year, in a table
    without a rate column. *)
Definition short_table : DataFrame :=
  mkDataFrame 2
    [("lower"%string, NumCol [Fin (20001 # 10); Fin (20032 # 10)]);
     ("upper"%string, NumCol [Fin (20009 # 10); Fin (20037 # 10)])].

(** The records of [site_table] in the other order. *)
Definition site_table_rev : DataFrame :=
  mkDataFrame 2
    [("lower"%string, NumCol [Fin (1993 # 1); Fin (1990 # 1)]);
     ("upper"%string, NumCol [Fin (1998 # 1); Fin (1995 # 1)]);
     ("sites"%string, ObjCol [["B"%string; "C"%string]; ["A"%string; "B"%string]])].

(** A record whose lower date, 10^19, does not fit a 64-bit integer. *)
Definition huge_table : DataFrame :=
  mkDataFrame 2
    [("lower"%string, NumCol [Fin (1990 # 1); Fin (10000000000000000000 # 1)]);
     ("upper"%string, NumCol [Fin (1995 # 1); Fin (1993 # 1)]);
     ("rate"%string, NumCol [Fin (1 # 1); Fin (2 # 1)]);
     ("sites"%string, ObjCol [["A"%string]; ["B"%string]])].

(** A table whose span is set by two rows with a null date: the first
    has the least lower date and no upper date, the third the greatest
    upper date and no lower date. *)
Definition span_table : DataFrame :=
  mkDataFrame 3
    [("lower"%string, NumCol [Fin (1985 # 1); Fin (1990 # 1); NaN]);
     ("upper"%string, NumCol [NaN; Fin (1995 # 1); Fin (2000 # 1)]);
     ("rate"%string, NumCol [Fin (3 # 1); Fin (2 # 1); Fin (5 # 1)]);
     ("sites"%string, ObjCol [["X"%string]; ["A"%string]; ["W"%string]])].

(** Two records with the years 1993 to 1995 between them. *)
Definition gap_table : DataFrame :=
  mkDataFrame 2
    [("lower"%string, NumCol [Fin (1990 # 1); Fin (1996 # 1)]);
     ("upper"%string, NumCol [Fin (1992 # 1); Fin (1999 # 1)]);
     ("rate"%string, NumCol [Fin (2 # 1); Fin (7 # 1)]);
     ("sites"%string, ObjCol [["A"%string]; ["B"%string]])].

(** * Verification *)

(** ** Running monadic code *)

Lemma bind_ok {A B} (m : M A) (k : A -> M B) st st' a :
  m st = (st', Ok a) -> bind m k st = k a st'.
Proof. intros H. unfold bind. now rewrite H. Qed.

Lemma bind_raise {A B} (m : M A) (k : A -> M B) st st' e :
  m st = (st', Raise e) -> bind m k st = (st', Raise e).
Proof. intros H. unfold bind. now rewrite H. Qed.

Lemma deref_run st d df : st !! d = Some df -> deref d st = (st, Ok df).
Proof. intros H. unfold deref. now rewrite H. Qed.

Lemma getitem_run st d df c col :
  st !! d = Some df -> df_get df c = Some col ->
  getitem d c st = (st, Ok col).
Proof.
  intros Hd Hc. unfold getitem.
  rewrite (bind_ok _ _ _ _ _ (deref_run _ _ _ Hd)). now rewrite Hc.
Qed.

Lemma getitem_missing st d df c :
  st !! d = Some df -> df_get df c = None ->
  getitem d c st = (st, Raise (KeyError (KStr c))).
Proof.
  intros Hd Hc. unfold getitem.
  rewrite (bind_ok _ _ _ _ _ (deref_run _ _ _ Hd)). now rewrite Hc.
Qed.

Lemma len_run st d df : st !! d = Some df -> len d st = (st, Ok (df_len df)).
Proof.
  intros Hd. unfold len. now rewrite (bind_ok _ _ _ _ _ (deref_run _ _ _ Hd)).
Qed.

Lemma dropna_run st d df c col :
  st !! d = Some df -> df_get df c = Some col ->
  dropna d c st = (st ++ [df_keep (notna_mask col) df], Ok (length st)).
Proof.
  intros Hd Hc. unfold dropna.
  rewrite (bind_ok _ _ _ _ _ (deref_run _ _ _ Hd)).
  now rewrite (bind_ok _ _ _ _ _ (getitem_run _ _ _ _ _ Hd Hc)).
Qed.

(** A loop whose body only reads the store: an invariant over the part
    of the list already visited. *)
Lemma for_each_inv {A S} (I : list A -> S -> Prop) (body : S -> A -> M S)
    st (l : list A) (s0 : S) :
  I [] s0 ->
  (forall pre x post s, l = pre ++ x :: post -> I pre s ->
     exists s', body s x st = (st, Ok s') /\ I (pre ++ [x]) s') ->
  exists s', for_each l body s0 st = (st, Ok s') /\ I l s'.
Proof.
  revert I s0. induction l as [|x l IH]; intros I s0 H0 Hstep.
  - exists s0. now split.
  - destruct (Hstep [] x l s0 eq_refl H0) as (s1 & Hb & H1).
    destruct (IH (fun pre s => I (x :: pre) s) s1 H1) as (s' & Hrun & HI).
    + intros pre y post s -> Hpre.
      exact (Hstep (x :: pre) y post s eq_refl Hpre).
    + exists s'. split; [|exact HI]. simpl.
      now rewrite (bind_ok _ _ _ _ _ Hb).
Qed.

(** ** Rows kept by a mask *)

Lemma keep_fmap {A B} (f : A -> B) mask (l : list A) :
  keep mask (map f l) = map f (keep mask l).
Proof.
  revert l. induction mask as [|b mask IH]; intros [|x l]; simpl; try easy.
  destruct b; simpl; now rewrite IH.
Qed.

Lemma keep_filter {A} (p : A -> bool) (l : list A) :
  keep (map p l) l = List.filter p l.
Proof.
  induction l as [|x l IH]; simpl; [easy|].
  destruct (p x); now rewrite IH.
Qed.

Lemma assoc_get_fmap {V W} (f : V -> W) (l : list (string * V)) c :
  assoc_get (map (fun cv => (fst cv, f (snd cv))) l) c
  = option_map f (assoc_get l c).
Proof.
  induction l as [|[c' v] l IH]; simpl; [easy|].
  destruct (String.eqb c' c); [easy|exact IH].
Qed.

Lemma df_get_keep mask df c :
  df_get (df_keep mask df) c = option_map (col_keep mask) (df_get df c).
Proof. apply assoc_get_fmap. Qed.

Lemma df_wf_get df c col :
  df_wf df = true -> df_get df c = Some col -> col_len col = df_len df.
Proof.
  unfold df_wf, df_get. destruct df as [n cols]. simpl.
  induction cols as [|[c' v] cols IH]; simpl; [easy|].
  intros Hwf. apply andb_prop in Hwf as [Hv Hwf].
  destruct (String.eqb c' c).
  - intros [= <-]. now apply Nat.eqb_eq.
  - now apply IH.
Qed.

(** ** Truncation and the column extrema *)

Lemma Qtrunc_mono (x y : Q) : (x <= y)%Q -> Qtrunc x <= Qtrunc y.
Proof.
  unfold Qle, Qtrunc. destruct x as [n d], y as [n' d']. simpl. intros H.
  rewrite <- (Z.quot_mul_cancel_r n (Zpos d) (Zpos d')) by lia.
  rewrite <- (Z.quot_mul_cancel_r n' (Zpos d') (Zpos d)) by lia.
  rewrite (Z.mul_comm (Zpos d') (Zpos d)).
  apply Z.quot_le_mono; lia.
Qed.

Lemma num_leb_refl x : isna x = false -> num_leb x x = true.
Proof.
  destruct x as [|[]|q]; simpl; try easy. intros _.
  apply Qle_bool_iff, Qle_refl.
Qed.

Lemma num_leb_trans x y z :
  num_leb x y = true -> num_leb y z = true -> num_leb x z = true.
Proof.
  destruct x as [|[]|p], y as [|[]|q], z as [|[]|r]; simpl; try easy.
  rewrite !Qle_bool_iff. apply Qle_trans.
Qed.

Lemma num_leb_total x y :
  isna x = false -> isna y = false -> num_leb x y = false -> num_leb y x = true.
Proof.
  destruct x as [|[]|p], y as [|[]|q]; simpl; try easy. intros _ _ H.
  apply Qle_bool_iff. destruct (Qlt_le_dec q p) as [Hlt|Hle].
  - now apply Qlt_le_weak.
  - apply Qle_bool_iff in Hle. congruence.
Qed.

Lemma num_min_cases a b : num_min a b = a \/ num_min a b = b.
Proof.
  destruct a as [|[]|p], b as [|[]|q]; simpl; auto.
  destruct (Qle_bool p q); auto.
Qed.

Lemma num_max_cases a b : num_max a b = a \/ num_max a b = b.
Proof.
  destruct a as [|[]|p], b as [|[]|q]; simpl; auto.
  destruct (Qle_bool p q); auto.
Qed.

Lemma num_min_lb a b :
  (isna a = false -> isna (num_min a b) = false /\ num_leb (num_min a b) a = true)
  /\ (isna b = false -> isna (num_min a b) = false /\ num_leb (num_min a b) b = true).
Proof.
  destruct (isna a) eqn:Ea; [destruct a; try easy|].
  { simpl. split; [easy|]. intros Hb. split; [easy|now apply num_leb_refl]. }
  destruct (isna b) eqn:Eb; [destruct b; try easy|].
  { replace (num_min a NaN) with a by now destruct a.
    split; [|easy]. intros _. split; [easy|now apply num_leb_refl]. }
  replace (num_min a b) with (if num_leb a b then a else b)
    by (destruct a, b; easy).
  destruct (num_leb a b) eqn:E; split; intros _; split; try easy;
    first [now apply num_leb_refl | now apply num_leb_total].
Qed.

Lemma num_max_ub a b :
  (isna a = false -> isna (num_max a b) = false /\ num_leb a (num_max a b) = true)
  /\ (isna b = false -> isna (num_max a b) = false /\ num_leb b (num_max a b) = true).
Proof.
  destruct (isna a) eqn:Ea; [destruct a; try easy|].
  { simpl. split; [easy|]. intros Hb. split; [easy|now apply num_leb_refl]. }
  destruct (isna b) eqn:Eb; [destruct b; try easy|].
  { replace (num_max a NaN) with a by now destruct a.
    split; [|easy]. intros _. split; [easy|now apply num_leb_refl]. }
  replace (num_max a b) with (if num_leb a b then b else a)
    by (destruct a, b; easy).
  destruct (num_leb a b) eqn:E; split; intros _; split; try easy;
    first [now apply num_leb_refl | now apply num_leb_total].
Qed.

Lemma fold_min_spec xs acc :
  let r := fold_left num_min xs acc in
  (r = acc \/ In r xs)
  /\ (isna acc = false -> isna r = false /\ num_leb r acc = true)
  /\ (forall x, In x xs -> isna x = false ->
        isna r = false /\ num_leb r x = true).
Proof.
  revert acc. induction xs as [|x xs IH]; intros acc; simpl.
  - split; [now left|]. split; [|easy]. intros H. split; [easy|].
    now apply num_leb_refl.
  - destruct (IH (num_min acc x)) as (Hin & Hacc & Hall).
    destruct (num_min_lb acc x) as [Ha Hx].
    split; [|split].
    + destruct Hin as [->|Hin]; [|now right; right].
      destruct (num_min_cases acc x) as [->| ->]; [now left|now right; left].
    + intros Hn. destruct (Ha Hn) as [H1 H2].
      destruct (Hacc H1) as [H3 H4]. split; [easy|].
      now apply num_leb_trans with (num_min acc x).
    + intros u [<-|Hu] Hnu.
      * destruct (Hx Hnu) as [H1 H2].
        destruct (Hacc H1) as [H3 H4]. split; [easy|].
        now apply num_leb_trans with (num_min acc x).
      * now apply Hall.
Qed.

Lemma fold_max_spec xs acc :
  let r := fold_left num_max xs acc in
  (r = acc \/ In r xs)
  /\ (isna acc = false -> isna r = false /\ num_leb acc r = true)
  /\ (forall x, In x xs -> isna x = false ->
        isna r = false /\ num_leb x r = true).
Proof.
  revert acc. induction xs as [|x xs IH]; intros acc; simpl.
  - split; [now left|]. split; [|easy]. intros H. split; [easy|].
    now apply num_leb_refl.
  - destruct (IH (num_max acc x)) as (Hin & Hacc & Hall).
    destruct (num_max_ub acc x) as [Ha Hx].
    split; [|split].
    + destruct Hin as [->|Hin]; [|now right; right].
      destruct (num_max_cases acc x) as [->| ->]; [now left|now right; left].
    + intros Hn. destruct (Ha Hn) as [H1 H2].
      destruct (Hacc H1) as [H3 H4]. split; [easy|].
      now apply num_leb_trans with (num_max acc x).
    + intros u [<-|Hu] Hnu.
      * destruct (Hx Hnu) as [H1 H2].
        destruct (Hacc H1) as [H3 H4]. split; [easy|].
        now apply num_leb_trans with (num_max acc x).
      * now apply Hall.
Qed.

(** ** Ranges and dictionaries *)

Lemma range_nil a b : b <= a -> range a b = [].
Proof. intros H. unfold range. now replace (Z.to_nat (b - a)) with 0%nat by lia. Qed.

Lemma range_cons a b : a < b -> range a b = a :: range (a + 1) b.
Proof.
  intros H. unfold range.
  replace (Z.to_nat (b - a)) with (S (Z.to_nat (b - (a + 1)))) by lia.
  simpl. f_equal; [lia|].
  rewrite <- seq_shift, map_map. apply map_ext. intros i. lia.
Qed.

Lemma in_range a b y : In y (range a b) <-> a <= y < b.
Proof.
  unfold range. rewrite in_map_iff. split.
  - intros (i & <- & Hi). apply in_seq in Hi. lia.
  - intros H. exists (Z.to_nat (y - a)). split; [lia|]. apply in_seq. lia.
Qed.

Lemma NoDup_range a b : List.NoDup (range a b).
Proof.
  unfold range. apply Finite.Injective_map_NoDup.
  - intros i j. lia.
  - apply seq_NoDup.
Qed.

Lemma length_range a b : length (range a b) = Z.to_nat (b - a).
Proof. unfold range. now rewrite length_map, length_seq. Qed.

Lemma fromkeys_tabulate {V} ks (v : V) : fromkeys ks v = tabulate (fun _ => v) ks.
Proof. reflexivity. Qed.

Lemma keys_tabulate {V} (f : Z -> V) ks : keys (tabulate f ks) = ks.
Proof.
  unfold keys, tabulate. rewrite map_map. simpl. apply map_id.
Qed.

Lemma tabulate_ext {V} (f g : Z -> V) ks :
  (forall k, In k ks -> f k = g k) -> tabulate f ks = tabulate g ks.
Proof.
  intros H. apply map_ext_in. intros k Hk. now rewrite H.
Qed.

Lemma dict_lookup_tabulate {V} (f : Z -> V) ks y :
  dict_lookup (tabulate f ks) y = if in_dec Z.eq_dec y ks then Some (f y) else None.
Proof.
  induction ks as [|k ks IH]; simpl; [easy|].
  destruct (Z.eqb_spec k y) as [->|Hne].
  - now destruct (Z.eq_dec y y).
  - rewrite IH. destruct (Z.eq_dec k y); [easy|].
    now destruct (in_dec Z.eq_dec y ks).
Qed.

Lemma dict_get_tabulate {V} (f : Z -> V) ks y :
  In y ks -> dict_get (tabulate f ks) y = Ok (f y).
Proof.
  intros H. unfold dict_get. rewrite dict_lookup_tabulate.
  now destruct (in_dec Z.eq_dec y ks).
Qed.

Lemma dict_set_tabulate {V} (f : Z -> V) ks y v :
  List.NoDup ks -> In y ks ->
  dict_set (tabulate f ks) y v = tabulate (fun k => if k =? y then v else f k) ks.
Proof.
  induction ks as [|k ks IH]; simpl; [easy|].
  intros Hnd Hin. apply List.NoDup_cons_iff in Hnd as [Hk Hnd].
  destruct (Z.eqb_spec k y) as [->|Hne].
  - f_equal. apply tabulate_ext. intros k Hk'.
    destruct (Z.eqb_spec k y) as [->|]; [easy|reflexivity].
  - f_equal. apply IH; [easy|]. now destruct Hin.
Qed.

Lemma inb_In y l : inb y l = true <-> In y l.
Proof.
  unfold inb. rewrite existsb_exists. split.
  - intros (x & Hx & E). apply Z.eqb_eq in E. now subst.
  - intros H. exists y. split; [easy|apply Z.eqb_refl].
Qed.

Lemma inb_range a b y : inb y (range a b) = (a <=? y) && (y <? b).
Proof.
  apply eq_true_iff_eq. rewrite inb_In, in_range, andb_true_iff.
  rewrite Z.leb_le, Z.ltb_lt. tauto.
Qed.

Lemma inb_app y l l' : inb y (l ++ l') = inb y l || inb y l'.
Proof. apply existsb_app. Qed.

(** A loop over row positions that only reads the store. *)
Lemma for_each_seq_inv {S} (I : nat -> S -> Prop) (body : S -> nat -> M S)
    st (n a : nat) (s0 : S) :
  I a s0 ->
  (forall k s, (a <= k < a + n)%nat -> I k s ->
     exists s', body s k st = (st, Ok s') /\ I (Datatypes.S k) s') ->
  exists s', for_each (seq a n) body s0 st = (st, Ok s') /\ I (a + n)%nat s'.
Proof.
  revert a s0. induction n as [|n IH]; intros a s0 H0 Hstep; simpl.
  - exists s0. rewrite Nat.add_0_r. now split.
  - destruct (Hstep a s0 ltac:(lia) H0) as (s1 & Hb & H1).
    destruct (IH (Datatypes.S a) s1 H1) as (s' & Hrun & HI).
    { intros k s Hk. apply Hstep. lia. }
    exists s'. rewrite (bind_ok _ _ _ _ _ Hb).
    split; [easy|]. now replace (a + Datatypes.S n)%nat with (Datatypes.S a + n)%nat by lia.
Qed.

(** ** The table as a list of rows *)

Lemma length_keep {A B} mask (l : list A) (l' : list B) :
  length l = length l' -> length (keep mask l) = length (keep mask l').
Proof.
  revert l l'. induction mask as [|b mask IH]; intros [|x l] [|y l']; simpl; try easy.
  intros [= H]. destruct b; simpl; now rewrite (IH l l').
Qed.

Lemma rows_lo {X} los his (xs : list X) :
  length his = length los -> length xs = length los ->
  map (fun r => fst (fst r)) (rows los his xs) = los.
Proof.
  intros H1 H2. unfold rows. rewrite <- (map_map fst fst).
  change (map fst (zip (zip los his) xs)) with ((zip (zip los his) xs).*1).
  rewrite fst_zip by (rewrite length_zip_with; lia).
  change (map fst (zip los his)) with ((zip los his).*1).
  apply fst_zip. lia.
Qed.

Lemma rows_hi {X} los his (xs : list X) :
  length his = length los -> length xs = length los ->
  map (fun r => snd (fst r)) (rows los his xs) = his.
Proof.
  intros H1 H2. unfold rows. rewrite <- (map_map fst snd).
  change (map fst (zip (zip los his) xs)) with ((zip (zip los his) xs).*1).
  rewrite fst_zip by (rewrite length_zip_with; lia).
  change (map snd (zip los his)) with ((zip los his).*2).
  apply snd_zip. lia.
Qed.

Lemma rows_snd {X} los his (xs : list X) :
  length his = length los -> length xs = length los ->
  map snd (rows los his xs) = xs.
Proof.
  intros H1 H2. unfold rows.
  change (map snd (zip (zip los his) xs)) with ((zip (zip los his) xs).*2).
  apply snd_zip. rewrite length_zip_with. lia.
Qed.

Lemma length_rows {X} los his (xs : list X) :
  length his = length los -> length xs = length los ->
  length (rows los his xs) = length los.
Proof. intros H1 H2. unfold rows. rewrite !length_zip_with. lia. Qed.

(** A column of the twice-filtered frame, read off the rows. *)
Lemma keep_keep_rows {X Y} (f : num * num * X -> Y) los his (xs : list X) :
  length his = length los -> length xs = length los ->
  let m1 := notna_mask (NumCol los) in
  let m2 := notna_mask (NumCol (keep m1 his)) in
  keep m2 (keep m1 (map f (rows los his xs))) = map f (dated (rows los his xs)).
Proof.
  intros H1 H2. simpl. set (T := rows los his xs).
  assert (E1 : map (fun x => negb (isna x)) los = map notna_lo T).
  { rewrite <- (rows_lo los his xs H1 H2) at 1. now rewrite map_map. }
  rewrite E1, keep_fmap, keep_filter.
  assert (E2 : keep (map notna_lo T) his
               = map (fun r => snd (fst r)) (List.filter notna_lo T)).
  { rewrite <- (rows_hi los his xs H1 H2) at 1. now rewrite keep_fmap, keep_filter. }
  rewrite E2, map_map, keep_fmap.
  change (fun x => negb (isna (snd (fst x)))) with (@notna_hi X).
  now rewrite keep_filter.
Qed.

Lemma in_span_dated {X} ip closed Y (T : list (num * num * X)) :
  List.filter (fun r => in_span ip closed Y (fst r)) (dated T)
  = List.filter (fun r => in_span ip closed Y (fst r)) T.
Proof.
  unfold dated. induction T as [|[[l h] x] T IH]; simpl; [easy|].
  unfold notna_lo at 1. simpl.
  destruct l as [|s|l]; simpl; [exact IH|..].
  - unfold notna_hi at 1. simpl. destruct h; simpl; exact IH.
  - unfold notna_hi at 1. simpl. destruct h as [|t|h]; simpl; [exact IH|exact IH|].
    now rewrite IH.
Qed.

(** ** The frames allocated by the two [dropna] *)

Lemma bind_lift {A B} (r : result A) (k : A -> M B) st a :
  r = Ok a -> bind (lift r) k st = k a st.
Proof. now intros ->. Qed.

Lemma int_at_run {R} (f : R -> num) (T : list R) st d df c k r :
  st !! d = Some df -> df_get df c = Some (NumCol (map f T)) ->
  forallb is_fin (map f T) = true -> T !! k = Some r ->
  int_at d c k st = (st, Ok (num_int64 (f r))).
Proof.
  intros Hd Hc Hfin Hk. unfold int_at.
  rewrite (bind_ok _ _ _ _ _ (getitem_run _ _ _ _ _ Hd Hc)).
  unfold astype_int. rewrite Hfin.
  rewrite (bind_lift _ _ _ _ eq_refl). unfold lift, iloc.
  now rewrite map_map, list_lookup_fmap, Hk.
Qed.

(** The accumulation of one row over its years. *)
Lemma bump_loop rnd st (body : dict num -> Z -> M (dict num)) x ks :
  (forall d y, body d y st
     = (st, rbind (dict_get d y) (fun old => Ok (dict_set d y (fadd rnd old x))))) ->
  List.NoDup ks ->
  forall ys f, List.NoDup ys -> (forall y, In y ys -> In y ks) ->
  for_each ys body (tabulate f ks) st
  = (st, Ok (tabulate (fun k => if inb k ys then fadd rnd (f k) x else f k) ks)).
Proof.
  intros Hbody Hks. induction ys as [|y ys IH]; intros f Hnd Hsub; [reflexivity|].
  apply List.NoDup_cons_iff in Hnd as [Hy Hnd]. simpl.
  assert (Hin : In y ks) by (apply Hsub; now left).
  erewrite bind_ok.
  2:{ rewrite Hbody, (dict_get_tabulate _ _ _ Hin). simpl.
      now rewrite (dict_set_tabulate _ _ _ _ Hks Hin). }
  rewrite IH by (try easy; intros; apply Hsub; now right).
  do 2 f_equal. apply tabulate_ext. intros k _. unfold inb at 2. simpl.
  fold (inb k ys). destruct (Z.eqb_spec k y) as [->|Hne]; simpl.
  - destruct (inb y ys) eqn:E; [|reflexivity]. now apply inb_In in E.
  - reflexivity.
Qed.

Section Prelude.
Variables (st : store) (data : ref) (df : DataFrame).
Variables (lower_date upper_date : string) (los his : list num).
Hypothesis Hdata : st !! data = Some df.
Hypothesis Hwf : df_wf df = true.
Hypothesis Hlo : df_get df lower_date = Some (NumCol los).
Hypothesis Hhi : df_get df upper_date = Some (NumCol his).

Lemma length_los : length los = df_len df.
Proof. exact (df_wf_get _ _ _ Hwf Hlo). Qed.

Lemma length_his : length his = df_len df.
Proof. exact (df_wf_get _ _ _ Hwf Hhi). Qed.

Lemma dropna_lo_run :
  dropna data lower_date st = (st ++ [frame1 df los], Ok (length st)).
Proof. exact (dropna_run _ _ _ _ _ Hdata Hlo). Qed.

Lemma lookup_frame1 : (st ++ [frame1 df los]) !! length st = Some (frame1 df los).
Proof. now rewrite list_lookup_middle. Qed.

Lemma dropna_hi_run :
  dropna (length st) upper_date (st ++ [frame1 df los])
  = (st ++ [frame1 df los; frame2 df los his], Ok (S (length st))).
Proof.
  erewrite dropna_run; [|apply lookup_frame1|].
  2:{ unfold frame1. rewrite df_get_keep, Hhi. reflexivity. }
  rewrite <- app_assoc, length_app. simpl. do 2 f_equal. lia.
Qed.

Lemma lookup_frame2 :
  (st ++ [frame1 df los; frame2 df los his]) !! S (length st)
  = Some (frame2 df los his).
Proof.
  change [frame1 df los; frame2 df los his]
    with ([frame1 df los] ++ [frame2 df los his]).
  rewrite app_assoc.
  replace (S (length st)) with (length (st ++ [frame1 df los]))
    by (rewrite length_app; simpl; lia).
  now rewrite list_lookup_middle.
Qed.

(** A column of the second frame, for a column given by its cells. *)
Lemma frame2_get c col :
  df_get df c = Some col ->
  df_get (frame2 df los his) c
  = Some (col_keep (mask_hi los his) (col_keep (mask_lo los) col)).
Proof.
  intros Hc. unfold frame2, frame1. now rewrite !df_get_keep, Hc.
Qed.

Section Third.
Context {X : Type}.
Variable xs : list X.
Hypothesis Hxs : length xs = df_len df.

Lemma frame2_rows {Y} (f : num * num * X -> Y) :
  keep (mask_hi los his) (keep (mask_lo los) (map f (rows los his xs)))
  = map f (dated (rows los his xs)).
Proof.
  apply keep_keep_rows.
  - now rewrite length_los, length_his.
  - now rewrite length_los.
Qed.

Lemma frame2_lo :
  df_get (frame2 df los his) lower_date
  = Some (NumCol (map (fun r => fst (fst r)) (dated (rows los his xs)))).
Proof.
  rewrite (frame2_get _ _ Hlo). simpl. rewrite <- frame2_rows.
  rewrite rows_lo; [easy|now rewrite length_los, length_his|now rewrite length_los].
Qed.

Lemma frame2_hi :
  df_get (frame2 df los his) upper_date
  = Some (NumCol (map (fun r => snd (fst r)) (dated (rows los his xs)))).
Proof.
  rewrite (frame2_get _ _ Hhi). simpl. rewrite <- frame2_rows.
  rewrite rows_hi; [easy|now rewrite length_los, length_his|now rewrite length_los].
Qed.

Lemma frame2_third : 
  keep (mask_hi los his) (keep (mask_lo los) xs)
  = map snd (dated (rows los his xs)).
Proof.
  rewrite <- frame2_rows.
  rewrite rows_snd; [easy|now rewrite length_los, length_his|now rewrite length_los].
Qed.

Lemma frame2_len : df_len (frame2 df los his) = length (dated (rows los his xs)).
Proof.
  unfold frame2, frame1. simpl.
  rewrite <- (length_map snd (dated _)), <- frame2_third.
  apply length_keep. rewrite length_seq. apply length_keep.
  now rewrite length_seq.
Qed.
End Third.
End Prelude.

(** ** The resolved span *)

Lemma col_min_least los :
  forallb year_bound los = true -> existsb is_fin los = true ->
  exists m, fold_left num_min los NaN = Fin m /\ least m los.
Proof.
  intros Hyb Hex. destruct (fold_min_spec los NaN) as (Hin & _ & Hall).
  apply existsb_exists in Hex as (x & Hx & Hfin).
  assert (Hnx : isna x = false) by now destruct x.
  destruct (Hall x Hx Hnx) as [Hr _].
  destruct Hin as [E|Hin]; [now rewrite E in Hr|].
  pose proof (proj1 (forallb_forall _ _) Hyb _ Hin) as Hy.
  destruct (fold_left num_min los NaN) as [| |m] eqn:E; try easy.
  exists m. split; [easy|]. split; [easy|].
  intros u Hu Hnu. now apply Hall.
Qed.

Lemma col_max_greatest his :
  forallb year_bound his = true -> existsb is_fin his = true ->
  exists m, fold_left num_max his NaN = Fin m /\ greatest m his.
Proof.
  intros Hyb Hex. destruct (fold_max_spec his NaN) as (Hin & _ & Hall).
  apply existsb_exists in Hex as (x & Hx & Hfin).
  assert (Hnx : isna x = false) by now destruct x.
  destruct (Hall x Hx Hnx) as [Hr _].
  destruct Hin as [E|Hin]; [now rewrite E in Hr|].
  pose proof (proj1 (forallb_forall _ _) Hyb _ Hin) as Hy.
  destruct (fold_left num_max his NaN) as [| |m] eqn:E; try easy.
  exists m. split; [easy|]. split; [easy|].
  intros u Hu Hnu. now apply Hall.
Qed.

Lemma in_rows {X} los his (xs : list X) r :
  length his = length los -> length xs = length los ->
  In r (rows los his xs) -> In (fst (fst r)) los /\ In (snd (fst r)) his.
Proof.
  intros H1 H2 Hr. split.
  - rewrite <- (rows_lo los his xs H1 H2). now apply (in_map (fun r => fst (fst r))).
  - rewrite <- (rows_hi los his xs H1 H2). now apply (in_map (fun r => snd (fst r))).
Qed.

Lemma in_dated {X} (T : list (num * num * X)) r :
  In r (dated T) <-> In r T /\ notna_lo r = true /\ notna_hi r = true.
Proof. unfold dated. rewrite !filter_In. tauto. Qed.

(** With year bounds for dates, the rows left by [dropna] have two
    finite dates. *)
Lemma dated_fin {X} los his (xs : list X) r :
  length his = length los -> length xs = length los ->
  forallb year_bound los = true -> forallb year_bound his = true ->
  In r (dated (rows los his xs)) ->
  exists l h, fst r = (Fin l, Fin h) /\ In (Fin l) los /\ In (Fin h) his.
Proof.
  intros H1 H2 Hyl Hyh Hr. apply in_dated in Hr as (Hr & Nl & Nh).
  destruct (in_rows _ _ _ _ H1 H2 Hr) as [Il Ih].
  pose proof (proj1 (forallb_forall _ _) Hyl _ Il) as Yl.
  pose proof (proj1 (forallb_forall _ _) Hyh _ Ih) as Yh.
  destruct r as [[l h] x]. unfold notna_lo, notna_hi in *. simpl in *.
  destruct l as [| |l], h as [| |h]; try easy. now exists l, h.
Qed.

Lemma dated_all_fin {X} (f : num * num * X -> num) los his (xs : list X) :
  length his = length los -> length xs = length los ->
  forallb year_bound los = true -> forallb year_bound his = true ->
  (forall r, f r = fst (fst r)) \/ (forall r, f r = snd (fst r)) ->
  forallb is_fin (map f (dated (rows los his xs))) = true.
Proof.
  intros H1 H2 Hyl Hyh Hf. apply forallb_forall. intros u Hu.
  apply in_map_iff in Hu as (r & <- & Hr).
  destruct (dated_fin _ _ _ _ H1 H2 Hyl Hyh Hr) as (l & h & E & _).
  destruct Hf as [Hf|Hf]; rewrite Hf, E; reflexivity.
Qed.

Lemma least_trunc m los l :
  least m los -> In (Fin l) los -> Qtrunc m <= Qtrunc l.
Proof.
  intros [_ H] Hl. apply Qtrunc_mono, Qle_bool_iff. exact (H _ Hl eq_refl).
Qed.

Lemma greatest_trunc m his h :
  greatest m his -> In (Fin h) his -> Qtrunc h <= Qtrunc m.
Proof.
  intros [_ H] Hh. apply Qtrunc_mono, Qle_bool_iff. exact (H _ Hh eq_refl).
Qed.

Lemma cast_int64_fits xs q :
  forallb int64_bound xs = true -> In (Fin q) xs -> cast_int64 q = Qtrunc q.
Proof.
  intros Hb Hq. pose proof (proj1 (forallb_forall _ _) Hb _ Hq) as H.
  unfold cast_int64. simpl in H. now rewrite H.
Qed.

Lemma in_span_int64 closed Y los his d :
  forallb int64_bound los = true -> forallb int64_bound his = true ->
  In d (zip los his) ->
  in_span cast_int64 closed Y d = in_span Qtrunc closed Y d.
Proof.
  intros Bl Bh Hd. destruct d as [[| |l] [| |h]]; try reflexivity.
  apply list_elem_of_In, elem_of_zip_with in Hd as (x & y & E & Hx & Hy).
  injection E as <- <-. apply list_elem_of_In in Hx, Hy. simpl.
  now rewrite (cast_int64_fits _ _ Bl Hx), (cast_int64_fits _ _ Bh Hy).
Qed.

(** ** The summed-rate aggregator, run *)

Section Freq.
Variables (rnd : Q -> num) (st : store) (data : ref) (df : DataFrame).
Variables (lower_date upper_date dens name index_name : string).
Variables (los his rates : list num) (m M : Q).
Hypothesis Hdata : st !! data = Some df.
Hypothesis Hwf : df_wf df = true.
Hypothesis Hlo : df_get df lower_date = Some (NumCol los).
Hypothesis Hhi : df_get df upper_date = Some (NumCol his).
Hypothesis Hrates : df_get df dens = Some (NumCol rates).
Hypothesis Hyl : forallb year_bound los = true.
Hypothesis Hyh : forallb year_bound his = true.
Hypothesis Hbl : forallb int64_bound los = true.
Hypothesis Hbh : forallb int64_bound his = true.
Hypothesis Hmin : fold_left num_min los NaN = Fin m.
Hypothesis Hmax : fold_left num_max his NaN = Fin M.
Hypothesis Hleast : least m los.
Hypothesis Hgreatest : greatest M his.

Lemma year_freq_series_run :
  year_freq_series rnd data lower_date upper_date dens name index_name st
  = (st ++ [frame1 df los; frame2 df los his],
     Ok (mkSeries name index_name
           (tabulate (fun Y => rate_sum rnd Qtrunc Y los his rates)
                     (range (Qtrunc m) (Qtrunc M))))).
Proof.
  pose proof (length_los _ _ _ Hwf Hlo) as Ll.
  pose proof (length_his _ _ _ Hwf Hhi) as Lh.
  pose proof (df_wf_get _ _ _ Hwf Hrates) as Lr. simpl in Lr.
  pose proof (frame2_lo _ _ _ _ _ Hwf Hlo Hhi rates Lr) as Flo.
  pose proof (frame2_hi _ _ _ _ _ Hwf Hlo Hhi rates Lr) as Fhi.
  pose proof (frame2_third _ _ _ _ _ Hwf Hlo Hhi rates Lr) as Fx.
  pose proof (frame2_len _ _ _ _ _ Hwf Hlo Hhi rates Lr) as Flen.
  assert (L1 : length his = length los) by lia.
  assert (L2 : length rates = length los) by lia.
  set (T2 := dated (rows los his rates)).
  set (st2 := st ++ [frame1 df los; frame2 df los his]).
  pose proof (lookup_frame2 st df los his) as Hd2. fold st2 in Hd2.
  unfold year_freq_series.
  rewrite (bind_ok _ _ _ _ _ (getitem_run _ _ _ _ _ Hdata Hlo)).
  rewrite (bind_lift (col_min (NumCol los)) _ _ _ eq_refl).
  rewrite (bind_ok _ _ _ _ _ (getitem_run _ _ _ _ _ Hdata Hhi)).
  rewrite (bind_lift (col_max (NumCol his)) _ _ _ eq_refl).
  rewrite Hmin, Hmax.
  rewrite (bind_lift (py_int (Fin m)) _ _ _ eq_refl).
  rewrite (bind_lift (py_int (Fin M)) _ _ _ eq_refl).
  cbv zeta.
  rewrite (bind_ok _ _ _ _ _ (dropna_lo_run _ _ _ _ _ Hdata Hlo)).
  rewrite (bind_ok _ _ _ _ _ (dropna_hi_run st _ _ los _ Hhi)).
  fold st2.
  rewrite (bind_ok _ _ _ _ _ (len_run _ _ _ Hd2)).
  rewrite Flen. fold T2.
  set (ks := range (Qtrunc m) (Qtrunc M)).
  match goal with
  | |- bind (for_each _ ?body _) _ _ = _ =>
      destruct (for_each_seq_inv
        (fun k d => d = tabulate (fun Y =>
           fold_left (fadd rnd)
             (map snd (List.filter (fun r => in_span Qtrunc false Y (fst r))
                         (firstn k T2))) (Fin 0%Q)) ks)
        body st2 (length T2) 0 (fromkeys ks (Fin 0%Q)))
        as (d & Hrun & Hd)
  end.
  - reflexivity.
  - intros k d [_ Hk] ->. simpl in Hk.
    destruct (lookup_lt_is_Some_2 T2 k Hk) as [r Hr].
    assert (Hin : In r T2).
    { apply list_elem_of_In. eapply list_elem_of_lookup_2. exact Hr. }
    destruct (dated_fin _ _ _ _ L1 L2 Hyl Hyh Hin) as (l & h & Er & Il & Ih).
    erewrite bind_ok.
    2:{ eapply (int_at_run (fun r => fst (fst r)) T2); [exact Hd2| | |exact Hr].
        - exact Flo.
        - apply dated_all_fin; auto. }
    erewrite bind_ok.
    2:{ eapply (int_at_run (fun r => snd (fst r)) T2); [exact Hd2| | |exact Hr].
        - exact Fhi.
        - apply dated_all_fin; auto. }
    rewrite Er. cbn [fst snd num_int64].
    rewrite (cast_int64_fits _ _ Hbl Il), (cast_int64_fits _ _ Hbh Ih).
    eexists. split.
    + apply (bump_loop rnd st2 _ (snd r)).
      * intros d y. unfold lift at 1. unfold bind at 1.
        destruct (dict_get d y) as [old|e]; [|reflexivity]. simpl.
        erewrite bind_ok.
        2:{ eapply getitem_run; [exact Hd2|].
            rewrite (frame2_get _ los his _ _ Hrates). simpl.
            rewrite Fx. reflexivity. }
        fold T2. unfold col_iloc, iloc.
        rewrite list_lookup_fmap, Hr. reflexivity.
      * apply NoDup_range.
      * apply NoDup_range.
      * intros y Hy. apply in_range in Hy. apply in_range.
        pose proof (least_trunc _ _ _ Hleast Il).
        pose proof (greatest_trunc _ _ _ Hgreatest Ih). lia.
    + apply tabulate_ext. intros Y _.
      rewrite (take_S_r _ _ _ Hr), List.filter_app, List.map_app, fold_left_app.
      simpl. rewrite Er, inb_range. simpl.
      destruct ((Qtrunc l <=? Y) && (Y <? Qtrunc h)); reflexivity.
  - rewrite (bind_ok _ _ _ _ _ Hrun). subst d. unfold ret, create_series.
    do 3 f_equal. apply tabulate_ext. intros Y _. unfold rate_sum.
    simpl. rewrite firstn_all. unfold T2. now rewrite in_span_dated.
Qed.
End Freq.

(** ** The summed-rate aggregator, its outcome in general *)

(** A loop whose body only reads the store is a fold that stops at the
    first exception. *)
Lemma for_each_pure {A S} (f : S -> A -> result S) (body : S -> A -> M S)
    st (l : list A) (s : S) :
  (forall s x, body s x st = (st, f s x)) ->
  for_each l body s st = (st, rfold f l s).
Proof.
  intros Hb. revert s. induction l as [|x l IH]; intros s; simpl; [easy|].
  unfold bind. rewrite Hb. destruct (f s x) as [s'|e]; simpl; [apply IH|easy].
Qed.

Lemma for_each_rows_pure {R S} (f : S -> R -> result S) (body : S -> nat -> M S)
    st (T : list R) (a : nat) (s : S) :
  (forall k r s, T !! k = Some r -> body s (a + k)%nat st = (st, f s r)) ->
  for_each (seq a (length T)) body s st = (st, rfold f T s).
Proof.
  revert a s. induction T as [|r T IH]; intros a s Hb; simpl; [easy|].
  unfold bind. pose proof (Hb 0%nat r s eq_refl) as H0.
  rewrite Nat.add_0_r in H0. rewrite H0.
  destruct (f s r) as [s'|e]; simpl; [|easy].
  apply IH. intros k r' s0 Hk.
  replace (Datatypes.S a + k)%nat with (a + Datatypes.S k)%nat by lia.
  now apply Hb.
Qed.

Section FreqOutcome.
Variables (rnd : Q -> num) (st : store) (data : ref) (df : DataFrame).
Variables (lower_date upper_date dens name index_name : string).
Variables (los his rates : list num) (m M : Q).
Hypothesis Hdata : st !! data = Some df.
Hypothesis Hwf : df_wf df = true.
Hypothesis Hlo : df_get df lower_date = Some (NumCol los).
Hypothesis Hhi : df_get df upper_date = Some (NumCol his).
Hypothesis Hrates : df_get df dens = Some (NumCol rates).
Hypothesis Hyl : forallb year_bound los = true.
Hypothesis Hyh : forallb year_bound his = true.
Hypothesis Hmin : fold_left num_min los NaN = Fin m.
Hypothesis Hmax : fold_left num_max his NaN = Fin M.

Lemma year_freq_series_outcome :
  year_freq_series rnd data lower_date upper_date dens name index_name st
  = (st ++ [frame1 df los; frame2 df los his],
     rbind (freq_outcome rnd (Qtrunc m) (Qtrunc M) (rows los his rates))
       (fun d => Ok (mkSeries name index_name d))).
Proof.
  pose proof (length_los _ _ _ Hwf Hlo) as Ll.
  pose proof (length_his _ _ _ Hwf Hhi) as Lh.
  pose proof (df_wf_get _ _ _ Hwf Hrates) as Lr. simpl in Lr.
  pose proof (frame2_lo _ _ _ _ _ Hwf Hlo Hhi rates Lr) as Flo.
  pose proof (frame2_hi _ _ _ _ _ Hwf Hlo Hhi rates Lr) as Fhi.
  pose proof (frame2_third _ _ _ _ _ Hwf Hlo Hhi rates Lr) as Fx.
  pose proof (frame2_len _ _ _ _ _ Hwf Hlo Hhi rates Lr) as Flen.
  assert (L1 : length his = length los) by lia.
  assert (L2 : length rates = length los) by lia.
  set (T2 := dated (rows los his rates)) in *.
  set (st2 := st ++ [frame1 df los; frame2 df los his]).
  pose proof (lookup_frame2 st df los his) as Hd2. fold st2 in Hd2.
  assert (Alo : forallb is_fin (map (fun r => fst (fst r)) T2) = true)
    by (apply dated_all_fin; auto).
  assert (Ahi : forallb is_fin (map (fun r => snd (fst r)) T2) = true)
    by (apply dated_all_fin; auto).
  unfold year_freq_series.
  rewrite (bind_ok _ _ _ _ _ (getitem_run _ _ _ _ _ Hdata Hlo)).
  rewrite (bind_lift (col_min (NumCol los)) _ _ _ eq_refl).
  rewrite (bind_ok _ _ _ _ _ (getitem_run _ _ _ _ _ Hdata Hhi)).
  rewrite (bind_lift (col_max (NumCol his)) _ _ _ eq_refl).
  rewrite Hmin, Hmax.
  rewrite (bind_lift (py_int (Fin m)) _ _ _ eq_refl).
  rewrite (bind_lift (py_int (Fin M)) _ _ _ eq_refl).
  cbv zeta.
  rewrite (bind_ok _ _ _ _ _ (dropna_lo_run _ _ _ _ _ Hdata Hlo)).
  rewrite (bind_ok _ _ _ _ _ (dropna_hi_run st _ _ los _ Hhi)).
  fold st2.
  rewrite (bind_ok _ _ _ _ _ (len_run _ _ _ Hd2)).
  rewrite Flen.
  unfold bind at 1.
  rewrite (for_each_rows_pure (add_row rnd) _ st2 T2 0).
  - unfold freq_outcome. fold T2.
    now destruct (rfold (add_row rnd) T2 _).
  - intros k r d Hr. simpl.
    rewrite (bind_ok _ _ _ _ _ (int_at_run _ T2 _ _ _ _ _ _ Hd2 Flo Alo Hr)).
    rewrite (bind_ok _ _ _ _ _ (int_at_run _ T2 _ _ _ _ _ _ Hd2 Fhi Ahi Hr)).
    unfold add_row. apply for_each_pure. intros d' y.
    unfold lift at 1. unfold bind at 1. unfold add_at.
    destruct (dict_get d' y) as [old|e]; [|reflexivity]. simpl.
    erewrite bind_ok.
    2:{ eapply getitem_run; [exact Hd2|].
        rewrite (frame2_get _ los his _ _ Hrates). simpl.
        rewrite Fx. reflexivity. }
    fold T2. unfold col_iloc, iloc.
    rewrite list_lookup_fmap, Hr. reflexivity.
Qed.
End FreqOutcome.

(** ** The two counting aggregators, run *)

Lemma covers_run {X} (T2 : list (num * num * X)) st d df lower_date upper_date k r Y :
  st !! d = Some df ->
  df_get df lower_date = Some (NumCol (map (fun r => fst (fst r)) T2)) ->
  df_get df upper_date = Some (NumCol (map (fun r => snd (fst r)) T2)) ->
  forallb is_fin (map (fun r => fst (fst r)) T2) = true ->
  forallb is_fin (map (fun r => snd (fst r)) T2) = true ->
  T2 !! k = Some r ->
  covers d lower_date upper_date k Y st = (st, Ok (in_span cast_int64 true Y (fst r))).
Proof.
  intros Hd Hlo Hhi Flo Fhi Hr. unfold covers.
  rewrite (bind_ok _ _ _ _ _ (int_at_run _ T2 _ _ _ _ _ _ Hd Hlo Flo Hr)).
  assert (Il : is_fin (fst (fst r)) = true).
  { apply (proj1 (forallb_forall _ _) Flo). apply in_map_iff. exists r.
    split; [easy|]. apply list_elem_of_In. eapply list_elem_of_lookup_2. exact Hr. }
  assert (Ih : is_fin (snd (fst r)) = true).
  { apply (proj1 (forallb_forall _ _) Fhi). apply in_map_iff. exists r.
    split; [easy|]. apply list_elem_of_In. eapply list_elem_of_lookup_2. exact Hr. }
  destruct r as [[[| |l] [| |h]] x]; try easy. cbn [fst snd num_int64 in_span].
  destruct (cast_int64 l <=? Y); [|reflexivity].
  now rewrite (bind_ok _ _ _ _ _ (int_at_run _ T2 _ _ _ _ _ _ Hd Hhi Fhi Hr)).
Qed.

Lemma flatten_SObj (ls : list (list string)) :
  flatten (map SObj ls) = Ok (concat ls).
Proof. induction ls as [|l ls IH]; simpl; [easy|]. now rewrite IH. Qed.

Lemma distinct_nil : distinct [] = 0.
Proof. reflexivity. Qed.

(** The loop over the years of the bin map: each year is given its
    value once, in the order of the keys. *)
Lemma year_loop {V} (val : Z -> V) (zero : V) (body : dict V -> Z -> M (dict V))
    st ks :
  List.NoDup ks ->
  (forall f y, In y ks -> f y = zero ->
     body (tabulate f ks) y st
     = (st, Ok (tabulate (fun k => if k =? y then val y else f k) ks))
     \/ (val y = zero /\ body (tabulate f ks) y st = (st, Ok (tabulate f ks)))) ->
  for_each ks body (fromkeys ks zero) st = (st, Ok (tabulate val ks)).
Proof.
  intros Hnd Hbody.
  destruct (for_each_inv
    (fun pre d => d = tabulate (fun k => if inb k pre then val k else zero) ks)
    body st ks (fromkeys ks zero)) as (d & Hrun & Hd).
  - reflexivity.
  - intros pre y post d Eks ->.
    assert (Hy : In y ks) by (rewrite Eks; apply in_elt).
    assert (Hpre : inb y pre = false).
    { destruct (inb y pre) eqn:E; [|easy]. apply inb_In in E.
      rewrite Eks in Hnd. apply List.NoDup_remove_2 in Hnd.
      exfalso. apply Hnd. apply in_or_app. now left. }
    destruct (Hbody (fun k => if inb k pre then val k else zero) y Hy)
      as [Hb|[Hv Hb]]; [now rewrite Hpre| |]; rewrite Hb; eexists; (split; [reflexivity|]);
      apply tabulate_ext; intros k _; rewrite inb_app; unfold inb at 2; simpl;
      rewrite orb_false_r; destruct (Z.eqb_spec k y) as [->|Hne];
      rewrite ?orb_true_r, ?orb_false_r; try reflexivity.
    rewrite Hpre in *. now rewrite Hv.
  - rewrite Hrun, Hd. do 2 f_equal. apply tabulate_ext. intros k Hk.
    apply inb_In in Hk. now rewrite Hk.
Qed.

Lemma length_filter_fst {A B} (p : A -> bool) (l : list (A * B)) :
  length (List.filter (fun r => p (fst r)) l) = length (List.filter p (map fst l)).
Proof.
  induction l as [|[a b] l IH]; simpl; [easy|].
  destruct (p a); simpl; now rewrite IH.
Qed.

Lemma type_count_rows {X} ip Y los his (xs : list X) :
  length his = length los -> length xs = length los ->
  Z.of_nat (length (List.filter (fun r => in_span ip true Y (fst r)) (rows los his xs)))
  = type_count ip Y los his.
Proof.
  intros H1 H2. unfold type_count, rows. rewrite length_filter_fst.
  change (map fst (zip (zip los his) xs)) with ((zip (zip los his) xs).*1).
  rewrite fst_zip; [easy|]. rewrite length_zip_with. lia.
Qed.

Section Counts.
Variables (st : store) (data : ref) (df : DataFrame).
Variables (lower_date upper_date name index_name : string).
Variables (los his : list num) (m M : Q).
Hypothesis Hdata : st !! data = Some df.
Hypothesis Hwf : df_wf df = true.
Hypothesis Hlo : df_get df lower_date = Some (NumCol los).
Hypothesis Hhi : df_get df upper_date = Some (NumCol his).
Hypothesis Hyl : forallb year_bound los = true.
Hypothesis Hyh : forallb year_bound his = true.
Hypothesis Hmin : fold_left num_min los NaN = Fin m.
Hypothesis Hmax : fold_left num_max his NaN = Fin M.

Lemma year_site_count_series_run site_list sites :
  df_get df site_list = Some (ObjCol sites) ->
  year_site_count_series data lower_date upper_date site_list name index_name st
  = (st ++ [frame1 df los; frame2 df los his],
     Ok (mkSeries name index_name
           (tabulate (fun Y => distinct (concat (sites_at cast_int64 Y los his sites)))
                     (range (Qtrunc m) (Qtrunc M))))).
Proof.
  intros Hsites.
  pose proof (length_los _ _ _ Hwf Hlo) as Ll.
  pose proof (length_his _ _ _ Hwf Hhi) as Lh.
  pose proof (df_wf_get _ _ _ Hwf Hsites) as Lr. simpl in Lr.
  pose proof (frame2_lo _ _ _ _ _ Hwf Hlo Hhi sites Lr) as Flo.
  pose proof (frame2_hi _ _ _ _ _ Hwf Hlo Hhi sites Lr) as Fhi.
  pose proof (frame2_third _ _ _ _ _ Hwf Hlo Hhi sites Lr) as Fx.
  pose proof (frame2_len _ _ _ _ _ Hwf Hlo Hhi sites Lr) as Flen.
  assert (L1 : length his = length los) by lia.
  assert (L2 : length sites = length los) by lia.
  set (T2 := dated (rows los his sites)) in *.
  set (st2 := st ++ [frame1 df los; frame2 df los his]).
  pose proof (lookup_frame2 st df los his) as Hd2. fold st2 in Hd2.
  assert (Alo : forallb is_fin (map (fun r => fst (fst r)) T2) = true)
    by (apply dated_all_fin; auto).
  assert (Ahi : forallb is_fin (map (fun r => snd (fst r)) T2) = true)
    by (apply dated_all_fin; auto).
  unfold year_site_count_series.
  rewrite (bind_ok _ _ _ _ _ (getitem_run _ _ _ _ _ Hdata Hlo)).
  rewrite (bind_lift (col_min (NumCol los)) _ _ _ eq_refl).
  rewrite (bind_ok _ _ _ _ _ (getitem_run _ _ _ _ _ Hdata Hhi)).
  rewrite (bind_lift (col_max (NumCol his)) _ _ _ eq_refl).
  rewrite Hmin, Hmax.
  rewrite (bind_lift (py_int (Fin m)) _ _ _ eq_refl).
  rewrite (bind_lift (py_int (Fin M)) _ _ _ eq_refl).
  cbv zeta.
  rewrite (bind_ok _ _ _ _ _ (dropna_lo_run _ _ _ _ _ Hdata Hlo)).
  rewrite (bind_ok _ _ _ _ _ (dropna_hi_run st _ _ los _ Hhi)).
  fold st2. set (ks := range (Qtrunc m) (Qtrunc M)).
  rewrite fromkeys_tabulate, keys_tabulate, <- fromkeys_tabulate.
  erewrite bind_ok; [reflexivity|].
  apply (year_loop
    (fun Y => distinct (concat (sites_at cast_int64 Y los his sites)))).
  { apply NoDup_range. }
  intros f Y HY Hf.
  rewrite (bind_ok _ _ _ _ _ (len_run _ _ _ Hd2)), Flen.
  match goal with
  | |- context [for_each _ ?body _] =>
      destruct (for_each_seq_inv
        (fun k rl => rl = map SObj (map snd
           (List.filter (fun r => in_span cast_int64 true Y (fst r)) (firstn k T2))))
        body st2 (length T2) 0 []) as (rl & Hrun & Hrl)
  end.
  - reflexivity.
  - intros k rl [_ Hk] ->. simpl in Hk.
    destruct (lookup_lt_is_Some_2 T2 k Hk) as [r Hr].
    rewrite (bind_ok _ _ _ _ _
               (covers_run T2 _ _ _ _ _ _ _ Y Hd2 Flo Fhi Alo Ahi Hr)).
    rewrite (take_S_r _ _ _ Hr), List.filter_app. simpl.
    destruct (in_span cast_int64 true Y (fst r)).
    + erewrite bind_ok.
      2:{ eapply getitem_run; [exact Hd2|].
          rewrite (frame2_get _ los his _ _ Hsites). simpl.
          rewrite Fx. reflexivity. }
      unfold col_iloc, iloc. rewrite list_lookup_fmap, Hr. simpl.
      eexists. split; [reflexivity|]. now rewrite !List.map_app.
    + eexists. split; [reflexivity|]. now rewrite app_nil_r.
  - simpl in Hrl. rewrite firstn_all in Hrl.
    unfold T2 in Hrl. rewrite in_span_dated in Hrl.
    fold (sites_at cast_int64 Y los his sites) in Hrl.
    rewrite (bind_ok _ _ _ _ _ Hrun). subst rl. rewrite length_map.
    destruct (sites_at cast_int64 Y los his sites) as [|s ss] eqn:E.
    + right. split; reflexivity.
    + left. change (length (s :: ss) =? 0)%nat with false. cbv iota.
      rewrite (bind_lift _ _ _ _ (flatten_SObj (s :: ss))). unfold ret.
      now rewrite (dict_set_tabulate _ _ _ _ (NoDup_range _ _) HY).
Qed.

Lemma year_type_count_series_run :
  year_type_count_series data lower_date upper_date name index_name st
  = (st ++ [frame1 df los; frame2 df los his],
     Ok (mkSeries name index_name
           (tabulate (fun Y => type_count cast_int64 Y los his)
                     (range (Qtrunc m) (Qtrunc M))))).
Proof.
  pose proof (length_los _ _ _ Hwf Hlo) as Ll.
  pose proof (length_his _ _ _ Hwf Hhi) as Lh.
  pose proof (frame2_lo _ _ _ _ _ Hwf Hlo Hhi los Ll) as Flo.
  pose proof (frame2_hi _ _ _ _ _ Hwf Hlo Hhi los Ll) as Fhi.
  pose proof (frame2_len _ _ _ _ _ Hwf Hlo Hhi los Ll) as Flen.
  assert (L1 : length his = length los) by lia.
  set (T2 := dated (rows los his los)) in *.
  set (st2 := st ++ [frame1 df los; frame2 df los his]).
  pose proof (lookup_frame2 st df los his) as Hd2. fold st2 in Hd2.
  assert (Alo : forallb is_fin (map (fun r => fst (fst r)) T2) = true)
    by (apply dated_all_fin; auto).
  assert (Ahi : forallb is_fin (map (fun r => snd (fst r)) T2) = true)
    by (apply dated_all_fin; auto).
  unfold year_type_count_series.
  rewrite (bind_ok _ _ _ _ _ (getitem_run _ _ _ _ _ Hdata Hlo)).
  rewrite (bind_lift (col_min (NumCol los)) _ _ _ eq_refl).
  rewrite (bind_ok _ _ _ _ _ (getitem_run _ _ _ _ _ Hdata Hhi)).
  rewrite (bind_lift (col_max (NumCol his)) _ _ _ eq_refl).
  rewrite Hmin, Hmax.
  rewrite (bind_lift (py_int (Fin m)) _ _ _ eq_refl).
  rewrite (bind_lift (py_int (Fin M)) _ _ _ eq_refl).
  cbv zeta.
  rewrite (bind_ok _ _ _ _ _ (dropna_lo_run _ _ _ _ _ Hdata Hlo)).
  rewrite (bind_ok _ _ _ _ _ (dropna_hi_run st _ _ los _ Hhi)).
  fold st2. set (ks := range (Qtrunc m) (Qtrunc M)).
  rewrite fromkeys_tabulate, keys_tabulate, <- fromkeys_tabulate.
  erewrite bind_ok; [reflexivity|].
  apply (year_loop (fun Y => type_count cast_int64 Y los his)).
  { apply NoDup_range. }
  intros f Y HY Hf. left.
  rewrite (bind_ok _ _ _ _ _ (len_run _ _ _ Hd2)), Flen.
  match goal with
  | |- context [for_each _ ?body _] =>
      destruct (for_each_seq_inv
        (fun k c => c = Z.of_nat (length
           (List.filter (fun r => in_span cast_int64 true Y (fst r)) (firstn k T2))))
        body st2 (length T2) 0 0) as (c & Hrun & Hc)
  end.
  - reflexivity.
  - intros k c [_ Hk] ->. simpl in Hk.
    destruct (lookup_lt_is_Some_2 T2 k Hk) as [r Hr].
    rewrite (bind_ok _ _ _ _ _
               (covers_run T2 _ _ _ _ _ _ _ Y Hd2 Flo Fhi Alo Ahi Hr)).
    rewrite (take_S_r _ _ _ Hr), List.filter_app. simpl.
    destruct (in_span cast_int64 true Y (fst r)); eexists;
      (split; [reflexivity|]); rewrite length_app; simpl; lia.
  - simpl in Hc. rewrite firstn_all in Hc.
    unfold T2 in Hc. rewrite in_span_dated in Hc.
    rewrite (type_count_rows _ _ _ _ _ L1 eq_refl) in Hc.
    rewrite (bind_ok _ _ _ _ _ Hrun). subst c. unfold ret.
    now rewrite (dict_set_tabulate _ _ _ _ (NoDup_range _ _) HY).
Qed.
End Counts.

(** ** Tables of dated records *)

Lemma is_num_col_get df c :
  is_num_col df c = true -> df_get df c = Some (NumCol (num_col df c)).
Proof.
  unfold is_num_col, num_col. now destruct (df_get df c) as [[]|].
Qed.

Lemma is_obj_col_get df c :
  is_obj_col df c = true -> df_get df c = Some (ObjCol (obj_col df c)).
Proof.
  unfold is_obj_col, obj_col. now destruct (df_get df c) as [[]|].
Qed.

Lemma dated_table_inv df lower_date upper_date :
  dated_table df lower_date upper_date = true ->
  let los := num_col df lower_date in
  let his := num_col df upper_date in
  df_wf df = true
  /\ df_get df lower_date = Some (NumCol los)
  /\ df_get df upper_date = Some (NumCol his)
  /\ forallb year_bound los = true
  /\ forallb year_bound his = true
  /\ exists m M, fold_left num_min los NaN = Fin m /\ least m los
                 /\ fold_left num_max his NaN = Fin M /\ greatest M his.
Proof.
  unfold dated_table. rewrite !andb_true_iff.
  intros [[[[[[Hwf Hl] Hh] Yl] Yh] El] Eh]. simpl.
  repeat split; auto using is_num_col_get.
  destruct (col_min_least _ Yl El) as (m & Hm & Lm).
  destruct (col_max_greatest _ Yh Eh) as (M & HM & LM).
  now exists m, M.
Qed.

Lemma s_at_tabulate {V} (f : Z -> V) name index_name ks Y :
  In Y ks -> s_at (mkSeries name index_name (tabulate f ks)) Y = Some (f Y).
Proof.
  intros H. unfold s_at. simpl. rewrite dict_lookup_tabulate.
  now destruct (in_dec Z.eq_dec Y ks).
Qed.

Lemma s_index_tabulate {V} (f : Z -> V) name index_name ks :
  s_index (mkSeries name index_name (tabulate f ks)) = ks.
Proof. apply (keys_tabulate f). Qed.

(** * The claims *)

(** C1, as stated, fails: the code takes the integer part of a date by
    truncation toward zero, not by floor.  In [bc_table] the second
    record starts at -50.5, so the code adds its rate from year -50 on;
    with floor it would also count at -51, where the series holds the
    rate of the first record alone. *)
Lemma year_freq_series_floor_counterexample :
  dated_table bc_table "lower" "upper" = true
  /\ int64_dates bc_table "lower" "upper" = true
  /\ is_num_col bc_table "rate" = true
  /\ exists s,
       snd (year_freq_series exact_rnd 0%nat "lower" "upper" "rate"
              "Frequency" "Year" [bc_table]) = Ok s
       /\ In (-51) (s_index s)
       /\ s_at s (-51)
          <> Some (rate_sum exact_rnd Qfloor (-51) (num_col bc_table "lower")
                     (num_col bc_table "upper") (num_col bc_table "rate")).
Proof.
  split; [reflexivity|]. split; [reflexivity|]. split; [reflexivity|].
  eexists. split; [vm_compute; reflexivity|]. split.
  - vm_compute. tauto.
  - vm_compute. intros [=].
Qed.

Lemma int64_dates_inv df lower_date upper_date :
  int64_dates df lower_date upper_date = true ->
  forallb int64_bound (num_col df lower_date) = true
  /\ forallb int64_bound (num_col df upper_date) = true.
Proof. unfold int64_dates. now rewrite andb_true_iff. Qed.

(** C1, amended: on a table of dated records whose dates all fit a
    64-bit integer, with a numeric rate column, [year_freq_series]
    returns a series over the bin range, from [int] of the least lower
    date up to but excluding [int] of the greatest upper date, and its
    value at each year [Y] of that range is the sum, in table order from
    0, of the rates of the rows with both dates present and
    [int(lower_date) <= Y < int(upper_date)], where [int] truncates
    toward zero. *)
Theorem year_freq_series_sum rnd st data df lower_date upper_date dens
    name index_name :
  st !! data = Some df ->
  dated_table df lower_date upper_date = true ->
  int64_dates df lower_date upper_date = true ->
  is_num_col df dens = true ->
  exists st' s m M,
    year_freq_series rnd data lower_date upper_date dens name index_name st
    = (st', Ok s)
    /\ least m (num_col df lower_date)
    /\ greatest M (num_col df upper_date)
    /\ s_index s = range (Qtrunc m) (Qtrunc M)
    /\ forall Y, Qtrunc m <= Y < Qtrunc M ->
         s_at s Y
         = Some (rate_sum rnd Qtrunc Y (num_col df lower_date)
                   (num_col df upper_date) (num_col df dens)).
Proof.
  intros Hdata Hdt Hb Hd.
  destruct (dated_table_inv _ _ _ Hdt)
    as (Hwf & Hlo & Hhi & Yl & Yh & m & M & Hm & Lm & HM & LM).
  destruct (int64_dates_inv _ _ _ Hb) as [Bl Bh].
  eexists _, _, m, M. split; [|split; [exact Lm|split; [exact LM|split]]].
  - exact (year_freq_series_run rnd _ _ _ _ _ _ name index_name _ _ _ _ _
             Hdata Hwf Hlo Hhi (is_num_col_get _ _ Hd) Yl Yh Bl Bh Hm HM Lm LM).
  - apply s_index_tabulate.
  - intros Y HY. apply in_range in HY.
    exact (s_at_tabulate (fun Y => rate_sum rnd Qtrunc Y _ _ _) _ _ _ _ HY).
Qed.

Lemma year_freq_series_sum_witness :
  exists st' s m M,
    year_freq_series exact_rnd 0%nat "lower" "upper" "rate" "Frequency" "Year"
      [bc_table] = (st', Ok s)
    /\ least m (num_col bc_table "lower")
    /\ greatest M (num_col bc_table "upper")
    /\ s_index s = range (Qtrunc m) (Qtrunc M)
    /\ forall Y, Qtrunc m <= Y < Qtrunc M ->
         s_at s Y
         = Some (rate_sum exact_rnd Qtrunc Y (num_col bc_table "lower")
                   (num_col bc_table "upper") (num_col bc_table "rate")).
Proof.
  apply (year_freq_series_sum exact_rnd [bc_table] 0%nat bc_table); reflexivity.
Defined.

Lemma distinct_spec (l : list string) :
  exists ids, distinct l = Z.of_nat (length ids)
              /\ List.NoDup ids /\ forall x, In x ids <-> In x l.
Proof.
  exists (elements (list_to_set l : gset string)). split; [reflexivity|]. split.
  - apply NoDup_ListNoDup, NoDup_elements.
  - intros x. rewrite <- !list_elem_of_In, elem_of_elements.
    apply elem_of_list_to_set.
Qed.

(** C2, as stated, fails for the same reason as C1: with floor the second
    record of [bc_table] would be counted at year -51, where the code
    finds the site of the first record only. *)
Lemma year_site_count_series_floor_counterexample :
  dated_table bc_table "lower" "upper" = true
  /\ is_obj_col bc_table "sites" = true
  /\ exists s,
       snd (year_site_count_series 0%nat "lower" "upper" "sites"
              "Site count" "Year" [bc_table]) = Ok s
       /\ In (-51) (s_index s)
       /\ s_at s (-51)
          <> Some (distinct (concat (sites_at Qfloor (-51)
                     (num_col bc_table "lower") (num_col bc_table "upper")
                     (obj_col bc_table "sites")))).
Proof.
  split; [reflexivity|]. split; [reflexivity|].
  eexists. split; [vm_compute; reflexivity|]. split.
  - vm_compute. tauto.
  - vm_compute. intros [=].
Qed.

(** C2, amended: on a table of dated records with a column of site
    lists, [year_site_count_series] returns a series over the bin range,
    from [int] of the least lower date up to but excluding [int] of the
    greatest upper date, and its value at each year [Y] of that range is
    the number of distinct site identifiers in the site lists of the
    rows with both dates present and
    [int(lower_date) <= Y <= int(upper_date)]; it is 0 when no row
    passes the test.  In the test [int] is the 64-bit cast of
    [astype(int)]: truncation toward zero, and the least 64-bit integer
    for a date that does not fit.  For the rows [A,B] 1990-1995 and
    [B,C] 1993-1998 the counts at 1994, 1991 and 1996 are 3, 2 and 2. *)
Theorem year_site_count_series_distinct st data df lower_date upper_date
    site_list name index_name :
  st !! data = Some df ->
  dated_table df lower_date upper_date = true ->
  is_obj_col df site_list = true ->
  (exists st' s m M,
     year_site_count_series data lower_date upper_date site_list name
       index_name st = (st', Ok s)
     /\ least m (num_col df lower_date)
     /\ greatest M (num_col df upper_date)
     /\ s_index s = range (Qtrunc m) (Qtrunc M)
     /\ forall Y, Qtrunc m <= Y < Qtrunc M ->
          let covering := sites_at cast_int64 Y (num_col df lower_date)
                            (num_col df upper_date) (obj_col df site_list) in
          (covering = [] -> s_at s Y = Some 0)
          /\ exists ids,
               s_at s Y = Some (Z.of_nat (length ids))
               /\ List.NoDup ids
               /\ forall x, In x ids <-> exists sl, In sl covering /\ In x sl)
  /\ (exists s,
        snd (year_site_count_series 0%nat "lower" "upper" "sites"
               "Site count" "Year" [site_table]) = Ok s
        /\ s_at s 1994 = Some 3 /\ s_at s 1991 = Some 2 /\ s_at s 1996 = Some 2).
Proof.
  intros Hdata Hdt Hs. split.
  - destruct (dated_table_inv _ _ _ Hdt)
      as (Hwf & Hlo & Hhi & Yl & Yh & m & M & Hm & Lm & HM & LM).
    eexists _, _, m, M. split; [|split; [exact Lm|split; [exact LM|split]]].
    + exact (year_site_count_series_run _ _ _ _ _ name index_name _ _ _ _
               Hdata Hwf Hlo Hhi Yl Yh Hm HM _ _ (is_obj_col_get _ _ Hs)).
    + apply s_index_tabulate.
    + intros Y HY covering. apply in_range in HY.
      rewrite (s_at_tabulate
                 (fun Y => distinct (concat (sites_at cast_int64 Y _ _ _)))
                 _ _ _ _ HY).
      fold covering. split.
      * now intros ->.
      * destruct (distinct_spec (concat covering)) as (ids & E & Hnd & Hin).
        exists ids. split; [now rewrite E|]. split; [easy|].
        intros x. rewrite Hin. apply in_concat.
  - eexists. split; [vm_compute; reflexivity|]. now vm_compute.
Qed.

Lemma year_site_count_series_distinct_witness :
  (exists st' s m M,
     year_site_count_series 0%nat "lower" "upper" "sites" "Site count" "Year"
       [site_table] = (st', Ok s)
     /\ least m (num_col site_table "lower")
     /\ greatest M (num_col site_table "upper")
     /\ s_index s = range (Qtrunc m) (Qtrunc M)
     /\ forall Y, Qtrunc m <= Y < Qtrunc M ->
          let covering := sites_at cast_int64 Y (num_col site_table "lower")
                            (num_col site_table "upper")
                            (obj_col site_table "sites") in
          (covering = [] -> s_at s Y = Some 0)
          /\ exists ids,
               s_at s Y = Some (Z.of_nat (length ids))
               /\ List.NoDup ids
               /\ forall x, In x ids <-> exists sl, In sl covering /\ In x sl)
  /\ (exists s,
        snd (year_site_count_series 0%nat "lower" "upper" "sites"
               "Site count" "Year" [site_table]) = Ok s
        /\ s_at s 1994 = Some 3 /\ s_at s 1991 = Some 2 /\ s_at s 1996 = Some 2).
Proof.
  apply (year_site_count_series_distinct [site_table] 0%nat site_table);
    reflexivity.
Defined.

(** C3, as stated, fails for the same reason as C1: with floor the second
    record of [bc_table] would be counted at year -51, where the code
    counts one row. *)
Lemma year_type_count_series_floor_counterexample :
  dated_table bc_table "lower" "upper" = true
  /\ exists s,
       snd (year_type_count_series 0%nat "lower" "upper"
              "Site count" "Year" [bc_table]) = Ok s
       /\ In (-51) (s_index s)
       /\ s_at s (-51)
          <> Some (type_count Qfloor (-51) (num_col bc_table "lower")
                     (num_col bc_table "upper")).
Proof.
  split; [reflexivity|].
  eexists. split; [vm_compute; reflexivity|]. split.
  - vm_compute. tauto.
  - vm_compute. intros [=].
Qed.

(** C3, amended: on a table of dated records, [year_type_count_series]
    returns a series over the bin range, from [int] of the least lower
    date up to but excluding [int] of the greatest upper date, and its
    value at each year [Y] of that range is the number of rows, one per
    table entry and without deduplication, with both dates present and
    [int(lower_date) <= Y <= int(upper_date)].  In the test [int] is the
    64-bit cast of [astype(int)]: truncation toward zero, and the least
    64-bit integer for a date that does not fit. *)
Theorem year_type_count_series_rows st data df lower_date upper_date
    name index_name :
  st !! data = Some df ->
  dated_table df lower_date upper_date = true ->
  exists st' s m M,
    year_type_count_series data lower_date upper_date name index_name st
    = (st', Ok s)
    /\ least m (num_col df lower_date)
    /\ greatest M (num_col df upper_date)
    /\ s_index s = range (Qtrunc m) (Qtrunc M)
    /\ forall Y, Qtrunc m <= Y < Qtrunc M ->
         s_at s Y
         = Some (type_count cast_int64 Y (num_col df lower_date)
                   (num_col df upper_date)).
Proof.
  intros Hdata Hdt.
  destruct (dated_table_inv _ _ _ Hdt)
    as (Hwf & Hlo & Hhi & Yl & Yh & m & M & Hm & Lm & HM & LM).
  eexists _, _, m, M. split; [|split; [exact Lm|split; [exact LM|split]]].
  - exact (year_type_count_series_run _ _ _ _ _ name index_name _ _ _ _
             Hdata Hwf Hlo Hhi Yl Yh Hm HM).
  - apply s_index_tabulate.
  - intros Y HY. apply in_range in HY.
    exact (s_at_tabulate (fun Y => type_count cast_int64 Y _ _) _ _ _ _ HY).
Qed.

Lemma year_type_count_series_rows_witness :
  exists st' s m M,
    year_type_count_series 0%nat "lower" "upper" "Site count" "Year" [bc_table]
    = (st', Ok s)
    /\ least m (num_col bc_table "lower")
    /\ greatest M (num_col bc_table "upper")
    /\ s_index s = range (Qtrunc m) (Qtrunc M)
    /\ forall Y, Qtrunc m <= Y < Qtrunc M ->
         s_at s Y
         = Some (type_count cast_int64 Y (num_col bc_table "lower")
                   (num_col bc_table "upper")).
Proof.
  apply (year_type_count_series_rows [bc_table] 0%nat bc_table); reflexivity.
Defined.

(** C4, as stated, fails: the ends of the index are the truncations
    toward zero of the least lower date and of the greatest upper date,
    not their floors.  For the record -50.5 to -40.5 the index runs from
    -50 to -41, where floor would give -51 to -42. *)
Lemma series_index_floor_counterexample :
  dated_table frac_table "lower" "upper" = true
  /\ int64_dates frac_table "lower" "upper" = true
  /\ least (-101 # 2) (num_col frac_table "lower")
  /\ greatest (-81 # 2) (num_col frac_table "upper")
  /\ exists s,
       snd (year_type_count_series 0%nat "lower" "upper" "Site count" "Year"
              [frac_table]) = Ok s
       /\ s_index s = range (-50) (-40)
       /\ s_index s <> range (Qfloor (-101 # 2)) (Qfloor (-81 # 2)).
Proof.
  split; [reflexivity|]. split; [reflexivity|]. split; [|split].
  - split; [now left|]. intros x [<-|[]] _. reflexivity.
  - split; [now left|]. intros x [<-|[]] _. reflexivity.
  - eexists. split; [vm_compute; reflexivity|]. split; [reflexivity|].
    vm_compute. intros [=].
Qed.

(** C4, amended: on a table of dated records the index of the series of
    each aggregator is the consecutive integers from
    [min_year = int(min(lower_date))] up to but excluding
    [max_year = int(max(upper_date))], in ascending order, where [int]
    truncates toward zero; its length is [max_year - min_year], and 0
    when that is negative.  The minimum and the maximum range over all
    the non-null cells of the date columns of the table as given: every
    lower date, also of a row whose upper date is null, is at least
    [min_year] once truncated, and every upper date at most [max_year].
    For [year_freq_series] this needs every date to fit a 64-bit
    integer; the two counts return their series without that. *)
Theorem series_index_span rnd st data df lower_date upper_date dens site_list
    name index_name :
  st !! data = Some df ->
  dated_table df lower_date upper_date = true ->
  is_num_col df dens = true ->
  is_obj_col df site_list = true ->
  exists m M,
    least m (num_col df lower_date)
    /\ greatest M (num_col df upper_date)
    /\ let min_year := Qtrunc m in
       let max_year := Qtrunc M in
       (int64_dates df lower_date upper_date = true ->
        exists st' s,
          year_freq_series rnd data lower_date upper_date dens name index_name st
          = (st', Ok s) /\ s_index s = range min_year max_year)
       /\ (exists st' s,
             year_site_count_series data lower_date upper_date site_list name
               index_name st = (st', Ok s)
             /\ s_index s = range min_year max_year)
       /\ (exists st' s,
             year_type_count_series data lower_date upper_date name index_name st
             = (st', Ok s) /\ s_index s = range min_year max_year)
       /\ length (range min_year max_year) = Z.to_nat (max_year - min_year)
       /\ (forall i, (i < Z.to_nat (max_year - min_year))%nat ->
             range min_year max_year !! i = Some (min_year + Z.of_nat i))
       /\ (forall i l, num_col df lower_date !! i = Some (Fin l) ->
             min_year <= Qtrunc l)
       /\ (forall i h, num_col df upper_date !! i = Some (Fin h) ->
             Qtrunc h <= max_year).
Proof.
  intros Hdata Hdt Hd Hs.
  destruct (dated_table_inv _ _ _ Hdt)
    as (Hwf & Hlo & Hhi & Yl & Yh & m & M & Hm & Lm & HM & LM).
  exists m, M. split; [easy|]. split; [easy|]. cbv zeta.
  split; [|split; [|split; [|split; [|split; [|split]]]]].
  - intros Hb. destruct (int64_dates_inv _ _ _ Hb) as [Bl Bh].
    eexists _, _. split.
    + exact (year_freq_series_run rnd _ _ _ _ _ _ name index_name _ _ _ _ _
               Hdata Hwf Hlo Hhi (is_num_col_get _ _ Hd) Yl Yh Bl Bh Hm HM Lm LM).
    + apply s_index_tabulate.
  - eexists _, _. split.
    + exact (year_site_count_series_run _ _ _ _ _ name index_name _ _ _ _
               Hdata Hwf Hlo Hhi Yl Yh Hm HM _ _ (is_obj_col_get _ _ Hs)).
    + apply s_index_tabulate.
  - eexists _, _. split.
    + exact (year_type_count_series_run _ _ _ _ _ name index_name _ _ _ _
               Hdata Hwf Hlo Hhi Yl Yh Hm HM).
    + apply s_index_tabulate.
  - apply length_range.
  - intros i Hi. unfold range. rewrite list_lookup_fmap, lookup_seq_lt by lia.
    reflexivity.
  - intros i l Hl. apply (least_trunc _ _ _ Lm).
    apply list_elem_of_In. eapply list_elem_of_lookup_2. exact Hl.
  - intros i h Hh. apply (greatest_trunc _ _ _ LM).
    apply list_elem_of_In. eapply list_elem_of_lookup_2. exact Hh.
Qed.

Lemma series_index_span_witness :
  exists m M,
    least m (num_col span_table "lower")
    /\ greatest M (num_col span_table "upper")
    /\ Qtrunc m = 1985 /\ Qtrunc M = 2000
    /\ (exists st' s,
          year_freq_series exact_rnd 0%nat "lower" "upper" "rate" "Site count"
            "Year" [span_table] = (st', Ok s)
          /\ s_index s = range (Qtrunc m) (Qtrunc M))
    /\ (exists st' s,
          year_site_count_series 0%nat "lower" "upper" "sites" "Site count"
            "Year" [span_table] = (st', Ok s)
          /\ s_index s = range (Qtrunc m) (Qtrunc M))
    /\ (exists st' s,
          year_type_count_series 0%nat "lower" "upper" "Site count" "Year"
            [span_table] = (st', Ok s)
          /\ s_index s = range (Qtrunc m) (Qtrunc M)).
Proof.
  destruct (series_index_span exact_rnd [span_table] 0%nat span_table "lower"
              "upper" "rate" "sites" "Site count" "Year" eq_refl eq_refl eq_refl
              eq_refl)
    as (m & M & Lm & LM & Hf & Hs & Ht & _ & _ & Hlo & Hhi).
  exists m, M. split; [exact Lm|]. split; [exact LM|].
  assert (Em : Qtrunc m = 1985).
  { destruct Lm as [Hin _]. pose proof (Hlo 0%nat _ eq_refl) as H0.
    destruct Hin as [E|[E|[E|[]]]]; try discriminate E; injection E as <-;
      first [reflexivity | exfalso; vm_compute in H0; now apply H0]. }
  assert (EM : Qtrunc M = 2000).
  { destruct LM as [Hin _]. pose proof (Hhi 2%nat _ eq_refl) as H0.
    destruct Hin as [E|[E|[E|[]]]]; try discriminate E; injection E as <-;
      first [reflexivity | exfalso; vm_compute in H0; now apply H0]. }
  split; [exact Em|]. split; [exact EM|].
  split; [exact (Hf eq_refl)|]. split; [exact Hs|exact Ht].
Defined.


(** ** Null dates *)

Lemma rate_sum_dated rnd ip Y los his rates :
  rate_sum rnd ip Y los his rates
  = fold_left (fadd rnd)
      (map snd (List.filter (fun r => in_span ip false Y (fst r))
                  (dated (rows los his rates)))) (Fin 0%Q).
Proof. unfold rate_sum. now rewrite in_span_dated. Qed.

Lemma sites_at_dated ip Y los his sites :
  sites_at ip Y los his sites
  = map snd (List.filter (fun r => in_span ip true Y (fst r))
               (dated (rows los his sites))).
Proof. unfold sites_at. now rewrite in_span_dated. Qed.

Lemma type_count_dated {X} ip Y los his (xs : list X) :
  length his = length los -> length xs = length los ->
  type_count ip Y los his
  = Z.of_nat (length (List.filter (fun r => in_span ip true Y (fst r))
                        (dated (rows los his xs)))).
Proof.
  intros H1 H2. now rewrite in_span_dated, (type_count_rows _ _ _ _ _ H1 H2).
Qed.

Lemma lookup_app_keep (st tmp : store) d df :
  st !! d = Some df -> (st ++ tmp) !! d = Some df.
Proof. intros H. now apply lookup_app_l_Some. Qed.

(** C6: rows with a null lower or upper date add nothing to any year of
    any of the three aggregators: two tables of dated records with the
    same resolved span and the same rows once the rows with a null date
    are left out have the same outcome under each aggregator, whatever
    the rows with a null date hold.  The two counts return a series on
    every such table, and [year_freq_series] does when every date fits a
    64-bit integer.  The table passed in is still in the store as it
    was, with all its rows. *)
Theorem null_date_rows_dropped rnd st data df st' data' df'
    lower_date upper_date dens site_list name index_name :
  st !! data = Some df ->
  st' !! data' = Some df' ->
  dated_table df lower_date upper_date = true ->
  dated_table df' lower_date upper_date = true ->
  is_num_col df dens = true ->
  is_num_col df' dens = true ->
  is_obj_col df site_list = true ->
  is_obj_col df' site_list = true ->
  year_range df lower_date upper_date = year_range df' lower_date upper_date ->
  dated (rows (num_col df lower_date) (num_col df upper_date) (num_col df dens))
  = dated (rows (num_col df' lower_date) (num_col df' upper_date) (num_col df' dens)) ->
  dated (rows (num_col df lower_date) (num_col df upper_date) (obj_col df site_list))
  = dated (rows (num_col df' lower_date) (num_col df' upper_date)
             (obj_col df' site_list)) ->
  let freq := year_freq_series rnd data lower_date upper_date dens name index_name st in
  let freq' := year_freq_series rnd data' lower_date upper_date dens name index_name st' in
  let site := year_site_count_series data lower_date upper_date site_list name
                index_name st in
  let site' := year_site_count_series data' lower_date upper_date site_list name
                 index_name st' in
  let type := year_type_count_series data lower_date upper_date name index_name st in
  let type' := year_type_count_series data' lower_date upper_date name index_name st' in
  snd freq = snd freq'
  /\ (int64_dates df lower_date upper_date = true -> exists s, snd freq = Ok s)
  /\ (exists s, snd site = Ok s /\ snd site' = Ok s)
  /\ (exists s, snd type = Ok s /\ snd type' = Ok s)
  /\ fst freq !! data = Some df
  /\ fst site !! data = Some df
  /\ fst type !! data = Some df.
Proof.
  intros Hdata Hdata' Hdt Hdt' Hd Hd' Hs Hs' Hspan Hrates Hsites.
  destruct (dated_table_inv _ _ _ Hdt)
    as (Hwf & Hlo & Hhi & Yl & Yh & m & M & Hm & Lm & HM & LM).
  destruct (dated_table_inv _ _ _ Hdt')
    as (Hwf' & Hlo' & Hhi' & Yl' & Yh' & m' & M' & Hm' & Lm' & HM' & LM').
  unfold year_range in Hspan. rewrite Hm, HM, Hm', HM' in Hspan. simpl in Hspan.
  injection Hspan as Ea Eb.
  pose proof (length_los _ _ _ Hwf Hlo) as Ll.
  pose proof (length_his _ _ _ Hwf Hhi) as Lh.
  pose proof (length_los _ _ _ Hwf' Hlo') as Ll'.
  pose proof (length_his _ _ _ Hwf' Hhi') as Lh'.
  pose proof (df_wf_get _ _ _ Hwf (is_num_col_get _ _ Hd)) as Lr.
  pose proof (df_wf_get _ _ _ Hwf' (is_num_col_get _ _ Hd')) as Lr'.
  simpl in Lr, Lr'. cbv zeta.
  split; [|split].
  { rewrite (year_freq_series_outcome rnd _ _ _ _ _ _ name index_name _ _ _ _ _
               Hdata Hwf Hlo Hhi (is_num_col_get _ _ Hd) Yl Yh Hm HM).
    rewrite (year_freq_series_outcome rnd _ _ _ _ _ _ name index_name _ _ _ _ _
               Hdata' Hwf' Hlo' Hhi' (is_num_col_get _ _ Hd') Yl' Yh' Hm' HM').
    simpl snd. unfold freq_outcome. now rewrite Hrates, Ea, Eb. }
  { intros Hb. destruct (int64_dates_inv _ _ _ Hb) as [Bl Bh].
    rewrite (year_freq_series_run rnd _ _ _ _ _ _ name index_name _ _ _ _ _
               Hdata Hwf Hlo Hhi (is_num_col_get _ _ Hd) Yl Yh Bl Bh Hm HM Lm LM).
    now eexists. }
  rewrite (year_freq_series_outcome rnd _ _ _ _ _ _ name index_name _ _ _ _ _
             Hdata Hwf Hlo Hhi (is_num_col_get _ _ Hd) Yl Yh Hm HM).
  rewrite (year_site_count_series_run _ _ _ _ _ name index_name _ _ _ _
             Hdata Hwf Hlo Hhi Yl Yh Hm HM _ _ (is_obj_col_get _ _ Hs)).
  rewrite (year_site_count_series_run _ _ _ _ _ name index_name _ _ _ _
             Hdata' Hwf' Hlo' Hhi' Yl' Yh' Hm' HM' _ _ (is_obj_col_get _ _ Hs')).
  rewrite (year_type_count_series_run _ _ _ _ _ name index_name _ _ _ _
             Hdata Hwf Hlo Hhi Yl Yh Hm HM).
  rewrite (year_type_count_series_run _ _ _ _ _ name index_name _ _ _ _
             Hdata' Hwf' Hlo' Hhi' Yl' Yh' Hm' HM').
  simpl fst. simpl snd. rewrite <- Ea, <- Eb.
  split; [|split].
  - eexists. split; [reflexivity|]. do 2 f_equal. apply tabulate_ext.
    intros Y _. now rewrite !sites_at_dated, Hsites.
  - eexists. split; [reflexivity|]. do 2 f_equal. apply tabulate_ext.
    intros Y _.
    rewrite (type_count_dated _ _ (num_col df lower_date) _ (num_col df dens)) by lia.
    rewrite (type_count_dated _ _ (num_col df' lower_date) _ (num_col df' dens)) by lia.
    now rewrite Hrates.
  - repeat split; now apply lookup_app_keep.
Qed.

Lemma null_date_rows_dropped_witness :
  let freq := year_freq_series exact_rnd 0%nat "lower" "upper" "rate" "Series"
                "Year" [null_table] in
  let freq' := year_freq_series exact_rnd 0%nat "lower" "upper" "rate" "Series"
                 "Year" [full_table] in
  let site := year_site_count_series 0%nat "lower" "upper" "sites" "Series"
                "Year" [null_table] in
  let site' := year_site_count_series 0%nat "lower" "upper" "sites" "Series"
                 "Year" [full_table] in
  let type := year_type_count_series 0%nat "lower" "upper" "Series" "Year"
                [null_table] in
  let type' := year_type_count_series 0%nat "lower" "upper" "Series" "Year"
                 [full_table] in
  snd freq = snd freq'
  /\ (exists s, snd freq = Ok s)
  /\ (exists s, snd site = Ok s /\ snd site' = Ok s)
  /\ (exists s, snd type = Ok s /\ snd type' = Ok s)
  /\ fst freq !! 0%nat = Some null_table
  /\ fst site !! 0%nat = Some null_table
  /\ fst type !! 0%nat = Some null_table.
Proof.
  destruct (null_date_rows_dropped exact_rnd [null_table] 0%nat null_table
              [full_table] 0%nat full_table "lower" "upper" "rate" "sites"
              "Series" "Year" eq_refl eq_refl eq_refl eq_refl eq_refl eq_refl
              eq_refl eq_refl eq_refl eq_refl eq_refl)
    as (H1 & H2 & H3).
  split; [exact H1|]. split; [exact (H2 eq_refl)|exact H3].
Defined.

(** ** The derived column *)

Lemma assoc_get_set_eq {V} (l : list (string * V)) c v :
  assoc_get (assoc_set l c v) c = Some v.
Proof.
  induction l as [|[c' v'] l IH]; simpl.
  - now rewrite String.eqb_refl.
  - destruct (String.eqb c' c) eqn:E; simpl; now rewrite E.
Qed.

Lemma assoc_get_set_ne {V} (l : list (string * V)) c c' v :
  c' <> c -> assoc_get (assoc_set l c v) c' = assoc_get l c'.
Proof.
  intros Hne. induction l as [|[d w] l IH]; simpl.
  - destruct (String.eqb_spec c c'); [congruence|reflexivity].
  - destruct (String.eqb_spec d c) as [->|Hd]; simpl.
    + destruct (String.eqb_spec c c'); [congruence|reflexivity].
    + now rewrite IH.
Qed.

Lemma assoc_set_names {V} (l : list (string * V)) c v :
  map fst (assoc_set l c v)
  = match assoc_get l c with
    | Some _ => map fst l
    | None => map fst l ++ [c]
    end.
Proof.
  induction l as [|[d w] l IH]; simpl; [reflexivity|].
  destruct (String.eqb d c); simpl; [reflexivity|].
  rewrite IH. now destruct (assoc_get l c).
Qed.

Lemma setitem_run st d df c col :
  st !! d = Some df -> setitem d c col st = (<[d := df_set df c col]> st, Ok tt).
Proof.
  intros Hd. unfold setitem. now rewrite (bind_ok _ _ _ _ _ (deref_run _ _ _ Hd)).
Qed.

Lemma num_col_set_eq df c xs : num_col (df_set df c (NumCol xs)) c = xs.
Proof. unfold num_col, df_get, df_set. simpl. now rewrite assoc_get_set_eq. Qed.

Lemma dens_per_year_run rnd st data df type_dens lower_date upper_date
    output_column :
  st !! data = Some df ->
  is_num_col df type_dens = true ->
  is_num_col df lower_date = true ->
  is_num_col df upper_date = true ->
  dens_per_year rnd data type_dens lower_date upper_date output_column st
  = (<[data := df_set df output_column
                 (NumCol (density rnd (num_col df type_dens)
                            (num_col df upper_date) (num_col df lower_date)))]> st,
     Ok data).
Proof.
  intros Hdata Hq Hl Hu. unfold dens_per_year.
  rewrite (bind_ok _ _ _ _ _ (getitem_run _ _ _ _ _ Hdata (is_num_col_get _ _ Hq))).
  rewrite (bind_ok _ _ _ _ _ (getitem_run _ _ _ _ _ Hdata (is_num_col_get _ _ Hu))).
  rewrite (bind_ok _ _ _ _ _ (getitem_run _ _ _ _ _ Hdata (is_num_col_get _ _ Hl))).
  rewrite (bind_lift (col_binop _ (NumCol _) (NumCol _)) _ _ _ eq_refl).
  rewrite (bind_lift (col_binop _ (NumCol _) (NumCol _)) _ _ _ eq_refl).
  now rewrite (bind_ok _ _ _ _ _ (setitem_run _ _ _ _ _ Hdata)).
Qed.

(** Dividing by the difference of two equal dates never gives a finite
    number. *)
Lemma fdiv_degenerate rnd q u l :
  num_eqb u l = true -> is_fin (fdiv rnd q (fsub rnd u l)) = false.
Proof.
  destruct u as [|s|x], l as [|t|y]; simpl; try easy.
  - intros E. rewrite E. now destruct q.
  - intros E. rewrite E. destruct q as [|s|q]; simpl; try easy.
    now destruct (Qeq_bool q 0).
Qed.

(** C7: on a table with numeric quantity and date columns, for a row
    whose upper date equals its lower date [dens_per_year] does not
    raise and keeps the row: it returns the table it was given, with the
    same row count, and the cell of the output column in that row is the
    quotient as computed, an infinity or not-a-number. *)
Theorem dens_per_year_degenerate rnd st data df type_dens lower_date upper_date
    output_column i l u :
  st !! data = Some df ->
  df_wf df = true ->
  is_num_col df type_dens = true ->
  is_num_col df lower_date = true ->
  is_num_col df upper_date = true ->
  num_col df lower_date !! i = Some l ->
  num_col df upper_date !! i = Some u ->
  num_eqb u l = true ->
  exists st' df',
    dens_per_year rnd data type_dens lower_date upper_date output_column st
    = (st', Ok data)
    /\ st' !! data = Some df'
    /\ df_len df' = df_len df
    /\ length (num_col df' output_column) = df_len df
    /\ exists q v,
         num_col df type_dens !! i = Some q
         /\ num_col df' output_column !! i = Some v
         /\ v = fdiv rnd q (fsub rnd u l)
         /\ is_fin v = false.
Proof.
  intros Hdata Hwf Hq Hl Hu Hli Hui Heq.
  pose proof (df_wf_get _ _ _ Hwf (is_num_col_get _ _ Hq)) as Lq.
  pose proof (df_wf_get _ _ _ Hwf (is_num_col_get _ _ Hl)) as Ll.
  pose proof (df_wf_get _ _ _ Hwf (is_num_col_get _ _ Hu)) as Lu.
  simpl in Lq, Ll, Lu.
  eexists _, _. split.
  { exact (dens_per_year_run rnd _ _ _ _ _ _ output_column Hdata Hq Hl Hu). }
  split; [apply list_lookup_insert_eq; now apply lookup_lt_Some in Hdata|].
  split; [reflexivity|]. rewrite num_col_set_eq.
  split.
  - unfold density. rewrite !length_zip_with. lia.
  - destruct (lookup_lt_is_Some_2 (num_col df type_dens) i) as [q Hqi].
    { apply lookup_lt_Some in Hli. lia. }
    exists q, (fdiv rnd q (fsub rnd u l)). split; [easy|]. split.
    + unfold density. rewrite !lookup_zip_with, Hqi, Hui, Hli. reflexivity.
    + split; [reflexivity|]. now apply fdiv_degenerate.
Qed.

Lemma dens_per_year_degenerate_witness :
  exists st' df',
    dens_per_year exact_rnd 0%nat "density" "lower" "upper" "density_per_year"
      [degenerate_table] = (st', Ok 0%nat)
    /\ st' !! 0%nat = Some df'
    /\ df_len df' = df_len degenerate_table
    /\ length (num_col df' "density_per_year") = df_len degenerate_table
    /\ exists q v,
         num_col degenerate_table "density" !! 1%nat = Some q
         /\ num_col df' "density_per_year" !! 1%nat = Some v
         /\ v = fdiv exact_rnd q (fsub exact_rnd (Fin (150 # 1)) (Fin (150 # 1)))
         /\ is_fin v = false.
Proof.
  apply (dens_per_year_degenerate exact_rnd [degenerate_table] 0%nat
           degenerate_table "density" "lower" "upper" "density_per_year" 1%nat
           (Fin (150 # 1)) (Fin (150 # 1))); reflexivity.
Defined.

(** C8: when one of the input columns the call names (quantity, lower
    date, upper date) is absent from the table, [dens_per_year] raises
    the missing-column error, [KeyError], for an absent column at once:
    nothing is returned and the table is left as it was. *)
Theorem dens_per_year_missing_column rnd st data df type_dens lower_date
    upper_date output_column :
  st !! data = Some df ->
  df_get df type_dens = None \/ df_get df lower_date = None
  \/ df_get df upper_date = None ->
  exists c,
    (c = type_dens \/ c = lower_date \/ c = upper_date)
    /\ df_get df c = None
    /\ dens_per_year rnd data type_dens lower_date upper_date output_column st
       = (st, Raise (KeyError (KStr c))).
Proof.
  intros Hdata Hmiss. unfold dens_per_year.
  destruct (df_get df type_dens) as [q|] eqn:Eq.
  2:{ exists type_dens. split; [now left|]. split; [easy|].
      now rewrite (bind_raise _ _ _ _ _ (getitem_missing _ _ _ _ Hdata Eq)). }
  rewrite (bind_ok _ _ _ _ _ (getitem_run _ _ _ _ _ Hdata Eq)).
  destruct (df_get df upper_date) as [u|] eqn:Eu.
  2:{ exists upper_date. split; [now right; right|]. split; [easy|].
      now rewrite (bind_raise _ _ _ _ _ (getitem_missing _ _ _ _ Hdata Eu)). }
  rewrite (bind_ok _ _ _ _ _ (getitem_run _ _ _ _ _ Hdata Eu)).
  destruct (df_get df lower_date) as [l|] eqn:El.
  2:{ exists lower_date. split; [now right; left|]. split; [easy|].
      now rewrite (bind_raise _ _ _ _ _ (getitem_missing _ _ _ _ Hdata El)). }
  now destruct Hmiss as [H|[H|H]].
Qed.

Lemma dens_per_year_missing_column_witness :
  exists c,
    (c = "quantity"%string \/ c = "lower"%string \/ c = "upper"%string)
    /\ df_get degenerate_table c = None
    /\ dens_per_year exact_rnd 0%nat "quantity" "lower" "upper"
         "density_per_year" [degenerate_table]
       = ([degenerate_table], Raise (KeyError (KStr c))).
Proof.
  apply (dens_per_year_missing_column exact_rnd [degenerate_table] 0%nat
           degenerate_table "quantity" "lower" "upper" "density_per_year").
  - reflexivity.
  - left. reflexivity.
Defined.

(** ** What the aggregators do to the store *)

Lemma extends_ret {A} (a : A) : extends (ret a).
Proof. intros st. exists []. simpl. now rewrite app_nil_r. Qed.

Lemma extends_raise {A} e : extends (@raise A e).
Proof. intros st. exists []. simpl. now rewrite app_nil_r. Qed.

Lemma extends_lift {A} (r : result A) : extends (lift r).
Proof. intros st. exists []. simpl. now rewrite app_nil_r. Qed.

Lemma extends_bind {A B} (m : M A) (k : A -> M B) :
  extends m -> (forall a, extends (k a)) -> extends (bind m k).
Proof.
  intros Hm Hk st. unfold bind. destruct (Hm st) as [t1 E1].
  destruct (m st) as [st1 [a|e]]; simpl in E1; subst st1.
  - destruct (Hk a (st ++ t1)) as [t2 E2]. exists (t1 ++ t2).
    now rewrite E2, app_assoc.
  - now exists t1.
Qed.

Lemma extends_for_each {A S} (l : list A) (body : S -> A -> M S) s :
  (forall s x, extends (body s x)) -> extends (for_each l body s).
Proof.
  intros Hb. revert s. induction l as [|x l IH]; intros s; simpl.
  - apply extends_ret.
  - apply extends_bind; [apply Hb|]. intros s'. apply IH.
Qed.

Lemma extends_deref d : extends (deref d).
Proof.
  intros st. exists []. unfold deref. rewrite app_nil_r.
  now destruct (st !! d).
Qed.

Lemma extends_getitem d c : extends (getitem d c).
Proof.
  unfold getitem. apply extends_bind; [apply extends_deref|]. intros df.
  destruct (df_get df c); [apply extends_ret|apply extends_raise].
Qed.

Lemma extends_len d : extends (len d).
Proof.
  unfold len. apply extends_bind; [apply extends_deref|]. intros df.
  apply extends_ret.
Qed.

Lemma extends_dropna d c : extends (dropna d c).
Proof.
  unfold dropna. apply extends_bind; [apply extends_deref|]. intros df.
  apply extends_bind; [apply extends_getitem|]. intros col st.
  now eexists.
Qed.

Lemma extends_int_at d c row : extends (int_at d c row).
Proof.
  unfold int_at. apply extends_bind; [apply extends_getitem|]. intros col.
  apply extends_bind; [apply extends_lift|]. intros ints. apply extends_lift.
Qed.

Lemma extends_covers d lower_date upper_date row year :
  extends (covers d lower_date upper_date row year).
Proof.
  unfold covers. apply extends_bind; [apply extends_int_at|]. intros lo.
  destruct (lo <=? year); [|apply extends_ret].
  apply extends_bind; [apply extends_int_at|]. intros hi. apply extends_ret.
Qed.

Create HintDb frame.
#[local] Hint Resolve extends_ret extends_raise extends_lift extends_deref
  extends_getitem extends_len extends_dropna extends_int_at extends_covers
  : frame.

Ltac frame :=
  repeat first
    [ solve [auto with frame]
    | apply extends_bind; [|intro]
    | apply extends_for_each; do 2 intro
    | match goal with |- extends (if ?c then _ else _) => destruct c end ].

Lemma extends_year_freq_series rnd data lower_date upper_date dens name index_name :
  extends (year_freq_series rnd data lower_date upper_date dens name index_name).
Proof. unfold year_freq_series. frame. Qed.

Lemma extends_year_site_count_series data lower_date upper_date site_list
    name index_name :
  extends (year_site_count_series data lower_date upper_date site_list name
             index_name).
Proof. unfold year_site_count_series. frame. Qed.

Lemma extends_year_type_count_series data lower_date upper_date name index_name :
  extends (year_type_count_series data lower_date upper_date name index_name).
Proof. unfold year_type_count_series. frame. Qed.

Lemma extends_lookup {A} (m : M A) st d df :
  extends m -> st !! d = Some df -> fst (m st) !! d = Some df.
Proof.
  intros Hm Hd. destruct (Hm st) as [tmp ->]. now apply lookup_app_keep.
Qed.

(** C9: the three aggregators leave the store as they found it but for
    the frames they allocate, so the table passed in, like every other
    object, is unchanged; [dens_per_year] updates the table it is given
    where it is and returns it: the output column holds the quotients,
    every other column is as before, so are the row count and the order
    of the rows, and a new column name comes last. *)
Theorem table_frame rnd st data df lower_date upper_date dens site_list
    type_dens output_column name index_name :
  st !! data = Some df ->
  is_num_col df type_dens = true ->
  is_num_col df lower_date = true ->
  is_num_col df upper_date = true ->
  (forall d t, st !! d = Some t ->
     fst (year_freq_series rnd data lower_date upper_date dens name index_name st)
       !! d = Some t
     /\ fst (year_site_count_series data lower_date upper_date site_list name
               index_name st) !! d = Some t
     /\ fst (year_type_count_series data lower_date upper_date name index_name st)
          !! d = Some t)
  /\ exists df',
       dens_per_year rnd data type_dens lower_date upper_date output_column st
       = (<[data := df']> st, Ok data)
       /\ df_len df' = df_len df
       /\ num_col df' output_column
          = density rnd (num_col df type_dens) (num_col df upper_date)
              (num_col df lower_date)
       /\ (forall c, c <> output_column -> df_get df' c = df_get df c)
       /\ map fst (df_cols df')
          = match df_get df output_column with
            | Some _ => map fst (df_cols df)
            | None => map fst (df_cols df) ++ [output_column]
            end.
Proof.
  intros Hdata Hq Hl Hu. split.
  - intros d t Hd. repeat split; apply extends_lookup; auto.
    + apply extends_year_freq_series.
    + apply extends_year_site_count_series.
    + apply extends_year_type_count_series.
  - eexists. split.
    { exact (dens_per_year_run rnd _ _ _ _ _ _ output_column Hdata Hq Hl Hu). }
    split; [reflexivity|]. split; [apply num_col_set_eq|]. split.
    + intros c Hc. now apply assoc_get_set_ne.
    + apply assoc_set_names.
Qed.

Lemma table_frame_witness :
  (forall d t, [degenerate_table] !! d = Some t ->
     fst (year_freq_series exact_rnd 0%nat "lower" "upper" "density" "Series"
            "Year" [degenerate_table]) !! d = Some t
     /\ fst (year_site_count_series 0%nat "lower" "upper" "sites" "Series" "Year"
               [degenerate_table]) !! d = Some t
     /\ fst (year_type_count_series 0%nat "lower" "upper" "Series" "Year"
               [degenerate_table]) !! d = Some t)
  /\ exists df',
       dens_per_year exact_rnd 0%nat "density" "lower" "upper" "density_per_year"
         [degenerate_table] = (<[0%nat := df']> [degenerate_table], Ok 0%nat)
       /\ df_len df' = df_len degenerate_table
       /\ num_col df' "density_per_year"
          = density exact_rnd (num_col degenerate_table "density")
              (num_col degenerate_table "upper") (num_col degenerate_table "lower")
       /\ (forall c, c <> "density_per_year"%string ->
             df_get df' c = df_get degenerate_table c)
       /\ map fst (df_cols df')
          = match df_get degenerate_table "density_per_year" with
            | Some _ => map fst (df_cols degenerate_table)
            | None => map fst (df_cols degenerate_table) ++ ["density_per_year"%string]
            end.
Proof.
  apply (table_frame exact_rnd [degenerate_table] 0%nat degenerate_table "lower"
           "upper" "density" "sites" "density" "density_per_year" "Series" "Year");
    reflexivity.
Defined.

(** ** The keys of the bin map *)

Lemma fold_min_least los m : fold_left num_min los NaN = Fin m -> least m los.
Proof.
  intros Hm. destruct (fold_min_spec los NaN) as (Hin & _ & Hall).
  rewrite Hm in *. split.
  - now destruct Hin.
  - intros x Hx Hn. now apply Hall.
Qed.

Lemma fold_max_greatest his m : fold_left num_max his NaN = Fin m -> greatest m his.
Proof.
  intros Hm. destruct (fold_max_spec his NaN) as (Hin & _ & Hall).
  rewrite Hm in *. split.
  - now destruct Hin.
  - intros x Hx Hn. now apply Hall.
Qed.

Lemma dict_get_keys {V} (d : dict V) y :
  In y (keys d) -> exists v, dict_get d y = Ok v.
Proof.
  unfold dict_get. induction d as [|[k v] d IH]; simpl; [easy|].
  intros H. destruct (Z.eqb_spec k y) as [->|Hne]; [now eexists|].
  apply IH. now destruct H.
Qed.

Lemma keys_dict_set {V} (d : dict V) y v :
  In y (keys d) -> keys (dict_set d y v) = keys d.
Proof.
  induction d as [|[k w] d IH]; simpl; [easy|].
  intros H. destruct (Z.eqb_spec k y) as [->|Hne]; simpl; [reflexivity|].
  f_equal. apply IH. now destruct H.
Qed.

(** A loop that only reads the store and whose body may fail, but only
    with an error allowed by [safe]. *)
Lemma for_each_safe {A S} (I : S -> Prop) (safe : exn -> Prop)
    (body : S -> A -> M S) st (l : list A) (s0 : S) :
  I s0 ->
  (forall s x, In x l -> I s ->
     (exists s', body s x st = (st, Ok s') /\ I s')
     \/ (exists e, body s x st = (st, Raise e) /\ safe e)) ->
  (exists s', for_each l body s0 st = (st, Ok s') /\ I s')
  \/ (exists e, for_each l body s0 st = (st, Raise e) /\ safe e).
Proof.
  revert s0. induction l as [|x l IH]; intros s0 H0 Hstep; simpl.
  - left. now exists s0.
  - destruct (Hstep s0 x (or_introl eq_refl) H0) as [(s1 & Hb & H1)|(e & Hb & He)].
    + rewrite (bind_ok _ _ _ _ _ Hb). apply IH; [easy|].
      intros s y Hy. apply Hstep. now right.
    + right. exists e. now rewrite (bind_raise _ _ _ _ _ Hb).
Qed.

Lemma int_at_not_fin st d df c xs k :
  st !! d = Some df -> df_get df c = Some (NumCol xs) ->
  forallb is_fin xs = false ->
  int_at d c k st = (st, Raise ValueError).
Proof.
  intros Hd Hc Hfin. unfold int_at.
  rewrite (bind_ok _ _ _ _ _ (getitem_run _ _ _ _ _ Hd Hc)).
  unfold astype_int. now rewrite Hfin.
Qed.

Lemma col_iloc_safe c i e : col_iloc c i = Raise e -> key_miss e = false.
Proof.
  unfold col_iloc, iloc. destruct c as [xs|xs]; destruct (xs !! i); simpl;
    now intros [= <-].
Qed.

Lemma py_add_safe rnd acc v e : py_add rnd acc v = Raise e -> key_miss e = false.
Proof. destruct v; simpl; now intros [= <-]. Qed.

(** The accumulation of one row: every year it reads is a key. *)
Lemma bump_safe rnd st d2 df2 dens row ks years (d : dict num) :
  st !! d2 = Some df2 ->
  (forall y, In y years -> In y ks) ->
  keys d = ks ->
  let body := fun (date_dict : dict num) (year : Z) =>
    let* old := lift (dict_get date_dict year) in
    let* col := getitem d2 dens in
    let* v := lift (col_iloc col row) in
    let* new := lift (py_add rnd old v) in
    ret (dict_set date_dict year new) in
  (exists d', for_each years body d st = (st, Ok d') /\ keys d' = ks)
  \/ (exists e, for_each years body d st = (st, Raise e) /\ key_miss e = false).
Proof.
  intros Hd Hsub Hk body.
  apply (for_each_safe (fun d => keys d = ks)); [exact Hk|].
  intros s y Hy Hs. unfold body.
  assert (Hin : In y (keys s)) by (rewrite Hs; now apply Hsub).
  destruct (dict_get_keys s y Hin) as [old Hold].
  rewrite (bind_lift _ _ _ _ Hold).
  destruct (df_get df2 dens) as [col|] eqn:Ec.
  2:{ right. exists (KeyError (KStr dens)). split; [|reflexivity].
      now rewrite (bind_raise _ _ _ _ _ (getitem_missing _ _ _ _ Hd Ec)). }
  rewrite (bind_ok _ _ _ _ _ (getitem_run _ _ _ _ _ Hd Ec)).
  destruct (col_iloc col row) as [v|e] eqn:Ev.
  2:{ right. exists e. split; [reflexivity|]. now apply col_iloc_safe in Ev. }
  rewrite (bind_lift _ _ _ _ eq_refl).
  destruct (py_add rnd old v) as [new|e] eqn:En.
  2:{ right. exists e. split; [reflexivity|]. now apply py_add_safe in En. }
  rewrite (bind_lift _ _ _ _ eq_refl).
  left. eexists. split; [reflexivity|]. rewrite <- Hs. now apply keys_dict_set.
Qed.

(** C10, as stated, fails: the years of a row are computed with
    [astype(int)], a 64-bit cast, while the keys of the bin map come
    from Python's [int].  In [huge_table] the bin map is built, with
    keys 1990 to 1994, and the second row has both dates; its lower
    date 10^19 is cast to the least 64-bit integer, so the first year
    read for it is no key and the run ends in [KeyError] on that year. *)
Lemma year_freq_series_int64_counterexample :
  df_wf huge_table = true
  /\ py_int (fold_left num_min (num_col huge_table "lower") NaN) = Ok 1990
  /\ py_int (fold_left num_max (num_col huge_table "upper") NaN) = Ok 1995
  /\ In (Fin (10000000000000000000 # 1), Fin (1993 # 1))
        (zip (num_col huge_table "lower") (num_col huge_table "upper"))
  /\ snd (year_freq_series exact_rnd 0%nat "lower" "upper" "rate" "Frequency"
            "Year" [huge_table])
     = Raise (KeyError (KInt int64_min)).
Proof.
  split; [reflexivity|]. split; [reflexivity|]. split; [reflexivity|].
  split; [right; now left|].
  rewrite (year_freq_series_outcome exact_rnd [huge_table] 0%nat huge_table
             "lower" "upper" "rate" "Frequency" "Year"
             (num_col huge_table "lower") (num_col huge_table "upper")
             (num_col huge_table "rate") (1990 # 1) (1995 # 1)
             eq_refl eq_refl eq_refl eq_refl eq_refl eq_refl eq_refl eq_refl
             eq_refl).
  cbn [snd]. unfold freq_outcome.
  set (r1 := (Fin (1990 # 1), Fin (1995 # 1), Fin (1 # 1))).
  set (r2 := (Fin (10000000000000000000 # 1), Fin (1993 # 1), Fin (2 # 1))).
  assert (E : dated (rows (num_col huge_table "lower") (num_col huge_table "upper")
                       (num_col huge_table "rate")) = [r1; r2]) by reflexivity.
  rewrite E. cbn [rfold].
  set (d1 := [(1990, Fin (1 # 1)); (1991, Fin (1 # 1)); (1992, Fin (1 # 1));
              (1993, Fin (1 # 1)); (1994, Fin (1 # 1))] : dict num).
  assert (E1 : add_row exact_rnd
                 (fromkeys (range (Qtrunc (1990 # 1)) (Qtrunc (1995 # 1))) (Fin 0%Q))
                 r1 = Ok d1) by (vm_compute; reflexivity).
  rewrite E1. cbn [rbind]. unfold add_row. subst r2. cbn [fst snd].
  assert (Elo : num_int64 (Fin (10000000000000000000 # 1)) = int64_min)
    by reflexivity.
  assert (Ehi : num_int64 (Fin (1993 # 1)) = 1993) by reflexivity.
  rewrite Elo, Ehi, (range_cons int64_min 1993) by reflexivity.
  cbn [rfold]. unfold add_at at 1.
  assert (Eget : dict_get d1 int64_min = Raise (KeyError (KInt int64_min)))
    by reflexivity.
  now rewrite Eget.
Qed.

(** C10, amended: when every date of the table fits a 64-bit integer and
    the bin map of [year_freq_series] is built, that is when [int] of
    the least lower date and of the greatest upper date return [a] and
    [b], the years [int(lower_date) .. int(upper_date) - 1] of every row
    that has both dates lie in [a .. b - 1], and the run never ends in
    the error of a missing key of the bin map. *)
Theorem year_freq_series_no_missing_key rnd st data df lower_date upper_date
    dens name index_name a b :
  st !! data = Some df ->
  df_wf df = true ->
  is_num_col df lower_date = true ->
  is_num_col df upper_date = true ->
  int64_dates df lower_date upper_date = true ->
  py_int (fold_left num_min (num_col df lower_date) NaN) = Ok a ->
  py_int (fold_left num_max (num_col df upper_date) NaN) = Ok b ->
  (forall l h,
     In (Fin l, Fin h) (zip (num_col df lower_date) (num_col df upper_date)) ->
     forall y, In y (range (cast_int64 l) (cast_int64 h)) -> In y (range a b))
  /\ forall y,
       snd (year_freq_series rnd data lower_date upper_date dens name index_name st)
       <> Raise (KeyError (KInt y)).
Proof.
  intros Hdata Hwf Hl Hu Hb64 Ha Hb.
  destruct (int64_dates_inv _ _ _ Hb64) as [Bl Bh].
  set (los := num_col df lower_date) in *.
  set (his := num_col df upper_date) in *.
  pose proof (is_num_col_get _ _ Hl) as Hlo. fold los in Hlo.
  pose proof (is_num_col_get _ _ Hu) as Hhi. fold his in Hhi.
  destruct (fold_left num_min los NaN) as [| |m] eqn:Hm; try easy.
  destruct (fold_left num_max his NaN) as [| |M] eqn:HM; try easy.
  injection Ha as <-. injection Hb as <-.
  pose proof (fold_min_least _ _ Hm) as Lm.
  pose proof (fold_max_greatest _ _ HM) as LM.
  assert (Hsub : forall l h, In (Fin l) los -> In (Fin h) his ->
            forall y, In y (range (cast_int64 l) (cast_int64 h)) ->
                      In y (range (Qtrunc m) (Qtrunc M))).
  { intros l h Il Ih y Hy.
    rewrite (cast_int64_fits _ _ Bl Il), (cast_int64_fits _ _ Bh Ih) in Hy.
    apply in_range in Hy. apply in_range.
    pose proof (least_trunc _ _ _ Lm Il).
    pose proof (greatest_trunc _ _ _ LM Ih). lia. }
  split.
  { intros l h Hin. apply list_elem_of_In, elem_of_zip_with in Hin
      as (x & y & E & Hx & Hy). injection E as <- <-.
    apply Hsub; now apply list_elem_of_In. }
  intros y.
  pose proof (length_los _ _ _ Hwf Hlo) as Ll.
  pose proof (length_his _ _ _ Hwf Hhi) as Lh.
  pose proof (frame2_lo _ _ _ _ _ Hwf Hlo Hhi los Ll) as Flo.
  pose proof (frame2_hi _ _ _ _ _ Hwf Hlo Hhi los Ll) as Fhi.
  pose proof (frame2_len _ _ _ _ _ Hwf Hlo Hhi los Ll) as Flen.
  assert (L1 : length his = length los) by lia.
  set (T2 := dated (rows los his los)) in *.
  set (st2 := st ++ [frame1 df los; frame2 df los his]).
  pose proof (lookup_frame2 st df los his) as Hd2. fold st2 in Hd2.
  unfold year_freq_series.
  rewrite (bind_ok _ _ _ _ _ (getitem_run _ _ _ _ _ Hdata Hlo)).
  rewrite (bind_lift (col_min (NumCol los)) _ _ _ eq_refl).
  rewrite (bind_ok _ _ _ _ _ (getitem_run _ _ _ _ _ Hdata Hhi)).
  rewrite (bind_lift (col_max (NumCol his)) _ _ _ eq_refl).
  rewrite Hm, HM.
  rewrite (bind_lift (py_int (Fin m)) _ _ _ eq_refl).
  rewrite (bind_lift (py_int (Fin M)) _ _ _ eq_refl).
  cbv zeta.
  rewrite (bind_ok _ _ _ _ _ (dropna_lo_run _ _ _ _ _ Hdata Hlo)).
  rewrite (bind_ok _ _ _ _ _ (dropna_hi_run st _ _ los _ Hhi)).
  fold st2.
  rewrite (bind_ok _ _ _ _ _ (len_run _ _ _ Hd2)), Flen.
  set (ks := range (Qtrunc m) (Qtrunc M)).
  match goal with
  | |- snd (bind (for_each ?l ?body ?d0) _ _) <> _ =>
      destruct (for_each_safe (fun d => keys d = ks)
                  (fun e => key_miss e = false) body st2 l d0)
        as [(d & Hrun & _)|(e & Hrun & He)]
  end.
  - apply (keys_tabulate (fun _ => Fin 0%Q)).
  - intros d k Hk Hd. apply in_seq in Hk as [_ Hk]. simpl in Hk.
    destruct (lookup_lt_is_Some_2 T2 k Hk) as [r Hr].
    assert (Hin : In r T2).
    { apply list_elem_of_In. eapply list_elem_of_lookup_2. exact Hr. }
    destruct (forallb is_fin (map (fun r => fst (fst r)) T2)) eqn:Alo.
    2:{ right. exists ValueError. split; [|reflexivity].
        now rewrite (bind_raise _ _ _ _ _ (int_at_not_fin _ _ _ _ _ k Hd2 Flo Alo)). }
    rewrite (bind_ok _ _ _ _ _ (int_at_run _ T2 _ _ _ _ _ _ Hd2 Flo Alo Hr)).
    destruct (forallb is_fin (map (fun r => snd (fst r)) T2)) eqn:Ahi.
    2:{ right. exists ValueError. split; [|reflexivity].
        now rewrite (bind_raise _ _ _ _ _ (int_at_not_fin _ _ _ _ _ k Hd2 Fhi Ahi)). }
    rewrite (bind_ok _ _ _ _ _ (int_at_run _ T2 _ _ _ _ _ _ Hd2 Fhi Ahi Hr)).
    apply in_dated in Hin as (Hin & _ & _).
    destruct (in_rows _ _ _ _ L1 eq_refl Hin) as [Il Ih].
    assert (Fl : is_fin (fst (fst r)) = true).
    { apply (proj1 (forallb_forall _ _) Alo), in_map_iff. exists r.
      split; [easy|]. apply list_elem_of_In. eapply list_elem_of_lookup_2. exact Hr. }
    assert (Fh : is_fin (snd (fst r)) = true).
    { apply (proj1 (forallb_forall _ _) Ahi), in_map_iff. exists r.
      split; [easy|]. apply list_elem_of_In. eapply list_elem_of_lookup_2. exact Hr. }
    destruct r as [[[| |l] [| |h]] x]; try easy. simpl in Il, Ih.
    cbn [fst snd num_int64].
    apply (bump_safe rnd st2 (S (length st)) (frame2 df los his) dens k ks);
      [exact Hd2| |exact Hd].
    exact (Hsub l h Il Ih).
  - now rewrite (bind_ok _ _ _ _ _ Hrun).
  - rewrite (bind_raise _ _ _ _ _ Hrun). simpl. intros [= ->]. discriminate.
Qed.

Lemma year_freq_series_no_missing_key_witness :
  (forall l h,
     In (Fin l, Fin h)
        (zip (num_col boundary_table "lower") (num_col boundary_table "upper")) ->
     forall y, In y (range (cast_int64 l) (cast_int64 h)) -> In y (range 1995 2010))
  /\ forall y,
       snd (year_freq_series exact_rnd 0%nat "lower" "upper" "rate" "Frequency"
              "Year" [boundary_table])
       <> Raise (KeyError (KInt y)).
Proof.
  apply (year_freq_series_no_missing_key exact_rnd [boundary_table] 0%nat
           boundary_table "lower" "upper" "rate" "Frequency" "Year" 1995 2010);
    reflexivity.
Defined.

(** * Further properties of the code *)

(** ** Plotting *)

Lemma assoc_get_in {V} (l : list (string * V)) k v :
  List.NoDup (map fst l) -> In (k, v) l -> assoc_get l k = Some v.
Proof.
  induction l as [|[k' v'] l IH]; simpl; [easy|].
  intros Hnd Hin. apply List.NoDup_cons_iff in Hnd as [Hk Hnd].
  destruct Hin as [[= -> ->]|Hin].
  - now rewrite String.eqb_refl.
  - destruct (String.eqb_spec k' k) as [->|Hne]; [|now apply IH].
    exfalso. apply Hk. apply in_map_iff. now exists (k, v).
Qed.

Lemma fold_left_snoc {A B} (f : A -> B) (l : list A) (acc : list B) :
  fold_left (fun acc x => acc ++ [f x]) l acc = acc ++ map f l.
Proof.
  revert acc. induction l as [|x l IH]; intros acc; simpl.
  - now rewrite app_nil_r.
  - now rewrite IH, <- app_assoc.
Qed.

Lemma map_zip_keys {V W} (d : list (string * V)) (palette : list string)
    (f g : string -> option V -> string -> W) (get : string -> option V) :
  (forall k v, In (k, v) d -> get k = Some v) ->
  map (fun kc => f (fst kc) (get (fst kc)) (snd kc)) (zip (map fst d) palette)
  = map (fun sc => f (fst (fst sc)) (Some (snd (fst sc))) (snd sc)) (zip d palette).
Proof.
  revert palette. induction d as [|[k v] d IH]; intros [|c palette] Hget;
    simpl; try reflexivity.
  rewrite (Hget k v) by now left. f_equal. apply IH.
  intros k' v' Hin. apply Hget. now right.
Qed.

(** X1: [plot_graph] draws one line per pair of a series and a colour, in
    the order of the dictionary, each with its key as label and its own
    series as data, after what the axes already hold.  The pairing stops
    at the shorter of the two: series beyond the length of the palette
    are not drawn, and nothing is raised. *)
Theorem plot_graph_calls {V} (dict_w_series : list (string * Series V))
    (ax : list (lineplot V)) (palette : list string) linewidth linestyle :
  List.NoDup (map fst dict_w_series) ->
  plot_graph dict_w_series ax palette linewidth linestyle
  = ax ++ map (fun sc => mkLineplot (Some (snd (fst sc))) (fst (fst sc)) (snd sc)
                           linewidth linestyle)
              (zip dict_w_series palette)
  /\ length (plot_graph dict_w_series ax palette linewidth linestyle)
     = (length ax + Nat.min (length dict_w_series) (length palette))%nat.
Proof.
  intros Hnd.
  assert (E : plot_graph dict_w_series ax palette linewidth linestyle
              = ax ++ map (fun sc => mkLineplot (Some (snd (fst sc)))
                                       (fst (fst sc)) (snd sc) linewidth linestyle)
                          (zip dict_w_series palette)).
  { unfold plot_graph. cbv zeta.
    rewrite (fold_left_snoc
               (fun kc => mkLineplot (assoc_get dict_w_series (fst kc)) (fst kc)
                            (snd kc) linewidth linestyle)).
    f_equal.
    apply (map_zip_keys dict_w_series palette
             (fun k data c => mkLineplot data k c linewidth linestyle)
             (fun k data c => mkLineplot data k c linewidth linestyle)
             (assoc_get dict_w_series)).
    intros k v. now apply assoc_get_in. }
  split; [exact E|].
  rewrite E, length_app, length_map, length_zip_with. reflexivity.
Qed.

Lemma plot_graph_calls_witness :
  plot_graph three_series [] ["red"%string; "blue"%string] 3 "solid"
  = [] ++ map (fun sc => mkLineplot (Some (snd (fst sc))) (fst (fst sc)) (snd sc)
                           3 "solid"%string)
              (zip three_series ["red"%string; "blue"%string])
  /\ length (plot_graph three_series [] ["red"%string; "blue"%string] 3 "solid")
     = (length (@nil (lineplot Z))
        + Nat.min (length three_series) (length ["red"%string; "blue"%string]))%nat.
Proof.
  apply (plot_graph_calls three_series [] ["red"%string; "blue"%string] 3 "solid").
  repeat constructor; simpl; intuition discriminate.
Defined.

(** ** Errors of the aggregators *)

Lemma fold_min_all_null xs :
  forallb isna xs = true -> fold_left num_min xs NaN = NaN.
Proof.
  induction xs as [|x xs IH]; simpl; [easy|].
  intros H. apply andb_prop in H as [Hx Hxs]. destruct x; try easy. now apply IH.
Qed.

Lemma fold_max_all_null xs :
  forallb isna xs = true -> fold_left num_max xs NaN = NaN.
Proof.
  induction xs as [|x xs IH]; simpl; [easy|].
  intros H. apply andb_prop in H as [Hx Hxs]. destruct x; try easy. now apply IH.
Qed.

(** X2: when a date column is absent each aggregator raises [KeyError] for
    it before it allocates anything: the error names the lower date
    column when that one is absent, and the upper date column when the
    lower one is there and numeric. *)
Theorem aggregators_missing_date_column rnd st data df lower_date upper_date
    dens site_list name index_name :
  st !! data = Some df ->
  df_get df lower_date = None
  \/ (is_num_col df lower_date = true /\ df_get df upper_date = None) ->
  exists c,
    (c = lower_date \/ c = upper_date)
    /\ df_get df c = None
    /\ year_freq_series rnd data lower_date upper_date dens name index_name st
       = (st, Raise (KeyError (KStr c)))
    /\ year_site_count_series data lower_date upper_date site_list name
         index_name st = (st, Raise (KeyError (KStr c)))
    /\ year_type_count_series data lower_date upper_date name index_name st
       = (st, Raise (KeyError (KStr c))).
Proof.
  intros Hdata [Hl|[Hl Hu]].
  - exists lower_date. split; [now left|]. split; [easy|].
    unfold year_freq_series, year_site_count_series, year_type_count_series.
    now rewrite !(bind_raise _ _ _ _ _ (getitem_missing _ _ _ _ Hdata Hl)).
  - exists upper_date. split; [now right|]. split; [easy|].
    pose proof (is_num_col_get _ _ Hl) as Hlo.
    unfold year_freq_series, year_site_count_series, year_type_count_series.
    rewrite !(bind_ok _ _ _ _ _ (getitem_run _ _ _ _ _ Hdata Hlo)).
    rewrite !(bind_lift (col_min (NumCol _)) _ _ _ eq_refl).
    now rewrite !(bind_raise _ _ _ _ _ (getitem_missing _ _ _ _ Hdata Hu)).
Qed.

Lemma aggregators_missing_date_column_witness :
  exists c,
    (c = "lower"%string \/ c = "until"%string)
    /\ df_get bc_table c = None
    /\ year_freq_series exact_rnd 0%nat "lower" "until" "rate" "Frequency" "Year"
         [bc_table] = ([bc_table], Raise (KeyError (KStr c)))
    /\ year_site_count_series 0%nat "lower" "until" "sites" "Frequency" "Year"
         [bc_table] = ([bc_table], Raise (KeyError (KStr c)))
    /\ year_type_count_series 0%nat "lower" "until" "Frequency" "Year" [bc_table]
       = ([bc_table], Raise (KeyError (KStr c))).
Proof.
  apply (aggregators_missing_date_column exact_rnd [bc_table] 0%nat bc_table
           "lower" "until" "rate" "sites" "Frequency" "Year").
  - reflexivity.
  - right. split; reflexivity.
Defined.

(** X3: a table without dates cannot be binned: when every lower date is
    null (an empty table included), or when the least lower date is
    finite and every upper date is null, each aggregator raises
    [ValueError], from [int] of a not-a-number, and allocates nothing. *)
Theorem aggregators_no_dates rnd st data df lower_date upper_date
    dens site_list name index_name :
  st !! data = Some df ->
  is_num_col df lower_date = true ->
  is_num_col df upper_date = true ->
  forallb isna (num_col df lower_date) = true
  \/ (is_fin (fold_left num_min (num_col df lower_date) NaN) = true
      /\ forallb isna (num_col df upper_date) = true) ->
  year_freq_series rnd data lower_date upper_date dens name index_name st
  = (st, Raise ValueError)
  /\ year_site_count_series data lower_date upper_date site_list name index_name st
     = (st, Raise ValueError)
  /\ year_type_count_series data lower_date upper_date name index_name st
     = (st, Raise ValueError).
Proof.
  intros Hdata Hl Hu Hnull.
  pose proof (is_num_col_get _ _ Hl) as Hlo.
  pose proof (is_num_col_get _ _ Hu) as Hhi.
  unfold year_freq_series, year_site_count_series, year_type_count_series.
  rewrite !(bind_ok _ _ _ _ _ (getitem_run _ _ _ _ _ Hdata Hlo)).
  rewrite !(bind_lift (col_min (NumCol _)) _ _ _ eq_refl).
  rewrite !(bind_ok _ _ _ _ _ (getitem_run _ _ _ _ _ Hdata Hhi)).
  rewrite !(bind_lift (col_max (NumCol _)) _ _ _ eq_refl).
  destruct Hnull as [Hn|[Hf Hn]].
  - rewrite (fold_min_all_null _ Hn). repeat split; reflexivity.
  - rewrite (fold_max_all_null _ Hn).
    destruct (fold_left num_min (num_col df lower_date) NaN) as [| |m];
      [discriminate Hf|discriminate Hf|].
    repeat split; reflexivity.
Qed.

Lemma aggregators_no_dates_witness :
  year_freq_series exact_rnd 0%nat "lower" "upper" "rate" "Frequency" "Year"
    [undated_table] = ([undated_table], Raise ValueError)
  /\ year_site_count_series 0%nat "lower" "upper" "sites" "Frequency" "Year"
       [undated_table] = ([undated_table], Raise ValueError)
  /\ year_type_count_series 0%nat "lower" "upper" "Frequency" "Year"
       [undated_table] = ([undated_table], Raise ValueError).
Proof.
  apply (aggregators_no_dates exact_rnd [undated_table] 0%nat undated_table
           "lower" "upper" "rate" "sites" "Frequency" "Year").
  - reflexivity.
  - reflexivity.
  - reflexivity.
  - left. reflexivity.
Defined.

(** ** Empty spans *)

(** X4: when the resolved span is empty, [max_year <= min_year], as for
    records that all fall within one calendar year, each aggregator
    returns a series without any year, and raises nothing; for the two
    counts on every table of dated records, for the summed rate when
    the dates all fit a 64-bit integer. *)
Theorem aggregators_empty_span rnd st data df lower_date upper_date
    dens site_list name index_name :
  st !! data = Some df ->
  dated_table df lower_date upper_date = true ->
  is_num_col df dens = true ->
  is_obj_col df site_list = true ->
  snd (year_range df lower_date upper_date)
  <= fst (year_range df lower_date upper_date) ->
  (int64_dates df lower_date upper_date = true ->
   snd (year_freq_series rnd data lower_date upper_date dens name index_name st)
   = Ok (mkSeries name index_name []))
  /\ snd (year_site_count_series data lower_date upper_date site_list name
            index_name st) = Ok (mkSeries name index_name [])
  /\ snd (year_type_count_series data lower_date upper_date name index_name st)
     = Ok (mkSeries name index_name []).
Proof.
  intros Hdata Hdt Hd Hs Hspan.
  destruct (dated_table_inv _ _ _ Hdt)
    as (Hwf & Hlo & Hhi & Yl & Yh & m & M & Hm & Lm & HM & LM).
  unfold year_range in Hspan. rewrite Hm, HM in Hspan. simpl in Hspan.
  rewrite (year_site_count_series_run _ _ _ _ _ name index_name _ _ _ _
             Hdata Hwf Hlo Hhi Yl Yh Hm HM _ _ (is_obj_col_get _ _ Hs)).
  rewrite (year_type_count_series_run _ _ _ _ _ name index_name _ _ _ _
             Hdata Hwf Hlo Hhi Yl Yh Hm HM).
  rewrite (range_nil _ _ Hspan). split; [|split; reflexivity].
  intros Hb. destruct (int64_dates_inv _ _ _ Hb) as [Bl Bh].
  rewrite (year_freq_series_run rnd _ _ _ _ _ _ name index_name _ _ _ _ _
             Hdata Hwf Hlo Hhi (is_num_col_get _ _ Hd) Yl Yh Bl Bh Hm HM Lm LM).
  now rewrite (range_nil _ _ Hspan).
Qed.

Lemma aggregators_empty_span_witness :
  int64_dates one_year_table "lower" "upper" = true
  /\ snd (year_freq_series exact_rnd 0%nat "lower" "upper" "rate" "Series" "Year"
            [one_year_table]) = Ok (mkSeries "Series" "Year" [])
  /\ snd (year_site_count_series 0%nat "lower" "upper" "sites" "Series" "Year"
            [one_year_table]) = Ok (mkSeries "Series" "Year" [])
  /\ snd (year_type_count_series 0%nat "lower" "upper" "Series" "Year"
            [one_year_table]) = Ok (mkSeries "Series" "Year" []).
Proof.
  destruct (aggregators_empty_span exact_rnd [one_year_table] 0%nat one_year_table
              "lower" "upper" "rate" "sites" "Series" "Year"
              eq_refl eq_refl eq_refl eq_refl) as (Hf & Hs & Ht).
  - vm_compute. discriminate.
  - split; [reflexivity|]. split; [exact (Hf eq_refl)|]. split; [exact Hs|exact Ht].
Defined.

(** ** The derived column and the aggregators together *)

Lemma df_get_set_ne df c c' col :
  c' <> c -> df_get (df_set df c col) c' = df_get df c'.
Proof. intros H. now apply assoc_get_set_ne. Qed.

Lemma num_col_set_ne df c c' col :
  c' <> c -> num_col (df_set df c col) c' = num_col df c'.
Proof. intros H. unfold num_col. now rewrite df_get_set_ne. Qed.

Lemma obj_col_set_ne df c c' col :
  c' <> c -> obj_col (df_set df c col) c' = obj_col df c'.
Proof. intros H. unfold obj_col. now rewrite df_get_set_ne. Qed.

Lemma is_num_col_set_ne df c c' col :
  c' <> c -> is_num_col (df_set df c col) c' = is_num_col df c'.
Proof. intros H. unfold is_num_col. now rewrite df_get_set_ne. Qed.

Lemma is_obj_col_set_ne df c c' col :
  c' <> c -> is_obj_col (df_set df c col) c' = is_obj_col df c'.
Proof. intros H. unfold is_obj_col. now rewrite df_get_set_ne. Qed.

Lemma is_num_col_set_eq df c xs : is_num_col (df_set df c (NumCol xs)) c = true.
Proof. unfold is_num_col, df_get, df_set. simpl. now rewrite assoc_get_set_eq. Qed.

Lemma df_wf_set df c col :
  df_wf df = true -> col_len col = df_len df -> df_wf (df_set df c col) = true.
Proof.
  unfold df_wf, df_set. destruct df as [n cols]. simpl. intros Hwf Hlen.
  induction cols as [|[c' v] cols IH]; simpl.
  - now rewrite Hlen, Nat.eqb_refl.
  - simpl in Hwf. apply andb_prop in Hwf as [Hv Hwf].
    destruct (String.eqb c' c); simpl.
    + now rewrite Hlen, Nat.eqb_refl, Hwf.
    + now rewrite Hv, IH.
Qed.

Lemma dated_table_set df lower_date upper_date c col :
  dated_table df lower_date upper_date = true ->
  c <> lower_date -> c <> upper_date -> col_len col = df_len df ->
  dated_table (df_set df c col) lower_date upper_date = true.
Proof.
  unfold dated_table. intros H Hl Hu Hlen.
  rewrite !is_num_col_set_ne, !num_col_set_ne by congruence.
  rewrite !andb_true_iff in *.
  destruct H as [[[[[[Hwf H1] H2] H3] H4] H5] H6].
  repeat split; auto using df_wf_set.
Qed.

Lemma length_density rnd df type_dens lower_date upper_date :
  df_wf df = true ->
  is_num_col df type_dens = true ->
  is_num_col df lower_date = true ->
  is_num_col df upper_date = true ->
  length (density rnd (num_col df type_dens) (num_col df upper_date)
            (num_col df lower_date)) = df_len df.
Proof.
  intros Hwf Hq Hl Hu.
  pose proof (df_wf_get _ _ _ Hwf (is_num_col_get _ _ Hq)) as Lq.
  pose proof (df_wf_get _ _ _ Hwf (is_num_col_get _ _ Hl)) as Ll.
  pose proof (df_wf_get _ _ _ Hwf (is_num_col_get _ _ Hu)) as Lu.
  simpl in Lq, Ll, Lu. unfold density. rewrite !length_zip_with. lia.
Qed.

Lemma dated_table_num_cols df lower_date upper_date :
  dated_table df lower_date upper_date = true ->
  df_wf df = true /\ is_num_col df lower_date = true
  /\ is_num_col df upper_date = true.
Proof.
  unfold dated_table. rewrite !andb_true_iff. tauto.
Qed.

(** X5: the pipeline: on a table of dated records whose dates all fit a
    64-bit integer, [dens_per_year] followed by [year_freq_series] on the
    column it wrote gives a series over the bin range, and at each year
    of that range the sum of the quotients quantity / (upper - lower) of
    the rows that span it; the output column must not be one of the two
    date columns, which it would overwrite. *)
Theorem dens_per_year_then_year_freq_series rnd st data df type_dens
    lower_date upper_date output_column name index_name :
  st !! data = Some df ->
  dated_table df lower_date upper_date = true ->
  int64_dates df lower_date upper_date = true ->
  is_num_col df type_dens = true ->
  output_column <> lower_date ->
  output_column <> upper_date ->
  exists st1 st2 s,
    dens_per_year rnd data type_dens lower_date upper_date output_column st
    = (st1, Ok data)
    /\ year_freq_series rnd data lower_date upper_date output_column name
         index_name st1 = (st2, Ok s)
    /\ s_index s = range (fst (year_range df lower_date upper_date))
                         (snd (year_range df lower_date upper_date))
    /\ forall Y,
         fst (year_range df lower_date upper_date) <= Y
         < snd (year_range df lower_date upper_date) ->
         s_at s Y
         = Some (rate_sum rnd Qtrunc Y (num_col df lower_date)
                   (num_col df upper_date)
                   (density rnd (num_col df type_dens) (num_col df upper_date)
                      (num_col df lower_date))).
Proof.
  intros Hdata Hdt Hb Hq Hol Hou.
  destruct (dated_table_num_cols _ _ _ Hdt) as (Hwf & Hl & Hu).
  set (col := density rnd (num_col df type_dens) (num_col df upper_date)
                (num_col df lower_date)).
  set (df1 := df_set df output_column (NumCol col)).
  assert (Hlen : col_len (NumCol col) = df_len df)
    by now apply length_density.
  assert (Hdt1 : dated_table df1 lower_date upper_date = true)
    by now apply dated_table_set.
  assert (Hdata1 : <[data := df1]> st !! data = Some df1).
  { apply list_lookup_insert_eq. now apply lookup_lt_Some in Hdata. }
  destruct (dated_table_inv _ _ _ Hdt1)
    as (Hwf1 & Hlo1 & Hhi1 & Yl1 & Yh1 & m & M & Hm & Lm & HM & LM).
  assert (El : num_col df1 lower_date = num_col df lower_date)
    by (unfold df1; now rewrite num_col_set_ne by congruence).
  assert (Eu : num_col df1 upper_date = num_col df upper_date)
    by (unfold df1; now rewrite num_col_set_ne by congruence).
  destruct (int64_dates_inv _ _ _ Hb) as [Bl Bh].
  rewrite <- El in Bl. rewrite <- Eu in Bh.
  assert (Er : year_range df lower_date upper_date = (Qtrunc m, Qtrunc M)).
  { unfold year_range. now rewrite <- El, <- Eu, Hm, HM. }
  rewrite Er. cbn [fst snd].
  eexists _, _, _. split; [|split; [|split]].
  - exact (dens_per_year_run rnd _ _ _ _ _ _ output_column Hdata Hq Hl Hu).
  - exact (year_freq_series_run rnd _ _ _ _ _ _ name index_name _ _ _ _ _
             Hdata1 Hwf1 Hlo1 Hhi1
             (is_num_col_get _ _ (is_num_col_set_eq df output_column col))
             Yl1 Yh1 Bl Bh Hm HM Lm LM).
  - apply s_index_tabulate.
  - intros Y HY. apply in_range in HY.
    rewrite (s_at_tabulate (fun Y => rate_sum rnd Qtrunc Y _ _ _) _ _ _ _ HY).
    rewrite El, Eu. unfold df1. now rewrite num_col_set_eq.
Qed.

Lemma dens_per_year_then_year_freq_series_witness :
  exists st1 st2 s,
    dens_per_year exact_rnd 0%nat "rate" "lower" "upper" "density_per_year"
      [boundary_table] = (st1, Ok 0%nat)
    /\ year_freq_series exact_rnd 0%nat "lower" "upper" "density_per_year"
         "Frequency" "Year" st1 = (st2, Ok s)
    /\ s_index s = range (fst (year_range boundary_table "lower" "upper"))
                         (snd (year_range boundary_table "lower" "upper"))
    /\ forall Y,
         fst (year_range boundary_table "lower" "upper") <= Y
         < snd (year_range boundary_table "lower" "upper") ->
         s_at s Y
         = Some (rate_sum exact_rnd Qtrunc Y (num_col boundary_table "lower")
                   (num_col boundary_table "upper")
                   (density exact_rnd (num_col boundary_table "rate")
                      (num_col boundary_table "upper")
                      (num_col boundary_table "lower"))).
Proof.
  apply (dens_per_year_then_year_freq_series exact_rnd [boundary_table] 0%nat
           boundary_table "rate" "lower" "upper" "density_per_year"
           "Frequency" "Year"); try reflexivity; intros [=].
Defined.

Lemma assoc_set_twice {V} (l : list (string * V)) c v w :
  assoc_set (assoc_set l c v) c w = assoc_set l c w.
Proof.
  induction l as [|[c' v'] l IH]; simpl.
  - now rewrite String.eqb_refl.
  - destruct (String.eqb c' c) eqn:E; simpl; rewrite E; [reflexivity|].
    now rewrite IH.
Qed.

(** X6: [dens_per_year] can be run again: when the output column is none of
    the three columns it reads, a second call with the same arguments
    succeeds and leaves the store exactly as the first call left it. *)
Theorem dens_per_year_again rnd st data df type_dens lower_date upper_date
    output_column :
  st !! data = Some df ->
  is_num_col df type_dens = true ->
  is_num_col df lower_date = true ->
  is_num_col df upper_date = true ->
  output_column <> type_dens ->
  output_column <> lower_date ->
  output_column <> upper_date ->
  exists st1,
    dens_per_year rnd data type_dens lower_date upper_date output_column st
    = (st1, Ok data)
    /\ dens_per_year rnd data type_dens lower_date upper_date output_column st1
       = (st1, Ok data).
Proof.
  intros Hdata Hq Hl Hu Hoq Hol Hou.
  set (col := density rnd (num_col df type_dens) (num_col df upper_date)
                (num_col df lower_date)).
  set (df1 := df_set df output_column (NumCol col)).
  assert (Hdata1 : <[data := df1]> st !! data = Some df1).
  { apply list_lookup_insert_eq. now apply lookup_lt_Some in Hdata. }
  exists (<[data := df1]> st). split.
  - exact (dens_per_year_run rnd _ _ _ _ _ _ output_column Hdata Hq Hl Hu).
  - rewrite (dens_per_year_run rnd _ _ df1 type_dens lower_date upper_date
               output_column Hdata1).
    + unfold df1. rewrite !num_col_set_ne by congruence. fold col.
      replace (df_set (df_set df output_column (NumCol col)) output_column
                 (NumCol col))
        with (df_set df output_column (NumCol col))
        by (unfold df_set; simpl; now rewrite assoc_set_twice).
      f_equal. apply list_insert_insert_eq.
    + unfold df1. now rewrite is_num_col_set_ne by congruence.
    + unfold df1. now rewrite is_num_col_set_ne by congruence.
    + unfold df1. now rewrite is_num_col_set_ne by congruence.
Qed.

Lemma dens_per_year_again_witness :
  exists st1,
    dens_per_year exact_rnd 0%nat "rate" "lower" "upper" "density_per_year"
      [boundary_table] = (st1, Ok 0%nat)
    /\ dens_per_year exact_rnd 0%nat "rate" "lower" "upper" "density_per_year" st1
       = (st1, Ok 0%nat).
Proof.
  apply (dens_per_year_again exact_rnd [boundary_table] 0%nat boundary_table
           "rate" "lower" "upper" "density_per_year");
    try reflexivity; intros [=].
Defined.

Lemma sites_at_set_ne ip Y df c col lower_date upper_date site_list :
  c <> lower_date -> c <> upper_date -> c <> site_list ->
  sites_at ip Y (num_col (df_set df c col) lower_date)
    (num_col (df_set df c col) upper_date) (obj_col (df_set df c col) site_list)
  = sites_at ip Y (num_col df lower_date) (num_col df upper_date)
      (obj_col df site_list).
Proof.
  intros H1 H2 H3. now rewrite !num_col_set_ne, obj_col_set_ne by congruence.
Qed.

(** X7: adding the derived column does not disturb the two counts: when the
    output column is neither a date column nor the column of sites,
    [year_site_count_series] and [year_type_count_series] return the
    same series after [dens_per_year] as before it. *)
Theorem counts_after_dens_per_year rnd st data df type_dens lower_date
    upper_date site_list output_column name index_name :
  st !! data = Some df ->
  dated_table df lower_date upper_date = true ->
  is_num_col df type_dens = true ->
  is_obj_col df site_list = true ->
  output_column <> lower_date ->
  output_column <> upper_date ->
  output_column <> site_list ->
  let st1 := fst (dens_per_year rnd data type_dens lower_date upper_date
                    output_column st) in
  (exists s,
     snd (year_site_count_series data lower_date upper_date site_list name
            index_name st) = Ok s
     /\ snd (year_site_count_series data lower_date upper_date site_list name
               index_name st1) = Ok s)
  /\ (exists s,
        snd (year_type_count_series data lower_date upper_date name index_name st)
        = Ok s
        /\ snd (year_type_count_series data lower_date upper_date name index_name st1)
           = Ok s).
Proof.
  intros Hdata Hdt Hq Hs Hol Hou Hos.
  destruct (dated_table_num_cols _ _ _ Hdt) as (Hwf & Hl & Hu).
  rewrite (dens_per_year_run rnd _ _ _ _ _ _ output_column Hdata Hq Hl Hu).
  set (col := density rnd (num_col df type_dens) (num_col df upper_date)
                (num_col df lower_date)).
  set (df1 := df_set df output_column (NumCol col)). cbv zeta. simpl fst.
  assert (Hlen : col_len (NumCol col) = df_len df)
    by now apply length_density.
  assert (Hdt1 : dated_table df1 lower_date upper_date = true)
    by now apply dated_table_set.
  assert (Hs1 : is_obj_col df1 site_list = true)
    by (unfold df1; now rewrite is_obj_col_set_ne by congruence).
  assert (Hdata1 : <[data := df1]> st !! data = Some df1).
  { apply list_lookup_insert_eq. now apply lookup_lt_Some in Hdata. }
  destruct (dated_table_inv _ _ _ Hdt)
    as (_ & Hlo & Hhi & Yl & Yh & m & M & Hm & Lm & HM & LM).
  destruct (dated_table_inv _ _ _ Hdt1)
    as (Hwf1 & Hlo1 & Hhi1 & Yl1 & Yh1 & m1 & M1 & Hm1 & Lm1 & HM1 & LM1).
  assert (Em : m1 = m).
  { unfold df1 in Hm1. rewrite num_col_set_ne in Hm1 by congruence. congruence. }
  assert (EM : M1 = M).
  { unfold df1 in HM1. rewrite num_col_set_ne in HM1 by congruence. congruence. }
  subst m1 M1.
  rewrite (year_site_count_series_run _ _ _ _ _ name index_name _ _ _ _
             Hdata Hwf Hlo Hhi Yl Yh Hm HM _ _ (is_obj_col_get _ _ Hs)).
  rewrite (year_site_count_series_run _ _ _ _ _ name index_name _ _ _ _
             Hdata1 Hwf1 Hlo1 Hhi1 Yl1 Yh1 Hm1 HM1 _ _ (is_obj_col_get _ _ Hs1)).
  rewrite (year_type_count_series_run _ _ _ _ _ name index_name _ _ _ _
             Hdata Hwf Hlo Hhi Yl Yh Hm HM).
  rewrite (year_type_count_series_run _ _ _ _ _ name index_name _ _ _ _
             Hdata1 Hwf1 Hlo1 Hhi1 Yl1 Yh1 Hm1 HM1).
  simpl snd. unfold df1. split.
  - eexists. split; [reflexivity|]. do 2 f_equal. apply tabulate_ext.
    intros Y _. now rewrite sites_at_set_ne.
  - eexists. split; [reflexivity|]. do 2 f_equal. apply tabulate_ext.
    intros Y _. now rewrite !num_col_set_ne by congruence.
Qed.

Lemma counts_after_dens_per_year_witness :
  let st1 := fst (dens_per_year exact_rnd 0%nat "rate" "lower" "upper"
                    "density_per_year" [boundary_table]) in
  (exists s,
     snd (year_site_count_series 0%nat "lower" "upper" "sites" "Count" "Year"
            [boundary_table]) = Ok s
     /\ snd (year_site_count_series 0%nat "lower" "upper" "sites" "Count" "Year"
               st1) = Ok s)
  /\ (exists s,
        snd (year_type_count_series 0%nat "lower" "upper" "Count" "Year"
               [boundary_table]) = Ok s
        /\ snd (year_type_count_series 0%nat "lower" "upper" "Count" "Year" st1)
           = Ok s).
Proof.
  apply (counts_after_dens_per_year exact_rnd [boundary_table] 0%nat
           boundary_table "rate" "lower" "upper" "sites" "density_per_year"
           "Count" "Year"); try reflexivity; intros [=].
Defined.

(** ** Bounds on the counts and years that no record covers *)

Lemma in_span_half_open_closed ip Y d :
  in_span ip false Y d = true -> in_span ip true Y d = true.
Proof.
  destruct d as [[| |l] [| |h]]; simpl; try easy.
  rewrite !andb_true_iff, Z.ltb_lt, !Z.leb_le. lia.
Qed.

Lemma filter_nil_in {A} (p : A -> bool) (l : list A) :
  List.filter p l = [] -> forall x, In x l -> p x = false.
Proof.
  induction l as [|y l IH]; simpl; [easy|].
  destruct (p y) eqn:E; [easy|]. intros H x [<-|Hx]; [easy|now apply IH].
Qed.

Lemma filter_nil_all {A} (p : A -> bool) (l : list A) :
  (forall x, In x l -> p x = false) -> List.filter p l = [].
Proof.
  induction l as [|y l IH]; simpl; [easy|]. intros H.
  rewrite (H y) by now left. apply IH. intros x Hx. apply H. now right.
Qed.

Lemma type_count_zero_rows {X} ip Y los his (xs : list X) closed :
  length his = length los -> length xs = length los ->
  type_count ip Y los his = 0 ->
  List.filter (fun r => in_span ip closed Y (fst r)) (rows los his xs) = [].
Proof.
  intros H1 H2 H0. rewrite <- (type_count_rows ip Y los his xs H1 H2) in H0.
  assert (E : List.filter (fun r => in_span ip true Y (fst r)) (rows los his xs) = []).
  { destruct (List.filter _ _); [easy|simpl in H0; lia]. }
  apply filter_nil_all. intros r Hr.
  pose proof (filter_nil_in _ _ E r Hr) as Hc. simpl in Hc.
  destruct closed; [easy|].
  destruct (in_span ip false Y (fst r)) eqn:E'; [|easy].
  apply in_span_half_open_closed in E'. congruence.
Qed.

Lemma distinct_le_length l : 0 <= distinct l <= Z.of_nat (length l).
Proof.
  destruct (distinct_spec l) as (ids & E & Hnd & Hin). rewrite E.
  split; [lia|]. apply inj_le. apply List.NoDup_incl_length; [easy|].
  intros x Hx. now apply Hin.
Qed.

Lemma length_concat_filter {A B} (p : B * list A -> bool) (l : list (B * list A)) :
  (length (concat (map snd (List.filter p l))) <= length (concat (map snd l)))%nat.
Proof.
  induction l as [|[b x] l IH]; simpl; [lia|].
  destruct (p (b, x)); simpl; rewrite ?length_app; lia.
Qed.

(** X8: the counts are bounded by the table: at every year of its index the
    type count lies between 0 and the number of rows, and the site count
    between 0 and the number of site entries of the whole table. *)
Theorem counts_bounded st data df lower_date upper_date site_list
    name index_name :
  st !! data = Some df ->
  dated_table df lower_date upper_date = true ->
  is_obj_col df site_list = true ->
  exists ss ts,
    snd (year_site_count_series data lower_date upper_date site_list name
           index_name st) = Ok ss
    /\ snd (year_type_count_series data lower_date upper_date name index_name st)
       = Ok ts
    /\ (forall Y, In Y (s_index ts) ->
          exists n, s_at ts Y = Some n /\ 0 <= n <= Z.of_nat (df_len df))
    /\ (forall Y, In Y (s_index ss) ->
          exists n, s_at ss Y = Some n
                    /\ 0 <= n <= Z.of_nat (length (concat (obj_col df site_list)))).
Proof.
  intros Hdata Hdt Hs.
  destruct (dated_table_inv _ _ _ Hdt)
    as (Hwf & Hlo & Hhi & Yl & Yh & m & M & Hm & Lm & HM & LM).
  pose proof (length_los _ _ _ Hwf Hlo) as Ll.
  pose proof (length_his _ _ _ Hwf Hhi) as Lh.
  pose proof (df_wf_get _ _ _ Hwf (is_obj_col_get _ _ Hs)) as Ls. simpl in Ls.
  rewrite (year_site_count_series_run _ _ _ _ _ name index_name _ _ _ _
             Hdata Hwf Hlo Hhi Yl Yh Hm HM _ _ (is_obj_col_get _ _ Hs)).
  rewrite (year_type_count_series_run _ _ _ _ _ name index_name _ _ _ _
             Hdata Hwf Hlo Hhi Yl Yh Hm HM).
  eexists _, _. split; [reflexivity|]. split; [reflexivity|]. split.
  - intros Y HY. rewrite s_index_tabulate in HY.
    rewrite (s_at_tabulate (fun Y => type_count cast_int64 Y _ _) _ _ _ _ HY).
    eexists. split; [reflexivity|]. unfold type_count. split; [lia|].
    apply inj_le. etransitivity; [apply filter_length_le|].
    rewrite length_zip_with. lia.
  - intros Y HY. rewrite s_index_tabulate in HY.
    rewrite (s_at_tabulate
               (fun Y => distinct (concat (sites_at cast_int64 Y _ _ _))) _ _ _ _ HY).
    eexists. split; [reflexivity|].
    destruct (distinct_le_length
                (concat (sites_at cast_int64 Y (num_col df lower_date)
                           (num_col df upper_date) (obj_col df site_list))))
      as [H0 H1].
    split; [easy|]. etransitivity; [exact H1|]. apply inj_le.
    unfold sites_at. etransitivity; [apply length_concat_filter|].
    rewrite rows_snd by lia. reflexivity.
Qed.

Lemma counts_bounded_witness :
  exists ss ts,
    snd (year_site_count_series 0%nat "lower" "upper" "sites" "Count" "Year"
           [site_table]) = Ok ss
    /\ snd (year_type_count_series 0%nat "lower" "upper" "Count" "Year"
              [site_table]) = Ok ts
    /\ (forall Y, In Y (s_index ts) ->
          exists n, s_at ts Y = Some n /\ 0 <= n <= Z.of_nat (df_len site_table))
    /\ (forall Y, In Y (s_index ss) ->
          exists n, s_at ss Y = Some n
                    /\ 0 <= n
                       <= Z.of_nat (length (concat (obj_col site_table "sites")))).
Proof.
  apply (counts_bounded [site_table] 0%nat site_table "lower" "upper" "sites"
           "Count" "Year"); reflexivity.
Defined.

(** X9: a year that the type count gives 0 is covered by no record: when
    the dates all fit a 64-bit integer and the type-count series is 0 at
    a year, the summed rate there is the initial 0, untouched, and the
    site count is 0.  The half-open test of the rate is never passed
    where the inclusive test of the counts fails. *)
Theorem uncovered_year_is_zero rnd st data df lower_date upper_date dens
    site_list name index_name Y :
  st !! data = Some df ->
  dated_table df lower_date upper_date = true ->
  int64_dates df lower_date upper_date = true ->
  is_num_col df dens = true ->
  is_obj_col df site_list = true ->
  (exists ts,
     snd (year_type_count_series data lower_date upper_date name index_name st)
     = Ok ts
     /\ s_at ts Y = Some 0) ->
  exists fs ss,
    snd (year_freq_series rnd data lower_date upper_date dens name index_name st)
    = Ok fs
    /\ snd (year_site_count_series data lower_date upper_date site_list name
              index_name st) = Ok ss
    /\ s_at fs Y = Some (Fin 0%Q)
    /\ s_at ss Y = Some 0.
Proof.
  intros Hdata Hdt Hb Hd Hs (ts & Hts & H0).
  destruct (dated_table_inv _ _ _ Hdt)
    as (Hwf & Hlo & Hhi & Yl & Yh & m & M & Hm & Lm & HM & LM).
  destruct (int64_dates_inv _ _ _ Hb) as [Bl Bh].
  pose proof (length_los _ _ _ Hwf Hlo) as Ll.
  pose proof (length_his _ _ _ Hwf Hhi) as Lh.
  pose proof (df_wf_get _ _ _ Hwf (is_obj_col_get _ _ Hs)) as Ls.
  pose proof (df_wf_get _ _ _ Hwf (is_num_col_get _ _ Hd)) as Lr.
  simpl in Ls, Lr.
  rewrite (year_type_count_series_run _ _ _ _ _ name index_name _ _ _ _
             Hdata Hwf Hlo Hhi Yl Yh Hm HM) in Hts.
  simpl in Hts. injection Hts as <-.
  rewrite (year_freq_series_run rnd _ _ _ _ _ _ name index_name _ _ _ _ _
             Hdata Hwf Hlo Hhi (is_num_col_get _ _ Hd) Yl Yh Bl Bh Hm HM Lm LM).
  rewrite (year_site_count_series_run _ _ _ _ _ name index_name _ _ _ _
             Hdata Hwf Hlo Hhi Yl Yh Hm HM _ _ (is_obj_col_get _ _ Hs)).
  eexists _, _. do 2 (split; [reflexivity|]).
  unfold s_at in *. simpl in *.
  rewrite dict_lookup_tabulate in H0. rewrite !dict_lookup_tabulate.
  destruct (in_dec Z.eq_dec Y (range (Qtrunc m) (Qtrunc M))); [|easy].
  injection H0 as H0. split; f_equal.
  - unfold rate_sum.
    rewrite (filter_nil_all
               (fun r : num * num * num => in_span Qtrunc false Y (fst r))); [easy|].
    intros r Hr.
    assert (Hz : In (fst r) (zip (num_col df lower_date) (num_col df upper_date))).
    { unfold rows in Hr. apply list_elem_of_In, elem_of_zip_with in Hr
        as (d & x & -> & Hin & _). now apply list_elem_of_In. }
    rewrite <- (in_span_int64 false Y _ _ _ Bl Bh Hz).
    apply (filter_nil_in (fun r : num * num * num => in_span cast_int64 false Y (fst r))
             (rows (num_col df lower_date) (num_col df upper_date) (num_col df dens)));
      [|exact Hr].
    apply type_count_zero_rows; (auto; lia).
  - unfold sites_at.
    now rewrite (type_count_zero_rows _ _ _ _ _ true) by (auto; lia).
Qed.

Lemma uncovered_year_is_zero_witness :
  exists fs ss,
    snd (year_freq_series exact_rnd 0%nat "lower" "upper" "rate" "Series" "Year"
           [gap_table]) = Ok fs
    /\ snd (year_site_count_series 0%nat "lower" "upper" "sites" "Series" "Year"
              [gap_table]) = Ok ss
    /\ s_at fs 1994 = Some (Fin 0%Q)
    /\ s_at ss 1994 = Some 0.
Proof.
  apply (uncovered_year_is_zero exact_rnd [gap_table] 0%nat gap_table
           "lower" "upper" "rate" "sites" "Series" "Year" 1994);
    try reflexivity.
  eexists. split; [vm_compute; reflexivity|reflexivity].
Defined.

(** ** The rate column, read or not *)

(** A loop that only reads the store, in which every step either goes
    on or raises [e], and some step raises [e] whatever the state. *)
Lemma for_each_first_raise {A S} (I : S -> Prop) (body : S -> A -> M S)
    st e (l : list A) (s0 : S) :
  I s0 ->
  (forall s x, In x l -> I s ->
     (exists s', body s x st = (st, Ok s') /\ I s')
     \/ body s x st = (st, Raise e)) ->
  (exists x, In x l /\ forall s, I s -> body s x st = (st, Raise e)) ->
  for_each l body s0 st = (st, Raise e).
Proof.
  revert s0. induction l as [|x l IH]; intros s0 H0 Hstep (x0 & Hx0 & Hr).
  - destruct Hx0.
  - simpl. destruct (Hstep s0 x (or_introl eq_refl) H0) as [(s1 & Hb & H1)|Hb].
    + rewrite (bind_ok _ _ _ _ _ Hb). apply IH; [easy| |].
      * intros s y Hy. apply Hstep. now right.
      * destruct Hx0 as [<-|Hx0]; [|now exists x0].
        rewrite (Hr s0 H0) in Hb. discriminate.
    + now rewrite (bind_raise _ _ _ _ _ Hb).
Qed.

Lemma in_zip_rows {X} los his (xs : list X) d :
  length his = length los -> length xs = length los ->
  In d (zip los his) -> exists r, In r (rows los his xs) /\ fst r = d.
Proof.
  intros H1 H2 Hd.
  assert (E : map fst (rows los his xs) = zip los his).
  { unfold rows. change (map fst (zip (zip los his) xs))
      with ((zip (zip los his) xs).*1).
    apply fst_zip. rewrite length_zip_with. lia. }
  rewrite <- E in Hd. apply in_map_iff in Hd as (r & Hr & Hin). now exists r.
Qed.

(** X10: the rate column is read only while a year is being accumulated.
    When it is absent from a table of dated records whose dates all fit
    a 64-bit integer, and some record spans at least one year
    ([int(lower_date) < int(upper_date)]), [year_freq_series] raises
    [KeyError] for that column. *)
Theorem year_freq_series_missing_rate rnd st data df lower_date upper_date
    dens name index_name :
  st !! data = Some df ->
  dated_table df lower_date upper_date = true ->
  int64_dates df lower_date upper_date = true ->
  df_get df dens = None ->
  (exists l h,
     In (Fin l, Fin h) (zip (num_col df lower_date) (num_col df upper_date))
     /\ Qtrunc l < Qtrunc h) ->
  snd (year_freq_series rnd data lower_date upper_date dens name index_name st)
  = Raise (KeyError (KStr dens)).
Proof.
  intros Hdata Hdt Hb Hdens Hspan.
  set (los := num_col df lower_date) in *.
  set (his := num_col df upper_date) in *.
  destruct (dated_table_inv _ _ _ Hdt)
    as (Hwf & Hlo & Hhi & Yl & Yh & m & M & Hm & Lm & HM & LM).
  destruct (int64_dates_inv _ _ _ Hb) as [Bl Bh].
  fold los in Hlo, Yl, Hm, Lm, Bl. fold his in Hhi, Yh, HM, LM, Bh.
  pose proof (length_los _ _ _ Hwf Hlo) as Ll.
  pose proof (length_his _ _ _ Hwf Hhi) as Lh.
  pose proof (frame2_lo _ _ _ _ _ Hwf Hlo Hhi los Ll) as Flo.
  pose proof (frame2_hi _ _ _ _ _ Hwf Hlo Hhi los Ll) as Fhi.
  pose proof (frame2_len _ _ _ _ _ Hwf Hlo Hhi los Ll) as Flen.
  assert (L1 : length his = length los) by lia.
  set (T2 := dated (rows los his los)) in *.
  set (st2 := st ++ [frame1 df los; frame2 df los his]).
  pose proof (lookup_frame2 st df los his) as Hd2. fold st2 in Hd2.
  assert (Alo : forallb is_fin (map (fun r => fst (fst r)) T2) = true)
    by (apply dated_all_fin; auto).
  assert (Ahi : forallb is_fin (map (fun r => snd (fst r)) T2) = true)
    by (apply dated_all_fin; auto).
  assert (Hdens2 : df_get (frame2 df los his) dens = None).
  { unfold frame2, frame1. now rewrite !df_get_keep, Hdens. }
  set (ks := range (Qtrunc m) (Qtrunc M)).
  set (e := KeyError (KStr dens)).
  (* one row, on a bin map whose keys are the span *)
  assert (Hrow : forall k r l h (d : dict num),
            T2 !! k = Some r -> fst r = (Fin l, Fin h) -> keys d = ks ->
            (let* start := int_at (S (length st)) lower_date k in
             let* stop := int_at (S (length st)) upper_date k in
             for_each (range start stop)
               (fun date_dict year =>
                  let* old := lift (dict_get date_dict year) in
                  let* col := getitem (S (length st)) dens in
                  let* v := lift (col_iloc col k) in
                  let* new := lift (py_add rnd old v) in
                  ret (dict_set date_dict year new)) d) st2
            = if Qtrunc l <? Qtrunc h then (st2, Raise e) else (st2, Ok d)).
  { intros k r l h d Hr Er Hk.
    rewrite (bind_ok _ _ _ _ _ (int_at_run _ T2 _ _ _ _ _ _ Hd2 Flo Alo Hr)).
    rewrite (bind_ok _ _ _ _ _ (int_at_run _ T2 _ _ _ _ _ _ Hd2 Fhi Ahi Hr)).
    rewrite Er. cbn [fst snd num_int64].
    assert (Hin : In r T2).
    { apply list_elem_of_In. eapply list_elem_of_lookup_2. exact Hr. }
    destruct (dated_fin _ _ _ _ L1 eq_refl Yl Yh Hin) as (l' & h' & Er' & Il & Ih).
    rewrite Er in Er'. injection Er' as <- <-.
    rewrite (cast_int64_fits _ _ Bl Il), (cast_int64_fits _ _ Bh Ih).
    destruct (Z.ltb_spec (Qtrunc l) (Qtrunc h)) as [Hlt|Hge].
    - rewrite (range_cons _ _ Hlt). simpl.
      assert (Hy : In (Qtrunc l) (keys d)).
      { rewrite Hk. apply in_range.
        pose proof (least_trunc _ _ _ Lm Il).
        pose proof (greatest_trunc _ _ _ LM Ih). lia. }
      destruct (dict_get_keys d _ Hy) as [old Hold].
      erewrite bind_raise; [reflexivity|].
      rewrite (bind_lift _ _ _ _ Hold).
      now rewrite (bind_raise _ _ _ _ _ (getitem_missing _ _ _ _ Hd2 Hdens2)).
    - now rewrite (range_nil _ _ Hge). }
  assert (Hfin : forall k r, T2 !! k = Some r -> exists l h, fst r = (Fin l, Fin h)).
  { intros k r Hr.
    assert (Hin : In r T2).
    { apply list_elem_of_In. eapply list_elem_of_lookup_2. exact Hr. }
    destruct (dated_fin _ _ _ _ L1 eq_refl Yl Yh Hin) as (l & h & Er & _).
    now exists l, h. }
  unfold year_freq_series.
  rewrite (bind_ok _ _ _ _ _ (getitem_run _ _ _ _ _ Hdata Hlo)).
  rewrite (bind_lift (col_min (NumCol los)) _ _ _ eq_refl).
  rewrite (bind_ok _ _ _ _ _ (getitem_run _ _ _ _ _ Hdata Hhi)).
  rewrite (bind_lift (col_max (NumCol his)) _ _ _ eq_refl).
  rewrite Hm, HM.
  rewrite (bind_lift (py_int (Fin m)) _ _ _ eq_refl).
  rewrite (bind_lift (py_int (Fin M)) _ _ _ eq_refl).
  cbv zeta.
  rewrite (bind_ok _ _ _ _ _ (dropna_lo_run _ _ _ _ _ Hdata Hlo)).
  rewrite (bind_ok _ _ _ _ _ (dropna_hi_run st _ _ los _ Hhi)).
  fold st2.
  rewrite (bind_ok _ _ _ _ _ (len_run _ _ _ Hd2)), Flen. fold ks.
  destruct Hspan as (l & h & Hin & Hlt).
  destruct (in_zip_rows los his los _ L1 eq_refl Hin) as ([[l' h'] x] & Hr & Er).
  simpl in Er. injection Er as -> ->.
  assert (Hr2 : In (Fin l, Fin h, x) T2) by now apply in_dated.
  apply list_elem_of_In, list_elem_of_lookup_1 in Hr2 as [k Hk].
  erewrite bind_raise; [reflexivity|].
  apply (for_each_first_raise (fun d => keys d = ks)).
  - apply (keys_tabulate (fun _ => Fin 0%Q)).
  - intros d k' Hk' Hd. apply in_seq in Hk' as [_ Hk']. simpl in Hk'.
    destruct (lookup_lt_is_Some_2 T2 k' Hk') as [r' Hr'].
    destruct (Hfin _ _ Hr') as (l' & h' & Er').
    rewrite (Hrow _ _ _ _ d Hr' Er' Hd).
    destruct (Qtrunc l' <? Qtrunc h'); [now right|left; now exists d].
  - exists k. split.
    + apply in_seq. apply lookup_lt_Some in Hk. simpl. lia.
    + intros d Hd. rewrite (Hrow _ _ _ _ d Hk eq_refl Hd).
      now apply Z.ltb_lt in Hlt as ->.
Qed.

Lemma year_freq_series_missing_rate_witness :
  snd (year_freq_series exact_rnd 0%nat "lower" "upper" "rate" "Frequency" "Year"
         [site_table])
  = Raise (KeyError (KStr "rate")).
Proof.
  apply (year_freq_series_missing_rate exact_rnd [site_table] 0%nat site_table
           "lower" "upper" "rate" "Frequency" "Year"); try reflexivity.
  exists (1990 # 1), (1995 # 1). split; [now left|reflexivity].
Defined.

(** X11: when no record of a table of dated records spans a year, that is
    when [int(upper_date) <= int(lower_date)] in every row that has both
    dates, with [int] the 64-bit cast of [astype(int)], the rate column
    is never read: [year_freq_series] returns the series of zeros over
    the resolved span, whether the table has that column or not. *)
Theorem year_freq_series_rate_unread rnd st data df lower_date upper_date
    dens name index_name :
  st !! data = Some df ->
  dated_table df lower_date upper_date = true ->
  (forall l h,
     In (Fin l, Fin h) (zip (num_col df lower_date) (num_col df upper_date)) ->
     cast_int64 h <= cast_int64 l) ->
  snd (year_freq_series rnd data lower_date upper_date dens name index_name st)
  = Ok (mkSeries name index_name
          (fromkeys (range (fst (year_range df lower_date upper_date))
                           (snd (year_range df lower_date upper_date)))
                    (Fin 0%Q))).
Proof.
  intros Hdata Hdt Hnone.
  set (los := num_col df lower_date) in *.
  set (his := num_col df upper_date) in *.
  destruct (dated_table_inv _ _ _ Hdt)
    as (Hwf & Hlo & Hhi & Yl & Yh & m & M & Hm & Lm & HM & LM).
  fold los in Hlo, Yl, Hm, Lm. fold his in Hhi, Yh, HM, LM.
  pose proof (length_los _ _ _ Hwf Hlo) as Ll.
  pose proof (length_his _ _ _ Hwf Hhi) as Lh.
  pose proof (frame2_lo _ _ _ _ _ Hwf Hlo Hhi los Ll) as Flo.
  pose proof (frame2_hi _ _ _ _ _ Hwf Hlo Hhi los Ll) as Fhi.
  pose proof (frame2_len _ _ _ _ _ Hwf Hlo Hhi los Ll) as Flen.
  assert (L1 : length his = length los) by lia.
  set (T2 := dated (rows los his los)) in *.
  set (st2 := st ++ [frame1 df los; frame2 df los his]).
  pose proof (lookup_frame2 st df los his) as Hd2. fold st2 in Hd2.
  assert (Alo : forallb is_fin (map (fun r => fst (fst r)) T2) = true)
    by (apply dated_all_fin; auto).
  assert (Ahi : forallb is_fin (map (fun r => snd (fst r)) T2) = true)
    by (apply dated_all_fin; auto).
  set (ks := range (Qtrunc m) (Qtrunc M)).
  (* one row: no year, nothing read *)
  assert (Hrow : forall k r (d : dict num),
            T2 !! k = Some r ->
            (let* start := int_at (S (length st)) lower_date k in
             let* stop := int_at (S (length st)) upper_date k in
             for_each (range start stop)
               (fun date_dict year =>
                  let* old := lift (dict_get date_dict year) in
                  let* col := getitem (S (length st)) dens in
                  let* v := lift (col_iloc col k) in
                  let* new := lift (py_add rnd old v) in
                  ret (dict_set date_dict year new)) d) st2
            = (st2, Ok d)).
  { intros k r d Hr.
    rewrite (bind_ok _ _ _ _ _ (int_at_run _ T2 _ _ _ _ _ _ Hd2 Flo Alo Hr)).
    rewrite (bind_ok _ _ _ _ _ (int_at_run _ T2 _ _ _ _ _ _ Hd2 Fhi Ahi Hr)).
    assert (Hin : In r T2).
    { apply list_elem_of_In. eapply list_elem_of_lookup_2. exact Hr. }
    destruct (dated_fin _ _ _ _ L1 eq_refl Yl Yh Hin) as (l & h & Er & _).
    assert (Hz : In (fst r) (zip los his)).
    { apply in_dated in Hin as (Hin & _ & _).
      unfold rows in Hin. apply list_elem_of_In, elem_of_zip_with in Hin
        as (d' & x & -> & Hd' & _). now apply list_elem_of_In. }
    rewrite Er in Hz. pose proof (Hnone _ _ Hz) as Hle.
    rewrite Er. cbn [fst snd num_int64].
    now rewrite (range_nil _ _ Hle). }
  unfold year_freq_series.
  rewrite (bind_ok _ _ _ _ _ (getitem_run _ _ _ _ _ Hdata Hlo)).
  rewrite (bind_lift (col_min (NumCol los)) _ _ _ eq_refl).
  rewrite (bind_ok _ _ _ _ _ (getitem_run _ _ _ _ _ Hdata Hhi)).
  rewrite (bind_lift (col_max (NumCol his)) _ _ _ eq_refl).
  rewrite Hm, HM.
  rewrite (bind_lift (py_int (Fin m)) _ _ _ eq_refl).
  rewrite (bind_lift (py_int (Fin M)) _ _ _ eq_refl).
  cbv zeta.
  rewrite (bind_ok _ _ _ _ _ (dropna_lo_run _ _ _ _ _ Hdata Hlo)).
  rewrite (bind_ok _ _ _ _ _ (dropna_hi_run st _ _ los _ Hhi)).
  fold st2.
  rewrite (bind_ok _ _ _ _ _ (len_run _ _ _ Hd2)), Flen. fold ks.
  match goal with
  | |- snd (bind (for_each _ ?body ?d0) _ _) = _ =>
      destruct (for_each_seq_inv (fun _ d => d = d0) body st2 (length T2) 0 d0)
        as (d & Hrun & ->)
  end.
  - reflexivity.
  - intros k d [_ Hk] ->. simpl in Hk.
    destruct (lookup_lt_is_Some_2 T2 k Hk) as [r Hr].
    rewrite (Hrow _ _ (fromkeys ks (Fin 0%Q)) Hr).
    eexists. split; reflexivity.
  - rewrite (bind_ok _ _ _ _ _ Hrun). unfold ret, create_series, year_range.
    fold los his. now rewrite Hm, HM.
Qed.

Lemma year_freq_series_rate_unread_witness :
  snd (year_freq_series exact_rnd 0%nat "lower" "upper" "rate" "Frequency" "Year"
         [short_table])
  = Ok (mkSeries "Frequency" "Year"
          (fromkeys (range (fst (year_range short_table "lower" "upper"))
                           (snd (year_range short_table "lower" "upper")))
                    (Fin 0%Q))).
Proof.
  apply (year_freq_series_rate_unread exact_rnd [short_table] 0%nat short_table
           "lower" "upper" "rate" "Frequency" "Year"); try reflexivity.
  intros l h [E|[E|[]]]; injection E as <- <-; vm_compute; discriminate.
Defined.

(** ** The order of the rows *)

Lemma perm_filter {A} (p : A -> bool) (l l' : list A) :
  Permutation l l' -> Permutation (List.filter p l) (List.filter p l').
Proof.
  induction 1 as [|x l l' _ IH|x y l|l l' l'' _ IH1 _ IH2]; simpl.
  - constructor.
  - destruct (p x); [now constructor|exact IH].
  - destruct (p x), (p y); try reflexivity. apply perm_swap.
  - now transitivity (List.filter p l').
Qed.

Lemma perm_concat {A} (l l' : list (list A)) :
  Permutation l l' -> Permutation (concat l) (concat l').
Proof.
  induction 1 as [|x l l' _ IH|x y l|l l' l'' _ IH1 _ IH2]; simpl.
  - constructor.
  - now apply Permutation_app_head.
  - apply Permutation_app_swap_app.
  - now transitivity (concat l').
Qed.

Lemma distinct_perm l l' : Permutation l l' -> distinct l = distinct l'.
Proof.
  intros H. unfold distinct. do 2 f_equal. now apply list_to_set_perm_L.
Qed.

Lemma least_perm m m' xs xs' :
  least m xs -> least m' xs' -> Permutation xs xs' -> Qtrunc m = Qtrunc m'.
Proof.
  intros [Hin Hle] [Hin' Hle'] Hp.
  assert (H1 : num_leb (Fin m) (Fin m') = true).
  { apply Hle; [|easy]. apply (Permutation_in _ (Permutation_sym Hp) Hin'). }
  assert (H2 : num_leb (Fin m') (Fin m) = true).
  { apply Hle'; [|easy]. apply (Permutation_in _ Hp Hin). }
  simpl in H1, H2. apply Qle_bool_iff in H1, H2.
  apply Qtrunc_mono in H1, H2. lia.
Qed.

Lemma greatest_perm m m' xs xs' :
  greatest m xs -> greatest m' xs' -> Permutation xs xs' -> Qtrunc m = Qtrunc m'.
Proof.
  intros [Hin Hle] [Hin' Hle'] Hp.
  assert (H1 : num_leb (Fin m') (Fin m) = true).
  { apply Hle; [|easy]. apply (Permutation_in _ (Permutation_sym Hp) Hin'). }
  assert (H2 : num_leb (Fin m) (Fin m') = true).
  { apply Hle'; [|easy]. apply (Permutation_in _ Hp Hin). }
  simpl in H1, H2. apply Qle_bool_iff in H1, H2.
  apply Qtrunc_mono in H1, H2. lia.
Qed.

(** X12: the two counts do not depend on the order of the rows: two tables of
    dated records whose rows (lower date, upper date, site list) are the
    same up to their order give the same site-count series and the same
    type-count series. *)
Theorem counts_row_order st data df st' data' df' lower_date upper_date
    site_list name index_name :
  st !! data = Some df ->
  st' !! data' = Some df' ->
  dated_table df lower_date upper_date = true ->
  dated_table df' lower_date upper_date = true ->
  is_obj_col df site_list = true ->
  is_obj_col df' site_list = true ->
  Permutation
    (rows (num_col df lower_date) (num_col df upper_date) (obj_col df site_list))
    (rows (num_col df' lower_date) (num_col df' upper_date)
       (obj_col df' site_list)) ->
  (exists s,
     snd (year_site_count_series data lower_date upper_date site_list name
            index_name st) = Ok s
     /\ snd (year_site_count_series data' lower_date upper_date site_list name
               index_name st') = Ok s)
  /\ (exists s,
        snd (year_type_count_series data lower_date upper_date name index_name st)
        = Ok s
        /\ snd (year_type_count_series data' lower_date upper_date name
                  index_name st') = Ok s).
Proof.
  intros Hdata Hdata' Hdt Hdt' Hs Hs' Hperm.
  destruct (dated_table_inv _ _ _ Hdt)
    as (Hwf & Hlo & Hhi & Yl & Yh & m & M & Hm & Lm & HM & LM).
  destruct (dated_table_inv _ _ _ Hdt')
    as (Hwf' & Hlo' & Hhi' & Yl' & Yh' & m' & M' & Hm' & Lm' & HM' & LM').
  pose proof (length_los _ _ _ Hwf Hlo) as Ll.
  pose proof (length_his _ _ _ Hwf Hhi) as Lh.
  pose proof (length_los _ _ _ Hwf' Hlo') as Ll'.
  pose proof (length_his _ _ _ Hwf' Hhi') as Lh'.
  pose proof (df_wf_get _ _ _ Hwf (is_obj_col_get _ _ Hs)) as Ls.
  pose proof (df_wf_get _ _ _ Hwf' (is_obj_col_get _ _ Hs')) as Ls'.
  simpl in Ls, Ls'.
  assert (Plo : Permutation (num_col df lower_date) (num_col df' lower_date)).
  { rewrite <- (rows_lo (num_col df lower_date) (num_col df upper_date)
                  (obj_col df site_list)) by lia.
    rewrite <- (rows_lo (num_col df' lower_date) (num_col df' upper_date)
                  (obj_col df' site_list)) by lia.
    now apply Permutation_map. }
  assert (Phi : Permutation (num_col df upper_date) (num_col df' upper_date)).
  { rewrite <- (rows_hi (num_col df lower_date) (num_col df upper_date)
                  (obj_col df site_list)) by lia.
    rewrite <- (rows_hi (num_col df' lower_date) (num_col df' upper_date)
                  (obj_col df' site_list)) by lia.
    now apply Permutation_map. }
  pose proof (least_perm _ _ _ _ Lm Lm' Plo) as Ea.
  pose proof (greatest_perm _ _ _ _ LM LM' Phi) as Eb.
  rewrite (year_site_count_series_run _ _ _ _ _ name index_name _ _ _ _
             Hdata Hwf Hlo Hhi Yl Yh Hm HM _ _ (is_obj_col_get _ _ Hs)).
  rewrite (year_site_count_series_run _ _ _ _ _ name index_name _ _ _ _
             Hdata' Hwf' Hlo' Hhi' Yl' Yh' Hm' HM' _ _ (is_obj_col_get _ _ Hs')).
  rewrite (year_type_count_series_run _ _ _ _ _ name index_name _ _ _ _
             Hdata Hwf Hlo Hhi Yl Yh Hm HM).
  rewrite (year_type_count_series_run _ _ _ _ _ name index_name _ _ _ _
             Hdata' Hwf' Hlo' Hhi' Yl' Yh' Hm' HM').
  simpl snd. rewrite <- Ea, <- Eb. split.
  - eexists. split; [reflexivity|]. do 2 f_equal. apply tabulate_ext.
    intros Y _. apply distinct_perm, perm_concat. unfold sites_at.
    apply Permutation_map, perm_filter. now apply Permutation_sym.
  - eexists. split; [reflexivity|]. do 2 f_equal. apply tabulate_ext.
    intros Y _.
    rewrite <- (type_count_rows cast_int64 Y (num_col df lower_date) _
                  (obj_col df site_list)) by lia.
    rewrite <- (type_count_rows cast_int64 Y (num_col df' lower_date) _
                  (obj_col df' site_list)) by lia.
    f_equal. apply Permutation_length, perm_filter. now apply Permutation_sym.
Qed.

Lemma counts_row_order_witness :
  (exists s,
     snd (year_site_count_series 0%nat "lower" "upper" "sites" "Count" "Year"
            [site_table]) = Ok s
     /\ snd (year_site_count_series 0%nat "lower" "upper" "sites" "Count" "Year"
               [site_table_rev]) = Ok s)
  /\ (exists s,
        snd (year_type_count_series 0%nat "lower" "upper" "Count" "Year"
               [site_table]) = Ok s
        /\ snd (year_type_count_series 0%nat "lower" "upper" "Count" "Year"
                  [site_table_rev]) = Ok s).
Proof.
  apply (counts_row_order [site_table] 0%nat site_table [site_table_rev] 0%nat
           site_table_rev "lower" "upper" "sites" "Count" "Year");
    try reflexivity.
  apply perm_swap.
Defined.
